(** * Clinic scheduling: conflict check, slot generation and booking validation

    A shallow embedding of the scheduling code of the clinic server:
    - [models/Appointment.js]: the appointment schema, its statics and its
      indexes;
    - [models/Staff.js]: the weekly availability of a staff member;
    - [routes/appointments.js]: the router, booking creation, the routes on
      one appointment and the slot query;
    - [routes/staff.js]: the routes that write a staff member's availability
      and the staff member's slot query.

    Times of day are kept as the code keeps them: strings such as ["09:00"],
    compared with the string order of JavaScript and MongoDB, and converted
    to minutes only where the code converts them. *)

From Stdlib Require Import ZArith List Bool Lia String Ascii DecimalString Sorted.
From Stdlib Require Import OrderedTypeEx.
Import ListNotations.

Open Scope string_scope.
Open Scope list_scope.
Open Scope Z_scope.

(* ================================================================== *)
(** * Part I: definitions *)
(* ================================================================== *)

(** ** Strings the way JavaScript uses them *)

(** [a < b], [a <= b], [a > b], [a >= b] on two strings: code-unit-wise
    lexicographic order.  MongoDB's [$lt] and [$gt] on two strings use the
    same order (binary comparison, no collation is configured). *)
Definition str_lt (a b : string) : bool := String.ltb a b.
Definition str_le (a b : string) : bool := String.leb a b.
Definition str_gt (a b : string) : bool := String.ltb b a.
Definition str_ge (a b : string) : bool := String.leb b a.

(** [c] lies in the character class [[lo-hi]]. *)
Definition inClass (lo hi c : ascii) : bool :=
  (Ascii.leb lo c && Ascii.leb c hi)%bool.

(** The time pattern used by every validator of the repository:
    [/^([0-1]?[0-9]|2[0-3]):[0-5][0-9]$/]. *)
Definition timeFormat (v : string) : bool :=
  match list_ascii_of_string v with
  | [h; c; m1; m2] =>
      inClass "0" "9" h && Ascii.eqb c ":" &&
      inClass "0" "5" m1 && inClass "0" "9" m2
  | [h1; h2; c; m1; m2] =>
      ((inClass "0" "1" h1 && inClass "0" "9" h2)
       || (Ascii.eqb h1 "2" && inClass "0" "3" h2)) &&
      Ascii.eqb c ":" && inClass "0" "5" m1 && inClass "0" "9" m2
  | _ => false
  end.

(** The times the pattern admits with a two-digit hour: the [HH:MM] shape of
    the data model. *)
Definition isHHMM (v : string) : bool :=
  timeFormat v && Nat.eqb (String.length v) 5.

(** [s.split(sep)] for a one-character separator. *)
Fixpoint split (sep : ascii) (s : string) : list string :=
  match s with
  | EmptyString => [EmptyString]
  | String c rest =>
      if Ascii.eqb c sep then EmptyString :: split sep rest
      else match split sep rest with
           | piece :: pieces => String c piece :: pieces
           | [] => [String c EmptyString]
           end
  end.

(** [Number(s)] on a string of decimal digits (the empty string gives 0, as
    in JavaScript).  On any other string JavaScript gives NaN or parses a
    richer syntax; this is outside the embedding, which reads 0 there: every
    stored time passes [timeFormat], so that only digit strings reach
    [Number]. *)
Definition Number (s : string) : Z :=
  match NilEmpty.uint_of_string s with
  | Some u => Z.of_uint u
  | None => 0
  end.

(** [z.toString()] for an integer. *)
Definition toString (z : Z) : string := NilZero.string_of_int (Z.to_int z).

(** [s.padStart(targetLength, pad)] for a one-character [pad]. *)
Definition padStart (targetLength : nat) (pad : ascii) (s : string) : string :=
  (string_of_list_ascii (repeat pad (targetLength - String.length s)) ++ s)%string.

(** [timeToMinutes]: [const [hours, minutes] = timeStr.split(':').map(Number);
    return hours * 60 + minutes]. *)
Definition timeToMinutes (timeStr : string) : Z :=
  match map Number (split ":" timeStr) with
  | hours :: minutes :: _ => hours * 60 + minutes
  | _ => 0
  end.

(** [minutesToTime]: [Math.floor(minutes / 60)] is the floor quotient and
    [minutes % 60] the remainder with the sign of the dividend. *)
Definition minutesToTime (minutes : Z) : string :=
  let hours := minutes / 60 in
  let mins := Z.rem minutes 60 in
  (padStart 2 "0" (toString hours) ++ ":" ++ padStart 2 "0" (toString mins))%string.

(** [new Date(`1970-01-01T${t}:00`)], as the time elapsed since local midnight
    of that day, in milliseconds.  The string is a date-time of the ISO format
    only when [t] has two hour digits; for the strings of the time pattern
    with one hour digit (["9:00"]) the date is invalid and its time value is
    [NaN], here [None].  Strings outside the time pattern never reach the
    function (the validators run first) and are read as invalid. *)
Definition localMillis (t : string) : option Z :=
  if isHHMM t then Some (timeToMinutes t * 60 * 1000) else None.

(** [calculateDurationMinutes]: [(end - start) / (1000 * 60)] on the two
    dates; [None] is [NaN], the result when one of the dates is invalid. *)
Definition calculateDurationMinutes (startTime endTime : string) : option Z :=
  match localMillis startTime, localMillis endTime with
  | Some start, Some end_ => Some ((end_ - start) / (1000 * 60))
  | _, _ => None
  end.

(** ** Data model *)

(** Document identifiers: Mongo ObjectIds in their string form, 24
    hexadecimal digits.  Two spellings of one ObjectId that differ in the case
    of a digit are different strings; identifiers are taken in the lower-case
    form in which the driver prints them. *)
Definition ObjectId := string.

Definition isHexDigit (c : ascii) : bool :=
  inClass "0" "9" c || inClass "a" "f" c || inClass "A" "F" c.

(** [isMongoId()] of the validators, which is also what Mongoose accepts
    when it casts a string to an ObjectId: 24 hexadecimal digits.  (Drivers
    older than bson 5 also cast any string of 12 characters, taking it for
    the twelve bytes of an ObjectId; the statements below that rest on a
    failed cast leave the strings of length 12 out.) *)
Definition isMongoId (s : string) : bool :=
  Nat.eqb (String.length s) 24 && forallb isHexDigit (list_ascii_of_string s).

(** [appointmentSchema.status]. *)
Inductive Status :=
| Scheduled | Confirmed | InProgress | Completed | Cancelled | NoShow
| Rescheduled.

Definition Status_eqb (a b : Status) : bool :=
  match a, b with
  | Scheduled, Scheduled | Confirmed, Confirmed | InProgress, InProgress
  | Completed, Completed | Cancelled, Cancelled | NoShow, NoShow
  | Rescheduled, Rescheduled => true
  | _, _ => false
  end.

(** The scheduling fields of an appointment document.  [appointmentDate] is
    the stored instant in milliseconds since the epoch. *)
Record Appointment := mkAppointment {
  appt_id : ObjectId;
  appt_patient : ObjectId;
  appt_staff : ObjectId;
  appt_service : ObjectId;
  appointmentDate : Z;
  appt_startTime : string;
  appt_endTime : string;
  appt_status : Status
}.

(** [staffSchema.availability.dayOfWeek]. *)
Inductive Weekday :=
| Monday | Tuesday | Wednesday | Thursday | Friday | Saturday | Sunday.

Definition Weekday_eqb (a b : Weekday) : bool :=
  match a, b with
  | Monday, Monday | Tuesday, Tuesday | Wednesday, Wednesday
  | Thursday, Thursday | Friday, Friday | Saturday, Saturday
  | Sunday, Sunday => true
  | _, _ => false
  end.

(** One entry of [staffSchema.availability]. *)
Record AvailabilityWindow := mkWindow {
  dayOfWeek : Weekday;
  avail_startTime : string;
  avail_endTime : string
}.

Record Staff := mkStaff {
  staff_id : ObjectId;
  staff_isActive : bool;
  staff_specialty : string;
  availability : list AvailabilityWindow
}.

(** [specialtyRequired] is optional; an absent or empty value is falsy. *)
Record Service := mkService {
  service_id : ObjectId;
  service_isActive : bool;
  durationMinutes : Z;
  specialtyRequired : option string;
  price : Z
}.

Record Patient := mkPatient { patient_id : ObjectId }.

(** A generated slot: [{ startTime: slotStart, endTime: slotEnd }]. *)
Record Slot := mkSlot {
  slot_startTime : string;
  slot_endTime : string
}.

(** The collections of the database. *)
Record Db := mkDb {
  patients : list Patient;
  staffMembers : list Staff;
  services : list Service;
  appointments : list Appointment
}.

(** ** Appointment statics ([models/Appointment.js]) *)

(** [status: { $nin: ['Cancelled', 'No Show'] }]. *)
Definition statusNotIn (a : Appointment) : bool :=
  negb (existsb (Status_eqb (appt_status a)) [Cancelled; NoShow]).

(** The one clause of the [$or] of the conflict query:
    [startTime: { $lt: endTime }, endTime: { $gt: startTime }]. *)
Definition timesOverlap (a : Appointment) (startTime endTime : string) : bool :=
  str_lt (appt_startTime a) endTime && str_gt (appt_endTime a) startTime.

(** [if (excludeId)]: null, undefined and the empty string are falsy. *)
Definition truthyId (excludeId : option ObjectId) : option ObjectId :=
  match excludeId with
  | Some x => if String.eqb x EmptyString then None else Some x
  | None => None
  end.

(** The filter built by [checkConflict]. *)
Definition conflictQuery (staffId : ObjectId) (date : Z)
    (startTime endTime : string) (excludeId : option ObjectId)
    (a : Appointment) : bool :=
  String.eqb (appt_staff a) staffId &&
  Z.eqb (appointmentDate a) date &&
  statusNotIn a &&
  timesOverlap a startTime endTime &&
  match truthyId excludeId with
  | Some x => negb (String.eqb (appt_id a) x)
  | None => true
  end.

(** [Appointment.checkConflict]: [this.findOne(query)], the first matching
    document or null. *)
Definition checkConflict (coll : list Appointment) (staffId : ObjectId)
    (date : Z) (startTime endTime : string) (excludeId : option ObjectId)
    : option Appointment :=
  find (conflictQuery staffId date startTime endTime excludeId) coll.

(** The callers test the result for truthiness: [if (conflict)]. *)
Definition conflictReported (r : option Appointment) : bool :=
  match r with Some _ => true | None => false end.

(** ** Slot generation ([routes/appointments.js]) *)

(** The callback of [existingAppointments.some]:
    [currentMinutes < apptEnd && currentMinutes + serviceDuration > apptStart]. *)
Definition slotConflicts (currentMinutes serviceDuration : Z)
    (appointment : Appointment) : bool :=
  let apptStart := timeToMinutes (appt_startTime appointment) in
  let apptEnd := timeToMinutes (appt_endTime appointment) in
  (currentMinutes <? apptEnd) && (currentMinutes + serviceDuration >? apptStart).

(** The [while] loop of [calculateAvailableSlots]; [availableSlots] is the
    array the loop pushes onto, [fuel] bounds the number of iterations. *)
Fixpoint slotLoop (fuel : nat) (currentMinutes serviceDuration endMinutes : Z)
    (existingAppointments : list Appointment) (availableSlots : list Slot)
    : list Slot :=
  match fuel with
  | O => availableSlots
  | S fuel' =>
      if currentMinutes + serviceDuration <=? endMinutes then
        let slotStart := minutesToTime currentMinutes in
        let slotEnd := minutesToTime (currentMinutes + serviceDuration) in
        let hasConflict :=
          existsb (slotConflicts currentMinutes serviceDuration)
                  existingAppointments in
        slotLoop fuel' (currentMinutes + 30) serviceDuration endMinutes
          existingAppointments
          (if negb hasConflict
           then availableSlots ++ [mkSlot slotStart slotEnd]
           else availableSlots)
      else availableSlots
  end.

(** The number of times the loop condition holds when the loop starts at
    [startMinutes]: the candidates [startMinutes + 30 * k] with
    [startMinutes + 30 * k + serviceDuration <= endMinutes]. *)
Definition iterations (startMinutes serviceDuration endMinutes : Z) : nat :=
  Z.to_nat ((endMinutes - serviceDuration - startMinutes) / 30 + 1).

(** [calculateAvailableSlots(startTime, endTime, serviceDuration,
    existingAppointments)].  The loop is run with one unit of fuel more than
    it can use ([slotLoop_fuel] below shows that more fuel changes
    nothing). *)
Definition calculateAvailableSlots (startTime endTime : string)
    (serviceDuration : Z) (existingAppointments : list Appointment)
    : list Slot :=
  let startMinutes := timeToMinutes startTime in
  let endMinutes := timeToMinutes endTime in
  slotLoop (S (iterations startMinutes serviceDuration endMinutes))
    startMinutes serviceDuration endMinutes existingAppointments [].

(** ** The appointments collection and its unique index *)

(** The key of the compound index
    [{ staff: 1, appointmentDate: 1, startTime: 1, endTime: 1 }]. *)
Definition sameIndexKey (a b : Appointment) : bool :=
  String.eqb (appt_staff a) (appt_staff b) &&
  Z.eqb (appointmentDate a) (appointmentDate b) &&
  String.eqb (appt_startTime a) (appt_startTime b) &&
  String.eqb (appt_endTime a) (appt_endTime b).

(** The documents the index covers: its [partialFilterExpression] is
    [status: { $nin: ['Cancelled', 'No Show'] }]. *)
Definition inPartialIndex (a : Appointment) : bool := statusNotIn a.

(** Modelled from the spec: the storage layer's enforcement of the declared
    unique index.  The database engine is not part of the repository; the
    spec says that "the storage layer reject[s] the second write" under "a
    uniqueness constraint over (staff, date, start, end) scoped to
    non-cancelled statuses".  [duplicateKey coll d] holds when writing [d]
    would give the index two entries with one key: [d] is covered by the
    index and another document of the collection, also covered, has the same
    key. *)
Definition duplicateKey (coll : list Appointment) (d : Appointment) : bool :=
  inPartialIndex d &&
  existsb (fun a => inPartialIndex a && sameIndexKey a d &&
                    negb (String.eqb (appt_id a) (appt_id d))) coll.

(** Modelled from the spec: inserting a document; [None] is the rejected
    write (a duplicate [_id] or a duplicate index key). *)
Definition insertDoc (coll : list Appointment) (d : Appointment)
    : option (list Appointment) :=
  if existsb (fun a => String.eqb (appt_id a) (appt_id d)) coll then None
  else if duplicateKey coll d then None
  else Some (coll ++ [d]).

(** Modelled from the spec: [doc.save()] and [findByIdAndUpdate] write the
    new state of an existing document in place of the old one; [None] is the
    rejected write. *)
Definition replaceDoc (coll : list Appointment) (d : Appointment)
    : option (list Appointment) :=
  if duplicateKey coll d then None
  else Some (map (fun a => if String.eqb (appt_id a) (appt_id d) then d else a)
                 coll).

(** The outcome of [await Model.findById(id)]: the document, [null], or a
    thrown [CastError] when [id] is not an ObjectId. *)
Inductive Lookup (A : Type) :=
| Found (doc : A)
| NotFound
| CastError.
Arguments Found {A} doc.
Arguments NotFound {A}.
Arguments CastError {A}.

(** [Model.findById(id)]: the id is cast to an ObjectId first. *)
Definition findById {A : Type} (idOf : A -> ObjectId) (coll : list A)
    (id : string) : Lookup A :=
  if isMongoId id then
    match find (fun x => String.eqb (idOf x) id) coll with
    | Some x => Found x
    | None => NotFound
    end
  else CastError.

(** The lookup threw. *)
Definition threw {A : Type} (l : Lookup A) : bool :=
  match l with CastError => true | _ => false end.

(** The value a lookup that did not throw resolves to: the document or
    [null]. *)
Definition docOf {A : Type} (l : Lookup A) : option A :=
  match l with Found x => Some x | _ => None end.

(** The instance methods of the schema: each changes fields of the document
    and ends with [this.save()]. *)
Definition withStatus (a : Appointment) (s : Status) : Appointment :=
  mkAppointment (appt_id a) (appt_patient a) (appt_staff a) (appt_service a)
    (appointmentDate a) (appt_startTime a) (appt_endTime a) s.

Definition confirm (a : Appointment) : Appointment := withStatus a Confirmed.
Definition cancel (a : Appointment) : Appointment := withStatus a Cancelled.
Definition complete (a : Appointment) : Appointment := withStatus a Completed.

Definition reschedule (a : Appointment) (newDate : Z)
    (newStartTime newEndTime : string) : Appointment :=
  mkAppointment (appt_id a) (appt_patient a) (appt_staff a) (appt_service a)
    newDate newStartTime newEndTime Rescheduled.

(** The scheduling fields a [findByIdAndUpdate] body may set. *)
Record Update := mkUpdate {
  upd_staff : option ObjectId;
  upd_appointmentDate : option Z;
  upd_startTime : option string;
  upd_endTime : option string;
  upd_status : option Status
}.

Definition orElse {A : Type} (o : option A) (d : A) : A :=
  match o with Some x => x | None => d end.

Definition applyUpdate (a : Appointment) (u : Update) : Appointment :=
  mkAppointment (appt_id a) (appt_patient a)
    (orElse (upd_staff u) (appt_staff a)) (appt_service a)
    (orElse (upd_appointmentDate u) (appointmentDate a))
    (orElse (upd_startTime u) (appt_startTime a))
    (orElse (upd_endTime u) (appt_endTime a))
    (orElse (upd_status u) (appt_status a)).

(** The writes the code issues on the appointments collection;
    [WDeleteMany] is the [Appointment.deleteMany({})] of the seed script. *)
Inductive WriteOp :=
| WCreate (d : Appointment)
| WConfirm (id : ObjectId)
| WCancel (id : ObjectId)
| WComplete (id : ObjectId)
| WReschedule (id : ObjectId) (newDate : Z) (newStartTime newEndTime : string)
| WUpdate (id : ObjectId) (u : Update)
| WDeleteMany.

Definition saveChanged (coll : list Appointment) (id : ObjectId)
    (change : Appointment -> Appointment) : option (list Appointment) :=
  match findById appt_id coll id with
  | Found a => replaceDoc coll (change a)
  | _ => None
  end.

(** One write; [None] when the document is missing or the storage layer
    rejects the write, in which case the collection stays as it was. *)
Definition applyWrite (coll : list Appointment) (w : WriteOp)
    : option (list Appointment) :=
  match w with
  | WCreate d => insertDoc coll d
  | WConfirm id => saveChanged coll id confirm
  | WCancel id => saveChanged coll id cancel
  | WComplete id => saveChanged coll id complete
  | WReschedule id d s e => saveChanged coll id (fun a => reschedule a d s e)
  | WUpdate id u => saveChanged coll id (fun a => applyUpdate a u)
  | WDeleteMany => Some []
  end.

Definition step (coll : list Appointment) (w : WriteOp) : list Appointment :=
  orElse (applyWrite coll w) coll.

(** The collections reached from the empty one by any sequence of writes. *)
Inductive reachable : list Appointment -> Prop :=
| reach_empty : reachable []
| reach_step coll w : reachable coll -> reachable (step coll w).

(** No double booking: among the documents the index covers, no two (at
    different positions of the collection) have the same key. *)
Definition uniqueSlots (coll : list Appointment) : Prop :=
  forall i j a b,
    nth_error coll i = Some a -> nth_error coll j = Some b ->
    inPartialIndex a = true -> inPartialIndex b = true ->
    sameIndexKey a b = true -> i = j.

(** The invariant carried along: identifiers are unique and the index key is
    unique among the covered documents. *)
Definition storeInvariant (coll : list Appointment) : Prop :=
  NoDup (map appt_id coll) /\ uniqueSlots coll.

(** ** HTTP responses *)

(** The [message] of a failure body: one constructor for each message the
    handlers below send. *)
Inductive Message :=
| ValidationFailed
| OnlyForYourself
| PatientNotFound
| StaffNotFound
| ServiceNotFound
| SpecialtyMismatch (required actual : string)
| NotAvailableOn (day : Weekday)
| OutsideWorkingHours (windowStart windowEnd : string)
| SlotAlreadyBooked
| DurationMismatch (durationMinutes serviceDuration : Z)
| ThrownError
| MissingParameters
| NotAuthorized
| InvalidDayOfWeek
| InvalidTimeFormat
| StartNotBeforeEnd
| NotAnArray.

(** The [data] of the slot query: the early answer carries only the empty
    list, the full answer the window and the generated slots. *)
Inductive Body :=
| Failure (message : Message)
| AppointmentData (a : Appointment)
| StaffData (s : Staff)
| NoSlots
| Slots (w : AvailabilityWindow) (existingAppointments : nat)
        (availableSlots : list Slot).

(** [res.status(code).json(body)]. *)
Record Response := Json { statusCode : Z; body : Body }.

(** [success] of the JSON body. *)
Definition success (r : Response) : bool :=
  match body r with Failure _ => false | _ => true end.

(** The list under [data.availableSlots], when the body has one. *)
Definition availableSlotsOf (r : Response) : option (list Slot) :=
  match body r with
  | NoSlots => Some []
  | Slots _ _ l => Some l
  | _ => None
  end.

(** A rejection: [success: false] with a client-error status. *)
Definition rejection (r : Response) : Prop :=
  success r = false /\
  (statusCode r = 400 \/ statusCode r = 403 \/ statusCode r = 404).

(** A handler either answers at once ([return res.status(..).json(..)]) or
    goes on with a value. *)
Inductive Handler (A : Type) :=
| Answer (r : Response)
| Go (a : A).
Arguments Answer {A} r.
Arguments Go {A} a.

Definition bind {A B : Type} (m : Handler A) (k : A -> Handler B) : Handler B :=
  match m with
  | Answer r => Answer r
  | Go a => k a
  end.

Notation "x <- m ;; k" := (bind m (fun x => k))
  (at level 61, m at next level, right associativity).
Notation "m ;;; k" := (bind m (fun _ => k))
  (at level 61, right associativity).

(** [if (cond) return res.status(code).json({ success: false, message })]. *)
Definition rejectIf (cond : bool) (code : Z) (m : Message) : Handler unit :=
  if cond then Answer (Json code (Failure m)) else Go tt.

(** [if (!doc) return res.status(code).json(...)]. *)
Definition orReject {A : Type} (o : option A) (code : Z) (m : Message)
    : Handler A :=
  match o with
  | Some a => Go a
  | None => Answer (Json code (Failure m))
  end.

Definition run (h : Handler Response) : Response :=
  match h with Answer r => r | Go r => r end.

(** ** Dates *)

Definition msPerDay : Z := 86400000.

(** [new Date(d.setHours(0, 0, 0, 0))] and
    [new Date(d.setHours(23, 59, 59, 999))]; the server's time zone is taken
    to be UTC. *)
Definition startOfDay (date : Z) : Z := date - date mod msPerDay.
Definition endOfDay (date : Z) : Z := startOfDay date + (msPerDay - 1).

(** [date.toLocaleDateString('en-US', { weekday: 'long' })]: 1970-01-01 was
    a Thursday. *)
Definition weekdayOf (date : Z) : Weekday :=
  match (date / msPerDay + 3) mod 7 with
  | 0 => Monday | 1 => Tuesday | 2 => Wednesday | 3 => Thursday
  | 4 => Friday | 5 => Saturday | _ => Sunday
  end.

(** [staffDoc.availability.find(slot => slot.dayOfWeek === dayOfWeek)]. *)
Definition availabilityFor (staffDoc : Staff) (day : Weekday)
    : option AvailabilityWindow :=
  find (fun slot => Weekday_eqb (dayOfWeek slot) day) (availability staffDoc).

(** ** Booking creation: [router.post('/')] of [routes/appointments.js] *)

Inductive Role := RolePatient | RoleStaff | RoleAdmin.

Definition Role_eqb (a b : Role) : bool :=
  match a, b with
  | RolePatient, RolePatient | RoleStaff, RoleStaff | RoleAdmin, RoleAdmin =>
      true
  | _, _ => false
  end.

(** [req.user], set by the [protect] middleware. *)
Record User := mkUser { user_id : ObjectId; role : Role }.

(** The scheduling fields of [req.body].  [req_otherFieldsValid] stands for
    the validator chains that look neither at the ids nor at the times: the
    date is ISO 8601, the reason for the visit has 5 to 500 characters, and
    the optional fields are well-formed. *)
Record BookingRequest := mkBookingRequest {
  req_patient : ObjectId;
  req_staff : ObjectId;
  req_service : ObjectId;
  req_appointmentDate : Z;
  req_startTime : string;
  req_endTime : string;
  req_status : option Status;
  req_otherFieldsValid : bool
}.

(** [appointmentValidation]: no error is recorded when the three ids are
    Mongo ids, the other fields are valid, the date is not before today's
    midnight, both times match the time pattern and the end is not [<=] the
    start (a comparison of strings). *)
Definition appointmentValidation (now : Z) (req : BookingRequest) : bool :=
  isMongoId (req_patient req) && isMongoId (req_staff req) &&
  isMongoId (req_service req) &&
  req_otherFieldsValid req &&
  negb (req_appointmentDate req <? startOfDay now) &&
  timeFormat (req_startTime req) &&
  timeFormat (req_endTime req) &&
  negb (str_le (req_endTime req) (req_startTime req)).

(** The validators of [appointmentSchema] that look at the scheduling fields:
    the date is in the future and both times match the time pattern. *)
Definition schemaValid (now : Z) (a : Appointment) : bool :=
  (appointmentDate a >? now) &&
  timeFormat (appt_startTime a) && timeFormat (appt_endTime a).

(** [doc.save()] of a document loaded from the collection: Mongoose
    validates the document (the paths it loaded along with the modified ones;
    the code sets no [validateModifiedOnly]), then writes it; [None] when the
    validation fails or the write is rejected, in which case the promise
    rejects. *)
Definition save (now : Z) (coll : list Appointment) (d : Appointment)
    : option (list Appointment) :=
  if schemaValid now d then replaceDoc coll d else None.

(** [Appointment.create(data)]: validation, then the insertion. *)
Definition AppointmentCreate (now : Z) (coll : list Appointment)
    (d : Appointment) : option (list Appointment) :=
  if schemaValid now d then insertDoc coll d else None.

(** [!staffDoc || !staffDoc.isActive] and [!serviceDoc ||
    !serviceDoc.isActive] on the result of a lookup: the document when it was
    found and is active. *)
Definition activeStaff (l : Lookup Staff) : option Staff :=
  match l with
  | Found s => if staff_isActive s then Some s else None
  | _ => None
  end.

Definition activeService (l : Lookup Service) : option Service :=
  match l with
  | Found s => if service_isActive s then Some s else None
  | _ => None
  end.

(** [serviceDoc.specialtyRequired &&
     serviceDoc.specialtyRequired !== staffDoc.specialty]. *)
Definition specialtyMismatch (serviceDoc : Service) (staffDoc : Staff) : bool :=
  match specialtyRequired serviceDoc with
  | Some required =>
      negb (String.eqb required EmptyString) &&
      negb (String.eqb required (staff_specialty staffDoc))
  | None => false
  end.

(** What the handler knows when it reaches the duration check. *)
Record Checked := mkChecked {
  chk_staff : Staff;
  chk_service : Service;
  chk_window : AvailabilityWindow
}.

(** The handler up to the lookup of the availability window of the weekday
    of the appointment.  The three lookups run under one [Promise.all]: when
    one of them throws, the [catch] of the handler answers 400. *)
Definition lookupChecks (now : Z) (db : Db) (user : User)
    (req : BookingRequest) : Handler Checked :=
  rejectIf (negb (appointmentValidation now req)) 400 ValidationFailed ;;;
  rejectIf (Role_eqb (role user) RolePatient &&
            negb (String.eqb (req_patient req) (user_id user)))
           403 OnlyForYourself ;;;
  let patientDoc := findById patient_id (patients db) (req_patient req) in
  let staffDoc := findById staff_id (staffMembers db) (req_staff req) in
  let serviceDoc := findById service_id (services db) (req_service req) in
  rejectIf (threw patientDoc || threw staffDoc || threw serviceDoc)
           400 ThrownError ;;;
  _ <- orReject (docOf patientDoc) 404 PatientNotFound ;;
  staffDoc <- orReject (activeStaff staffDoc) 404 StaffNotFound ;;
  serviceDoc <- orReject (activeService serviceDoc) 404 ServiceNotFound ;;
  rejectIf (specialtyMismatch serviceDoc staffDoc) 400
           (SpecialtyMismatch (orElse (specialtyRequired serviceDoc) EmptyString)
                              (staff_specialty staffDoc)) ;;;
  let day := weekdayOf (req_appointmentDate req) in
  window <- orReject (availabilityFor staffDoc day) 400 (NotAvailableOn day) ;;
  Go (mkChecked staffDoc serviceDoc window).

(** [startTime < availability.startTime || endTime > availability.endTime],
    a comparison of strings. *)
Definition outsideWorkingHours (req : BookingRequest)
    (window : AvailabilityWindow) : bool :=
  str_lt (req_startTime req) (avail_startTime window) ||
  str_gt (req_endTime req) (avail_endTime window).

(** The working-hours check. *)
Definition workingHoursCheck (req : BookingRequest)
    (window : AvailabilityWindow) : Handler unit :=
  rejectIf (outsideWorkingHours req window) 400
           (OutsideWorkingHours (avail_startTime window)
                                (avail_endTime window)).

(** The conflict check of the handler. *)
Definition conflictCheck (db : Db) (req : BookingRequest) : Handler unit :=
  rejectIf (conflictReported
              (checkConflict (appointments db) (req_staff req)
                 (req_appointmentDate req) (req_startTime req)
                 (req_endTime req) None))
           400 SlotAlreadyBooked.

(** The handler up to and including the conflict check. *)
Definition checksBeforeDuration (now : Z) (db : Db) (user : User)
    (req : BookingRequest) : Handler Checked :=
  chk <- lookupChecks now db user req ;;
  workingHoursCheck req (chk_window chk) ;;;
  conflictCheck db req ;;;
  Go chk.

(** The duration check:
    [Math.abs(durationMinutes - serviceDoc.durationMinutes) > 15].  With a
    duration that is [NaN] the comparison is false and the request goes on. *)
Definition durationCheck (req : BookingRequest) (serviceDoc : Service)
    : Handler unit :=
  match calculateDurationMinutes (req_startTime req) (req_endTime req) with
  | Some duration =>
      rejectIf (Z.abs (duration - durationMinutes serviceDoc) >? 15) 400
               (DurationMismatch duration (durationMinutes serviceDoc))
  | None => Go tt
  end.

(** The document built from [{ ...req.body, payment }]; [newId] is the
    identifier the driver generates, the status defaults to Scheduled. *)
Definition newAppointment (newId : ObjectId) (req : BookingRequest)
    : Appointment :=
  mkAppointment newId (req_patient req) (req_staff req) (req_service req)
    (req_appointmentDate req) (req_startTime req) (req_endTime req)
    (orElse (req_status req) Scheduled).

Definition setAppointments (db : Db) (coll : list Appointment) : Db :=
  mkDb (patients db) (staffMembers db) (services db) coll.

(** The whole handler: the answer and the database after the request.  An
    exception thrown by [Appointment.create] is caught and answered with
    status 400. *)
Definition postAppointment (now : Z) (newId : ObjectId) (db : Db)
    (user : User) (req : BookingRequest) : Response * Db :=
  match (chk <- checksBeforeDuration now db user req ;;
         durationCheck req (chk_service chk)) with
  | Answer r => (r, db)
  | Go _ =>
      let doc := newAppointment newId req in
      match AppointmentCreate now (appointments db) doc with
      | Some coll' => (Json 201 (AppointmentData doc), setAppointments db coll')
      | None => (Json 400 (Failure ThrownError), db)
      end
  end.

(** ** The slot query: the handler registered by
       [router.get('/available-slots')] *)

(** [new Date(date)] for the [date] parameter of the query. *)
Inductive DateParam :=
| InvalidDate
| DateAt (ms : Z).

(** [req.query]; an absent or empty parameter is falsy. *)
Record SlotQuery := mkSlotQuery {
  q_staff : option ObjectId;
  q_service : option ObjectId;
  q_date : option DateParam
}.

(** The weekday name of the requested date; there is none for an invalid
    date (the string ["Invalid Date"] matches no window). *)
Definition requestedWindow (staffDoc : Staff) (date : DateParam)
    : option AvailabilityWindow :=
  match date with
  | InvalidDate => None
  | DateAt ms => availabilityFor staffDoc (weekdayOf ms)
  end.

(** [.sort({ startTime: 1 })]: a stable sort on the start-time strings. *)
Fixpoint insertByStartTime (a : Appointment) (l : list Appointment)
    : list Appointment :=
  match l with
  | [] => [a]
  | b :: l' =>
      if str_le (appt_startTime a) (appt_startTime b) then a :: l
      else b :: insertByStartTime a l'
  end.

Definition sortByStartTime (l : list Appointment) : list Appointment :=
  fold_right insertByStartTime [] l.

(** The appointments of the staff member on the requested day that are
    neither cancelled nor no-shows. *)
Definition appointmentsOfDay (coll : list Appointment) (staff : ObjectId)
    (date : Z) : list Appointment :=
  sortByStartTime
    (filter (fun a => String.eqb (appt_staff a) staff &&
                      (startOfDay date <=? appointmentDate a) &&
                      (appointmentDate a <=? endOfDay date) &&
                      statusNotIn a) coll).

(** The handler function itself: what it answers when it is called.  Which
    requests the router passes to it is [appointmentsGet] below.  A lookup
    that throws is answered 500 by the [catch]. *)
Definition getAvailableSlots (db : Db) (q : SlotQuery) : Response :=
  run (
    rejectIf (match truthyId (q_staff q), truthyId (q_service q), q_date q with
              | Some _, Some _, Some _ => false
              | _, _, _ => true
              end) 400 MissingParameters ;;;
    let serviceLookup := findById service_id (services db)
                                  (orElse (q_service q) EmptyString) in
    rejectIf (threw serviceLookup) 500 ThrownError ;;;
    serviceDoc <- orReject (docOf serviceLookup) 404 ServiceNotFound ;;
    let staffLookup := findById staff_id (staffMembers db)
                                (orElse (q_staff q) EmptyString) in
    rejectIf (threw staffLookup) 500 ThrownError ;;;
    staffDoc <- orReject (docOf staffLookup) 404 StaffNotFound ;;
    let date := orElse (q_date q) InvalidDate in
    match requestedWindow staffDoc date with
    | None => Answer (Json 200 NoSlots)
    | Some window =>
        let existing :=
          match date with
          | DateAt ms => appointmentsOfDay (appointments db)
                           (orElse (q_staff q) EmptyString) ms
          | InvalidDate => []
          end in
        Answer (Json 200
          (Slots window (List.length existing)
             (calculateAvailableSlots (avail_startTime window)
                (avail_endTime window) (durationMinutes serviceDoc) existing)))
    end).

(** ** Writing a staff member's availability:
       [router.put('/:id/availability')] of [routes/staff.js] *)

(** One element of [req.body.availability] as it arrives. *)
Record WindowInput := mkWindowInput {
  in_dayOfWeek : string;
  in_startTime : string;
  in_endTime : string
}.

(** Membership in
    [['Monday', 'Tuesday', 'Wednesday', 'Thursday', 'Friday', 'Saturday',
      'Sunday']]. *)
Definition parseWeekday (s : string) : option Weekday :=
  if String.eqb s "Monday" then Some Monday
  else if String.eqb s "Tuesday" then Some Tuesday
  else if String.eqb s "Wednesday" then Some Wednesday
  else if String.eqb s "Thursday" then Some Thursday
  else if String.eqb s "Friday" then Some Friday
  else if String.eqb s "Saturday" then Some Saturday
  else if String.eqb s "Sunday" then Some Sunday
  else None.

(** The body of the validation loop for one slot: the day, the two time
    patterns, then [slot.startTime >= slot.endTime] (a comparison of
    strings). *)
Definition checkWindow (slot : WindowInput) : Handler AvailabilityWindow :=
  day <- orReject (parseWeekday (in_dayOfWeek slot)) 400 InvalidDayOfWeek ;;
  rejectIf (negb (timeFormat (in_startTime slot)) ||
            negb (timeFormat (in_endTime slot))) 400 InvalidTimeFormat ;;;
  rejectIf (str_ge (in_startTime slot) (in_endTime slot))
           400 StartNotBeforeEnd ;;;
  Go (mkWindow day (in_startTime slot) (in_endTime slot)).

(** [for (const slot of availability) { ... }]: the first slot that fails
    answers the request. *)
Fixpoint checkWindows (slots : list WindowInput)
    : Handler (list AvailabilityWindow) :=
  match slots with
  | [] => Go []
  | slot :: rest =>
      w <- checkWindow slot ;;
      ws <- checkWindows rest ;;
      Go (w :: ws)
  end.

Definition setAvailability (s : Staff) (ws : list AvailabilityWindow) : Staff :=
  mkStaff (staff_id s) (staff_isActive s) (staff_specialty s) ws.

Definition setStaffMembers (db : Db) (coll : list Staff) : Db :=
  mkDb (patients db) coll (services db) (appointments db).

(** The handler; [availability] is [None] when the body's [availability] is
    not an array.  A lookup that throws is answered 400 by the [catch]. *)
Definition putAvailability (db : Db) (user : User) (id : string)
    (availability : option (list WindowInput)) : Response * Db :=
  match (let staffLookup := findById staff_id (staffMembers db) id in
         rejectIf (threw staffLookup) 400 ThrownError ;;;
         staff <- orReject (docOf staffLookup) 404 StaffNotFound ;;
         rejectIf (negb (Role_eqb (role user) RoleAdmin) &&
                   negb (String.eqb (user_id user) id)) 403 NotAuthorized ;;;
         slots <- orReject availability 400 NotAnArray ;;
         ws <- checkWindows slots ;;
         Go (setAvailability staff ws)) with
  | Answer r => (r, db)
  | Go staff' =>
      (Json 200 (StaffData staff'),
       setStaffMembers db
         (map (fun s => if String.eqb (staff_id s) id then staff' else s)
              (staffMembers db)))
  end.

(** ** Auxiliary definitions for the proofs *)

(** The character classes of the time pattern, written out. *)
Definition class09 : list ascii :=
  ["0"; "1"; "2"; "3"; "4"; "5"; "6"; "7"; "8"; "9"]%char.
Definition class05 : list ascii := ["0"; "1"; "2"; "3"; "4"; "5"]%char.
Definition class01 : list ascii := ["0"; "1"]%char.
Definition class03 : list ascii := ["0"; "1"; "2"; "3"]%char.

(** [":MM"] for every minute of the hour. *)
Definition minuteSuffixes : list string :=
  flat_map (fun m1 =>
              map (fun m2 => String ":" (String m1 (String m2 EmptyString)))
                  class09)
           class05.

(** The strings of the time pattern with a one-digit hour. *)
Definition shortTimes : list string :=
  flat_map (fun h => map (String h) minuteSuffixes) class09.

Definition hourPairs : list (ascii * ascii) :=
  list_prod class01 class09 ++ map (pair "2"%char) class03.

(** The strings of the time pattern with a two-digit hour. *)
Definition longTimes : list string :=
  flat_map (fun hh =>
              map (fun sfx => String (fst hh) (String (snd hh) sfx))
                  minuteSuffixes)
           hourPairs.

(** The minutes of a day. *)
Definition minutesOfDay : list Z := map Z.of_nat (seq 0 1440).

(** The [k]-th candidate start of the slot loop. *)
Definition candidate (startMinutes : Z) (k : nat) : Z :=
  startMinutes + 30 * Z.of_nat k.

(** The slot pushed for the candidate start [c]. *)
Definition slotAt (serviceDuration c : Z) : Slot :=
  mkSlot (minutesToTime c) (minutesToTime (c + serviceDuration)).

(** [!hasConflict] for the candidate start [c]. *)
Definition isFree (serviceDuration : Z) (existing : list Appointment) (c : Z)
    : bool :=
  negb (existsb (slotConflicts c serviceDuration) existing).

(** The slots the loop pushes in [n] iterations from [c], in the order in
    which it pushes them. *)
Definition pushed (serviceDuration : Z) (existing : list Appointment)
    (n : nat) (c : Z) : list Slot :=
  map (slotAt serviceDuration)
      (filter (isFree serviceDuration existing) (map (candidate c) (seq 0 n))).

(** The half-open overlap rule on minutes: [[s1, e1)] and [[s2, e2)] overlap
    when [s1 < e2] and [e1 > s2]. *)
Definition overlaps (s1 e1 s2 e2 : Z) : Prop := s1 < e2 /\ e1 > s2.

(** A slot read back as an interval of minutes, and a booking likewise. *)
Definition slotStartMinutes (s : Slot) : Z := timeToMinutes (slot_startTime s).
Definition slotEndMinutes (s : Slot) : Z := timeToMinutes (slot_endTime s).
Definition apptStartMinutes (a : Appointment) : Z :=
  timeToMinutes (appt_startTime a).
Definition apptEndMinutes (a : Appointment) : Z :=
  timeToMinutes (appt_endTime a).

(** Both times of a booking match the time pattern, as the schema's
    validators require of every stored appointment. *)
Definition validTimes (a : Appointment) : Prop :=
  timeFormat (appt_startTime a) = true /\ timeFormat (appt_endTime a) = true.

(** The scenario of the spec: availability 09:00-17:00, one booking
    10:00-10:45, a service of 30 minutes. *)
Definition scenarioBooking : Appointment :=
  mkAppointment "d00000000000000000000001" "a00000000000000000000001" "b00000000000000000000001" "c00000000000000000000001" 0 "10:00" "10:45" Scheduled.

Definition scenarioStarts : list string :=
  map slot_startTime (calculateAvailableSlots "09:00" "17:00" 30 [scenarioBooking]).

(** A small database for the scenario: one patient, one active staff member
    available on Mondays from 09:00 to 17:00, one active service of 30
    minutes, no appointment yet.  [scenarioMonday] is Monday 1970-01-05. *)
Definition scenarioStaff : Staff :=
  mkStaff "b00000000000000000000001" true "Physiotherapy" [mkWindow Monday "09:00" "17:00"].

Definition scenarioService : Service := mkService "c00000000000000000000001" true 30 None 50.

Definition scenarioDb : Db :=
  mkDb [mkPatient "a00000000000000000000001"] [scenarioStaff] [scenarioService] [].

Definition scenarioMonday : Z := 4 * msPerDay.

Definition scenarioUser : User := mkUser "a00000000000000000000001" RolePatient.

Definition scenarioRequest : BookingRequest :=
  mkBookingRequest "a00000000000000000000001" "b00000000000000000000001" "c00000000000000000000001" scenarioMonday "09:00" "09:30" None true.

Definition scenarioTuesday : Z := 5 * msPerDay.

(** The booking of the scenario after [PUT /:id/reschedule] with the new
    times ["9:00"] and ["9:30"] (both match the time pattern). *)
Definition rescheduledBooking : Appointment :=
  reschedule scenarioBooking scenarioMonday "9:00" "9:30".

(** The scenario database holding that one booking. *)
Definition bookedDb : Db :=
  setAppointments scenarioDb [rescheduledBooking].

(** A staff member available on Mondays from 08:00 to 9:00, as
    [PUT /:id/availability] stores it, and a service of 60 minutes. *)
Definition earlyStaff : Staff :=
  mkStaff "b00000000000000000000001" true "Physiotherapy" [mkWindow Monday "08:00" "9:00"].

Definition hourService : Service := mkService "c00000000000000000000001" true 60 None 80.

Definition earlyDb : Db := mkDb [mkPatient "a00000000000000000000001"] [earlyStaff] [hourService] [].

Definition lateRequest : BookingRequest :=
  mkBookingRequest "a00000000000000000000001" "b00000000000000000000001" "c00000000000000000000001" scenarioMonday "08:30" "09:30" None true.

(** A staff member available on Mondays from 8:00 to 9:00, written with
    one-digit hours, as [PUT /:id/availability] stores it; and a request for
    that Monday from 8:00 to 8:59 for the service of 30 minutes. *)
Definition unpaddedStaff : Staff :=
  mkStaff "b00000000000000000000001" true "Physiotherapy"
    [mkWindow Monday "8:00" "9:00"].

Definition unpaddedDb : Db :=
  mkDb [mkPatient "a00000000000000000000001"] [unpaddedStaff]
       [scenarioService] [].

Definition longRequest : BookingRequest :=
  mkBookingRequest "a00000000000000000000001" "b00000000000000000000001"
    "c00000000000000000000001" scenarioMonday "8:00" "8:59" None true.

(** The slot query of the scenario for a Tuesday, a day on which the staff
    member has no window. *)
Definition tuesdayQuery : SlotQuery :=
  mkSlotQuery (Some "b00000000000000000000001")
              (Some "c00000000000000000000001")
              (Some (DateAt scenarioTuesday)).

(** A window that passed the validation loop of the availability route. *)
Definition windowChecked (w : AvailabilityWindow) : Prop :=
  timeFormat (avail_startTime w) = true /\
  timeFormat (avail_endTime w) = true /\
  str_lt (avail_startTime w) (avail_endTime w) = true.

(** The scenario as the spec words it: the starts 09:00 and 09:30 are
    generated, 10:00, 10:15 and 10:30 are not, and 10:45 and the starts at a
    30-minute stride from 10:45 onward are generated. *)
Definition scenarioAsStated : Prop :=
  In "09:00" scenarioStarts /\ In "09:30" scenarioStarts /\
  ~ In "10:00" scenarioStarts /\ ~ In "10:15" scenarioStarts /\
  ~ In "10:30" scenarioStarts /\
  forall k : nat,
    645 + 30 * Z.of_nat k + 30 <= 1020 ->
    In (minutesToTime (645 + 30 * Z.of_nat k)) scenarioStarts.

(** Modelled from the spec: the "minutes-since-midnight" of a clock time,
    read off its digits, the hour times 60 plus the minute.  This is not the
    conversion of the code, which is [timeToMinutes]; it is the measure the
    code's conversion is compared with. *)
Definition digitValue (c : ascii) : Z := Z.of_nat (nat_of_ascii c) - 48.

Definition minutesSinceMidnight (v : string) : Z :=
  match list_ascii_of_string v with
  | [h; _; m1; m2] =>
      digitValue h * 60 + (digitValue m1 * 10 + digitValue m2)
  | [h1; h2; _; m1; m2] =>
      (digitValue h1 * 10 + digitValue h2) * 60 +
      (digitValue m1 * 10 + digitValue m2)
  | _ => 0
  end.

(** Chronological order of a list of slots: strictly increasing starts. *)
Definition chronological (l : list Slot) : Prop :=
  StronglySorted (fun s1 s2 => slotStartMinutes s1 < slotStartMinutes s2) l.

(** ** Further statics and methods *)

(** [staffSchema.methods.isAvailable(dayOfWeek, time)]:
    [time >= availability.startTime && time <= availability.endTime] on the
    first window of the day, [false] when there is none. *)
Definition isAvailable (s : Staff) (day : Weekday) (time : string) : bool :=
  match availabilityFor s day with
  | None => false
  | Some w => str_ge time (avail_startTime w) && str_le time (avail_endTime w)
  end.

(** The documents the query of [findTodaysAppointments] selects: the
    appointments whose date lies in today's day, of the staff member when
    [staffId] is truthy, sorted by start time.  The query has no condition on
    the status. *)
Definition todaysAppointments (now : Z) (coll : list Appointment)
    (staffId : option string) : list Appointment :=
  sortByStartTime
    (filter (fun a => (startOfDay now <=? appointmentDate a) &&
                      (appointmentDate a <=? endOfDay now) &&
                      match truthyId staffId with
                      | Some s => String.eqb (appt_staff a) s
                      | None => true
                      end) coll).

(** [Appointment.findTodaysAppointments(staffId)]: [if (staffId) query.staff
    = staffId], then the query.  Mongoose casts [query.staff] to an ObjectId
    and the query throws when that fails: [None]. *)
Definition findTodaysAppointments (now : Z) (coll : list Appointment)
    (staffId : option string) : option (list Appointment) :=
  match truthyId staffId with
  | Some s =>
      if isMongoId s then Some (todaysAppointments now coll staffId) else None
  | None => Some (todaysAppointments now coll staffId)
  end.

(** ** The routes on one appointment ([routes/appointments.js]) *)

(** Why a route refuses: the [message] of its failure body. *)
Inductive Refusal :=
| AppointmentNotFound
| NotAuthorizedForAppointment
| RoleNotAuthorized
| RescheduleFieldsRequired
| NewDateInThePast
| StartMustBeBeforeEnd
| NewSlotAlreadyBooked
| UpdateValidationFailed
| PatientFieldsOnly
| UpdateSlotAlreadyBooked
| ErrorThrown.

(** [res.status(code).json({ success: true, data })] or
    [res.status(code).json({ success: false, message })]. *)
Inductive Reply :=
| Done (code : Z) (data : Appointment)
| Refused (code : Z) (reason : Refusal).

Definition replyCode (r : Reply) : Z :=
  match r with Done code _ => code | Refused code _ => code end.

(** [authorize(...roles)]: the middleware lets the request through when the
    role of the user is one of [roles]. *)
Definition authorize (roles : list Role) (user : User) : bool :=
  existsb (Role_eqb (role user)) roles.

(** [req.user.role === 'patient' && appointment.patient.toString() !==
    req.user.id]. *)
Definition notOwnAppointment (user : User) (a : Appointment) : bool :=
  Role_eqb (role user) RolePatient &&
  negb (String.eqb (appt_patient a) (user_id user)).

(** [router.get('/:id')].  A route id that is not an ObjectId makes the
    lookup throw (status 500).  The patient is populated before the ownership
    test, which reads [appointment.patient._id]: for a user with the patient
    role a missing patient document makes the handler throw as well. *)
Definition getAppointment (db : Db) (user : User) (id : string) : Reply :=
  match findById appt_id (appointments db) id with
  | CastError => Refused 500 ErrorThrown
  | NotFound => Refused 404 AppointmentNotFound
  | Found a =>
      if Role_eqb (role user) RolePatient then
        match findById patient_id (patients db) (appt_patient a) with
        | Found _ =>
            if negb (String.eqb (appt_patient a) (user_id user))
            then Refused 403 NotAuthorizedForAppointment
            else Done 200 a
        | _ => Refused 500 ErrorThrown
        end
      else Done 200 a
  end.

(** The common shape of the routes that change one appointment with an
    instance method: find it, test the ownership, apply the method and save;
    a lookup that throws and a rejected save are answered with [failCode] by
    the [catch]. *)
Definition changeRoute (failCode : Z) (change : Appointment -> Appointment)
    (now : Z) (db : Db) (user : User) (id : string) : Reply * Db :=
  match findById appt_id (appointments db) id with
  | CastError => (Refused failCode ErrorThrown, db)
  | NotFound => (Refused 404 AppointmentNotFound, db)
  | Found a =>
      if notOwnAppointment user a
      then (Refused 403 NotAuthorizedForAppointment, db)
      else match save now (appointments db) (change a) with
           | Some coll' => (Done 200 (change a), setAppointments db coll')
           | None => (Refused failCode ErrorThrown, db)
           end
  end.

(** [router.delete('/:id')]: [appointment.cancel(reason)]. *)
Definition deleteAppointment (now : Z) (db : Db) (user : User) (id : string)
    : Reply * Db :=
  changeRoute 500 cancel now db user id.

(** [router.put('/:id/confirm')]: [appointment.confirm(confirmedBy)]. *)
Definition confirmAppointment (now : Z) (db : Db) (user : User) (id : string)
    : Reply * Db :=
  changeRoute 500 confirm now db user id.

(** [router.put('/:id/complete')], behind [authorize('staff', 'admin')];
    there is no ownership test. *)
Definition completeAppointment (now : Z) (db : Db) (user : User) (id : string)
    : Reply * Db :=
  if negb (authorize [RoleStaff; RoleAdmin] user)
  then (Refused 403 RoleNotAuthorized, db)
  else match findById appt_id (appointments db) id with
       | CastError => (Refused 500 ErrorThrown, db)
       | NotFound => (Refused 404 AppointmentNotFound, db)
       | Found a =>
           match save now (appointments db) (complete a) with
           | Some coll' => (Done 200 (complete a), setAppointments db coll')
           | None => (Refused 500 ErrorThrown, db)
           end
       end.

(** The body of [router.put('/:id/reschedule')]; an absent or empty field
    is falsy. *)
Record RescheduleBody := mkRescheduleBody {
  newDate : option DateParam;
  newStartTime : option string;
  newEndTime : option string
}.

(** [router.put('/:id/reschedule')].  The checks in the order of the
    handler: the route id is an ObjectId (the lookup throws otherwise, status
    500), the appointment exists, it is the user's own (for a patient),
    the three fields are there, the new date is not before now, the new start
    is not [>=] the new end (strings), no conflict with another appointment.
    An invalid date passes the comparison with now and makes the conflict
    query throw; the save validates the modified date and times and throws
    when they are invalid or when the write is rejected (status 500). *)
Definition rescheduleAppointment (now : Z) (db : Db) (user : User)
    (id : string) (b : RescheduleBody) : Reply * Db :=
  match findById appt_id (appointments db) id with
  | CastError => (Refused 500 ErrorThrown, db)
  | NotFound => (Refused 404 AppointmentNotFound, db)
  | Found a =>
      if notOwnAppointment user a
      then (Refused 403 NotAuthorizedForAppointment, db)
      else
        match newDate b, truthyId (newStartTime b), truthyId (newEndTime b) with
        | Some date, Some s, Some e =>
            if match date with DateAt d => d <? now | InvalidDate => false end
            then (Refused 400 NewDateInThePast, db)
            else if str_ge s e then (Refused 400 StartMustBeBeforeEnd, db)
            else
              match date with
              | InvalidDate => (Refused 500 ErrorThrown, db)
              | DateAt d =>
                  if conflictReported
                       (checkConflict (appointments db) (appt_staff a) d s e
                                      (Some id))
                  then (Refused 400 NewSlotAlreadyBooked, db)
                  else
                    let a' := reschedule a d s e in
                    if schemaValid now a' then
                      match replaceDoc (appointments db) a' with
                      | Some coll' => (Done 200 a', setAppointments db coll')
                      | None => (Refused 500 ErrorThrown, db)
                      end
                    else (Refused 500 ErrorThrown, db)
              end
        | _, _, _ => (Refused 400 RescheduleFieldsRequired, db)
        end
  end.

(** The body of [router.put('/:id')]: the fields the validators and the
    handler read, each absent or present, and the names of the other keys of
    the body. *)
Record UpdateBody := mkUpdateBody {
  ub_patient : option ObjectId;
  ub_staff : option ObjectId;
  ub_service : option ObjectId;
  ub_appointmentDate : option Z;
  ub_startTime : option string;
  ub_endTime : option string;
  ub_status : option Status;
  ub_otherKeys : list string;
  ub_otherFieldsValid : bool
}.

Definition keyIf {A : Type} (o : option A) (name : string) : list string :=
  match o with Some _ => [name] | None => [] end.

(** [Object.keys(req.body)]. *)
Definition bodyKeys (b : UpdateBody) : list string :=
  keyIf (ub_patient b) "patient" ++ keyIf (ub_staff b) "staff" ++
  keyIf (ub_service b) "service" ++
  keyIf (ub_appointmentDate b) "appointmentDate" ++
  keyIf (ub_startTime b) "startTime" ++ keyIf (ub_endTime b) "endTime" ++
  keyIf (ub_status b) "status" ++ ub_otherKeys b.

(** The validated body as a booking request: [appointmentValidation]
    requires the three ids, the date and the two times (an absent field
    fails its validator). *)
Definition validatedBody (now : Z) (b : UpdateBody) : option BookingRequest :=
  match ub_patient b, ub_staff b, ub_service b,
        ub_appointmentDate b, ub_startTime b, ub_endTime b with
  | Some p, Some s, Some v, Some d, Some st, Some en =>
      let req := mkBookingRequest p s v d st en (ub_status b)
                   (ub_otherFieldsValid b) in
      if appointmentValidation now req then Some req else None
  | _, _, _, _, _, _ => None
  end.

(** [const allowedFields = ['patientNotes', 'symptoms', 'reasonForVisit']]
    and [requestedFields.some(field => !allowedFields.includes(field))]. *)
Definition allowedFields : list string :=
  ["patientNotes"; "symptoms"; "reasonForVisit"].

Definition hasUnauthorizedFields (b : UpdateBody) : bool :=
  existsb (fun field => negb (existsb (String.eqb field) allowedFields))
          (bodyKeys b).

(** The document after [findByIdAndUpdate(id, req.body)]. *)
Definition updatedAppointment (a : Appointment) (req : BookingRequest)
    : Appointment :=
  mkAppointment (appt_id a) (req_patient req) (req_staff req)
    (req_service req) (req_appointmentDate req) (req_startTime req)
    (req_endTime req) (orElse (req_status req) (appt_status a)).

(** [router.put('/:id')]: validation, lookup, ownership, the fields a patient
    may send, the conflict check that leaves the appointment itself out, and
    the update with its validators; a thrown error is answered with 400. *)
Definition updateAppointment (now : Z) (db : Db) (user : User)
    (id : string) (b : UpdateBody) : Reply * Db :=
  match validatedBody now b with
  | None => (Refused 400 UpdateValidationFailed, db)
  | Some req =>
      match findById appt_id (appointments db) id with
      | CastError => (Refused 400 ErrorThrown, db)
      | NotFound => (Refused 404 AppointmentNotFound, db)
      | Found a =>
          if notOwnAppointment user a
          then (Refused 403 NotAuthorizedForAppointment, db)
          else if Role_eqb (role user) RolePatient && hasUnauthorizedFields b
          then (Refused 403 PatientFieldsOnly, db)
          else if conflictReported
                    (checkConflict (appointments db) (req_staff req)
                       (req_appointmentDate req) (req_startTime req)
                       (req_endTime req) (Some id))
          then (Refused 400 UpdateSlotAlreadyBooked, db)
          else
            let a' := updatedAppointment a req in
            if schemaValid now a' then
              match replaceDoc (appointments db) a' with
              | Some coll' => (Done 200 a', setAppointments db coll')
              | None => (Refused 400 ErrorThrown, db)
              end
            else (Refused 400 ErrorThrown, db)
      end
  end.

(** ** The staff member's slot query:
       [router.get('/:id/available-slots')] of [routes/staff.js] *)

(** [parseInt(req.query.duration) || 60]; [parsed] is the result of
    [parseInt], [None] for [NaN] (also when the parameter is absent). *)
Definition durationOrDefault (parsed : option Z) : Z :=
  match parsed with
  | None => 60
  | Some n => if n =? 0 then 60 else n
  end.

(** The handler.  [dateParam] is [new Date(req.query.date)] when the
    parameter is given; without it the date is [new Date()], the time [now]
    of the request.  The file has its own copies of [timeToMinutes] and
    [minutesToTime], with the text of those of [routes/appointments.js], and
    its [while] loop is written in the handler; [slotLoop] is that loop.  A
    route id that is not an ObjectId makes the lookup throw (status 500). *)
Definition staffAvailableSlots (now : Z) (db : Db) (id : string)
    (dateParam : option DateParam) (parsedDuration : option Z) : Response :=
  let staffLookup := findById staff_id (staffMembers db) id in
  if threw staffLookup then Json 500 (Failure ThrownError) else
  match activeStaff staffLookup with
  | None => Json 404 (Failure StaffNotFound)
  | Some staffDoc =>
      let date := match dateParam with Some d => d | None => DateAt now end in
      let serviceDuration := durationOrDefault parsedDuration in
      match requestedWindow staffDoc date with
      | None => Json 200 NoSlots
      | Some availability =>
          let existing :=
            match date with
            | DateAt ms => appointmentsOfDay (appointments db) id ms
            | InvalidDate => []
            end in
          let startMinutes := timeToMinutes (avail_startTime availability) in
          let endMinutes := timeToMinutes (avail_endTime availability) in
          Json 200
            (Slots availability (List.length existing)
               (slotLoop (S (iterations startMinutes serviceDuration endMinutes))
                  startMinutes serviceDuration endMinutes existing []))
      end
  end.

(** ** The GET routes of the appointments router ([routes/appointments.js]) *)

(** The path of a route: ['/'], ['/:id'] or a literal segment. *)
Inductive PathPattern :=
| PathRoot
| PathParam
| PathLiteral (name : string).

(** The handlers the router registers for GET. *)
Inductive GetHandler :=
| HandleList
| HandleById
| HandleToday
| HandleStats
| HandleAvailableSlots.

(** The [router.get] calls in the order in which the file makes them:
    ['/'], ['/:id'], ['/today'], ['/stats'], ['/available-slots']. *)
Definition getRoutes : list (PathPattern * GetHandler) :=
  [ (PathRoot, HandleList);
    (PathParam, HandleById);
    (PathLiteral "today", HandleToday);
    (PathLiteral "stats", HandleStats);
    (PathLiteral "available-slots", HandleAvailableSlots) ].

(** Whether a pattern matches a request path.  [path] is the path below the
    mount point [/api/appointments] without its leading and trailing slash:
    the empty string for ['/'], one segment for the routes above.  A
    parameter matches any non-empty segment (the characters other than
    ['/']). *)
Definition pathMatches (p : PathPattern) (path : string) : bool :=
  match p with
  | PathRoot => String.eqb path EmptyString
  | PathParam =>
      negb (String.eqb path EmptyString) &&
      forallb (fun c => negb (Ascii.eqb c "/")) (list_ascii_of_string path)
  | PathLiteral name => String.eqb path name
  end.

(** Express tries the routes in the order of their registration and runs the
    first that matches.  Every handler of this router answers the request and
    none calls [next()], so that no later route is tried. *)
Definition routeFor (path : string) : option GetHandler :=
  option_map snd (find (fun r => pathMatches (fst r) path) getRoutes).

(** The answer to a GET request on the appointments router. *)
Inductive GetAnswer :=
| NotAuthenticated
| AppointmentReply (r : Reply)
| SlotsReply (r : Response).

Definition answerCode (a : GetAnswer) : Z :=
  match a with
  | NotAuthenticated => 401
  | AppointmentReply r => replyCode r
  | SlotsReply r => statusCode r
  end.

(** [protect]: a request without the valid token of an active user is
    answered 401; otherwise [req.user] is set and the next handler runs.
    [auth] is the user the request authenticates as, if any. *)
Definition protect (auth : option User) (next : User -> GetAnswer) : GetAnswer :=
  match auth with
  | Some user => next user
  | None => NotAuthenticated
  end.

(** The router on a GET request: the route chosen for the path, then its
    middleware and handler.  [router.get('/:id')] is behind [protect] and
    takes the path segment as [req.params.id]; [router.get('/available-slots')]
    has no middleware.  The handlers of ['/'], ['/today'] and ['/stats'] are
    not embedded: [None] stands for their answers and for a path no route
    matches. *)
Definition appointmentsGet (db : Db) (auth : option User) (path : string)
    (q : SlotQuery) : option GetAnswer :=
  match routeFor path with
  | Some HandleById =>
      Some (protect auth (fun user =>
              AppointmentReply (getAppointment db user path)))
  | Some HandleAvailableSlots => Some (SlotsReply (getAvailableSlots db q))
  | Some HandleList | Some HandleToday | Some HandleStats | None => None
  end.

(* ================================================================== *)
(** * Part II: lemmas and theorems *)
(* ================================================================== *)

(** ** The time pattern *)

Lemma inClass_09 c : inClass "0" "9" c = true -> In c class09.
Proof.
  destruct c as [[] [] [] [] [] [] [] []]; vm_compute; intro H;
    try discriminate H; tauto.
Qed.

Lemma inClass_05 c : inClass "0" "5" c = true -> In c class05.
Proof.
  destruct c as [[] [] [] [] [] [] [] []]; vm_compute; intro H;
    try discriminate H; tauto.
Qed.

Lemma inClass_01 c : inClass "0" "1" c = true -> In c class01.
Proof.
  destruct c as [[] [] [] [] [] [] [] []]; vm_compute; intro H;
    try discriminate H; tauto.
Qed.

Lemma inClass_03 c : inClass "0" "3" c = true -> In c class03.
Proof.
  destruct c as [[] [] [] [] [] [] [] []]; vm_compute; intro H;
    try discriminate H; tauto.
Qed.

Lemma minuteSuffix_in c m1 m2 :
  Ascii.eqb c ":" = true -> inClass "0" "5" m1 = true ->
  inClass "0" "9" m2 = true ->
  In (String c (String m1 (String m2 EmptyString))) minuteSuffixes.
Proof.
  intros Hc H1 H2. apply Ascii.eqb_eq in Hc. subst c.
  unfold minuteSuffixes. apply in_flat_map. exists m1. split.
  - now apply inClass_05.
  - apply (in_map (fun m => String ":" (String m1 (String m EmptyString)))).
    now apply inClass_09.
Qed.

Lemma hourPair_in h1 h2 :
  (inClass "0" "1" h1 && inClass "0" "9" h2
   || Ascii.eqb h1 "2" && inClass "0" "3" h2)%bool = true ->
  In (h1, h2) hourPairs.
Proof.
  intro H. unfold hourPairs. apply in_or_app.
  apply orb_true_iff in H. destruct H as [H | H];
    apply andb_true_iff in H; destruct H as [Ha Hb].
  - left. apply in_prod; [now apply inClass_01 | now apply inClass_09].
  - right. apply Ascii.eqb_eq in Ha. subst h1.
    apply (in_map (pair "2"%char)). now apply inClass_03.
Qed.

(** Every string of the time pattern is one of the enumerated ones. *)
Lemma timeFormat_enum v :
  timeFormat v = true -> In v shortTimes \/ In v longTimes.
Proof.
  unfold timeFormat. intro H.
  destruct v as [| a [| b [| c [| d [| e [| f v]]]]]];
    cbn [list_ascii_of_string] in H; try discriminate H.
  - left.
    apply andb_true_iff in H; destruct H as [H H4].
    apply andb_true_iff in H; destruct H as [H H3].
    apply andb_true_iff in H; destruct H as [H1 H2].
    unfold shortTimes. apply in_flat_map. exists a. split.
    + now apply inClass_09.
    + apply (in_map (String a)). now apply minuteSuffix_in.
  - right.
    apply andb_true_iff in H; destruct H as [H H4].
    apply andb_true_iff in H; destruct H as [H H3].
    apply andb_true_iff in H; destruct H as [H1 H2].
    unfold longTimes. apply in_flat_map. exists (a, b). split.
    + now apply hourPair_in.
    + cbn [fst snd].
      apply (in_map (fun sfx => String a (String b sfx))).
      now apply minuteSuffix_in.
Qed.

Lemma isHHMM_enum v : isHHMM v = true -> In v longTimes.
Proof.
  unfold isHHMM. intro H. apply andb_true_iff in H. destruct H as [Hf Hl].
  destruct (timeFormat_enum v Hf) as [Hs | Hlong]; [| exact Hlong].
  exfalso. unfold shortTimes in Hs. apply in_flat_map in Hs.
  destruct Hs as [h [_ Hs]]. apply in_map_iff in Hs.
  destruct Hs as [sfx [<- Hsfx]].
  unfold minuteSuffixes in Hsfx. apply in_flat_map in Hsfx.
  destruct Hsfx as [m1 [_ Hsfx]]. apply in_map_iff in Hsfx.
  destruct Hsfx as [m2 [<- _]]. discriminate Hl.
Qed.

Lemma isHHMM_timeFormat v : isHHMM v = true -> timeFormat v = true.
Proof.
  unfold isHHMM. intro H. apply andb_true_iff in H. tauto.
Qed.

(** A boolean property checked on the enumeration holds of every string of
    the pattern. *)
Lemma timeFormat_forall (p : string -> bool) :
  forallb p (shortTimes ++ longTimes) = true ->
  forall v, timeFormat v = true -> p v = true.
Proof.
  intros Hall v Hv. rewrite forallb_forall in Hall. apply Hall.
  apply in_or_app. now apply timeFormat_enum.
Qed.

Lemma isHHMM_forall (p : string -> bool) :
  forallb p longTimes = true -> forall v, isHHMM v = true -> p v = true.
Proof.
  intros Hall v Hv. rewrite forallb_forall in Hall. apply Hall.
  now apply isHHMM_enum.
Qed.

(** A time of the pattern is a minute of the day. *)
Lemma timeToMinutes_range v :
  timeFormat v = true -> 0 <= timeToMinutes v < 1440.
Proof.
  intro Hv.
  assert (H : ((0 <=? timeToMinutes v) && (timeToMinutes v <? 1440))%bool = true).
  { revert v Hv.
    apply (timeFormat_forall
             (fun v => ((0 <=? timeToMinutes v) && (timeToMinutes v <? 1440))%bool)).
    vm_compute. reflexivity. }
  apply andb_true_iff in H. destruct H as [H1 H2].
  apply Z.leb_le in H1. apply Z.ltb_lt in H2. lia.
Qed.

Lemma minutesOfDay_in m : 0 <= m < 1440 -> In m minutesOfDay.
Proof.
  intro H. unfold minutesOfDay. apply in_map_iff. exists (Z.to_nat m). split.
  - lia.
  - apply in_seq. lia.
Qed.

(** Formatting a minute of the day and reading it back gives the minute. *)
Lemma timeToMinutes_minutesToTime m :
  0 <= m < 1440 -> timeToMinutes (minutesToTime m) = m.
Proof.
  intro H. apply Z.eqb_eq. revert m H.
  assert (Hall : forallb (fun m => timeToMinutes (minutesToTime m) =? m)
                         minutesOfDay = true) by (vm_compute; reflexivity).
  intros m H. rewrite forallb_forall in Hall. apply Hall.
  now apply minutesOfDay_in.
Qed.

(** A minute of the day is formatted in the [HH:MM] shape. *)
Lemma minutesToTime_isHHMM m : 0 <= m < 1440 -> isHHMM (minutesToTime m) = true.
Proof.
  assert (Hall : forallb (fun m => isHHMM (minutesToTime m)) minutesOfDay = true)
    by (vm_compute; reflexivity).
  intro H. rewrite forallb_forall in Hall. apply Hall.
  now apply minutesOfDay_in.
Qed.

(** An [HH:MM] string is the formatting of its minute. *)
Lemma minutesToTime_timeToMinutes v :
  isHHMM v = true -> minutesToTime (timeToMinutes v) = v.
Proof.
  intro H. apply String.eqb_eq. revert v H.
  apply (isHHMM_forall (fun v => String.eqb (minutesToTime (timeToMinutes v)) v)).
  vm_compute. reflexivity.
Qed.

(** ** The string order *)

Lemma str_lt_compare a b : str_lt a b = true <-> String.compare a b = Lt.
Proof.
  unfold str_lt, String.ltb. destruct (String.compare a b); split;
    intro H; try reflexivity; discriminate H.
Qed.

Lemma str_lt_trans a b c :
  str_lt a b = true -> str_lt b c = true -> str_lt a c = true.
Proof.
  rewrite !str_lt_compare. intros Hab Hbc.
  apply String_as_OT.cmp_lt. apply String_as_OT.lt_trans with b;
    apply String_as_OT.cmp_lt; assumption.
Qed.

Lemma compare_refl a : String.compare a a = Eq.
Proof.
  pose proof (String.compare_antisym a a) as H.
  destruct (String.compare a a); [reflexivity | discriminate H | discriminate H].
Qed.

Lemma str_lt_irrefl a : str_lt a a = false.
Proof.
  unfold str_lt, String.ltb. now rewrite compare_refl.
Qed.

Lemma str_lt_asym a b : str_lt a b = true -> str_lt b a = false.
Proof.
  intro H. apply str_lt_compare in H.
  unfold str_lt, String.ltb. rewrite String.compare_antisym, H. reflexivity.
Qed.

Lemma str_le_not_gt a b : str_le a b = negb (str_gt a b).
Proof.
  unfold str_le, str_gt, String.leb, String.ltb.
  rewrite (String.compare_antisym a b).
  destruct (String.compare b a); reflexivity.
Qed.

Lemma str_ge_not_lt a b : str_ge a b = negb (str_lt a b).
Proof.
  unfold str_ge, str_lt, String.leb, String.ltb.
  rewrite (String.compare_antisym a b).
  destruct (String.compare b a); reflexivity.
Qed.

(** Consecutive minutes of the day are formatted in increasing order. *)
Lemma minutesToTime_succ m :
  0 <= m < 1439 -> str_lt (minutesToTime m) (minutesToTime (m + 1)) = true.
Proof.
  assert (Hall : forallb (fun m => (1439 <=? m)
                            || str_lt (minutesToTime m) (minutesToTime (m + 1)))%bool
                         minutesOfDay = true) by (vm_compute; reflexivity).
  intro H. rewrite forallb_forall in Hall.
  specialize (Hall m (minutesOfDay_in m ltac:(lia))).
  apply orb_true_iff in Hall. destruct Hall as [Hge | Hlt]; [| exact Hlt].
  apply Z.leb_le in Hge. lia.
Qed.

(** Formatting is strictly increasing on the minutes of the day. *)
Lemma minutesToTime_increasing m n :
  0 <= m -> m < n -> n < 1440 ->
  str_lt (minutesToTime m) (minutesToTime n) = true.
Proof.
  intros Hm Hmn Hn.
  replace n with (m + 1 + Z.of_nat (Z.to_nat (n - m - 1))) in * by lia.
  induction (Z.to_nat (n - m - 1)) as [| k IH].
  - rewrite Z.add_0_r. apply minutesToTime_succ. lia.
  - apply str_lt_trans with (minutesToTime (m + 1 + Z.of_nat k)).
    + apply IH; lia.
    + replace (m + 1 + Z.of_nat (S k)) with (m + 1 + Z.of_nat k + 1) by lia.
      apply minutesToTime_succ. lia.
Qed.

(** On [HH:MM] strings the string order is the order of the times of day. *)
Lemma isHHMM_str_lt a b :
  isHHMM a = true -> isHHMM b = true ->
  str_lt a b = (timeToMinutes a <? timeToMinutes b).
Proof.
  intros Ha Hb.
  pose proof (timeToMinutes_range a (isHHMM_timeFormat a Ha)) as Ra.
  pose proof (timeToMinutes_range b (isHHMM_timeFormat b Hb)) as Rb.
  rewrite <- (minutesToTime_timeToMinutes a Ha) at 1.
  rewrite <- (minutesToTime_timeToMinutes b Hb) at 1.
  destruct (Z.ltb_spec (timeToMinutes a) (timeToMinutes b)) as [Hlt | Hge].
  - apply minutesToTime_increasing; lia.
  - destruct (Z.eq_dec (timeToMinutes a) (timeToMinutes b)) as [Heq | Hne].
    + rewrite Heq. apply str_lt_irrefl.
    + apply str_lt_asym. apply minutesToTime_increasing; lia.
Qed.

Lemma isHHMM_str_gt a b :
  isHHMM a = true -> isHHMM b = true ->
  str_gt a b = (timeToMinutes a >? timeToMinutes b).
Proof.
  intros Ha Hb. unfold str_gt. fold (str_lt b a).
  rewrite (isHHMM_str_lt b a Hb Ha). now rewrite Z.gtb_ltb.
Qed.

Lemma isHHMM_str_le a b :
  isHHMM a = true -> isHHMM b = true ->
  str_le a b = (timeToMinutes a <=? timeToMinutes b).
Proof.
  intros Ha Hb. rewrite str_le_not_gt, (isHHMM_str_gt a b Ha Hb).
  rewrite Z.gtb_ltb, Z.leb_antisym. reflexivity.
Qed.

(** ** The conflict check *)

Lemma Status_eqb_eq a b : Status_eqb a b = true <-> a = b.
Proof.
  destruct a, b; cbn; split; intro H; try reflexivity; discriminate H.
Qed.

Lemma statusNotIn_spec a :
  statusNotIn a = true <->
  appt_status a <> Cancelled /\ appt_status a <> NoShow.
Proof.
  unfold statusNotIn. destruct (appt_status a); cbn; split;
    intro H; try reflexivity; try discriminate H;
    try (split; discriminate); destruct H as [H1 H2]; congruence.
Qed.

Lemma truthyId_neq excludeId (id : ObjectId) :
  match truthyId excludeId with
  | Some x => negb (String.eqb id x)
  | None => true
  end = true <->
  (forall x, truthyId excludeId = Some x -> id <> x).
Proof.
  destruct (truthyId excludeId) as [x |].
  - rewrite negb_true_iff, String.eqb_neq. split.
    + intros H y [= <-]. exact H.
    + intro H. now apply H.
  - split; [intros _ x Hx; discriminate Hx | reflexivity].
Qed.

(** What a document must satisfy to match the query of [checkConflict]. *)
Lemma conflictQuery_spec staffId date startTime endTime excludeId b :
  conflictQuery staffId date startTime endTime excludeId b = true <->
  appt_staff b = staffId /\ appointmentDate b = date /\
  appt_status b <> Cancelled /\ appt_status b <> NoShow /\
  (forall x, truthyId excludeId = Some x -> appt_id b <> x) /\
  str_lt (appt_startTime b) endTime = true /\
  str_gt (appt_endTime b) startTime = true.
Proof.
  unfold conflictQuery, timesOverlap.
  rewrite !andb_true_iff, String.eqb_eq, Z.eqb_eq, statusNotIn_spec,
    truthyId_neq.
  tauto.
Qed.

Lemma conflictReported_iff coll staffId date startTime endTime excludeId :
  conflictReported
    (checkConflict coll staffId date startTime endTime excludeId) = true <->
  exists b, In b coll /\
    conflictQuery staffId date startTime endTime excludeId b = true.
Proof.
  unfold checkConflict, conflictReported.
  destruct (find _ coll) as [b |] eqn:Hfind.
  - apply find_some in Hfind. split; [intros _; exists b; exact Hfind | reflexivity].
  - split; [discriminate |].
    intros [b [Hin Hq]].
    rewrite (find_none _ _ Hfind b Hin) in Hq. discriminate Hq.
Qed.

(** A booking that ends where the request starts, or starts where the
    request ends, does not match the query. *)
Lemma adjacent_no_match staffId date startTime endTime excludeId b :
  appt_endTime b = startTime \/ appt_startTime b = endTime ->
  conflictQuery staffId date startTime endTime excludeId b = false.
Proof.
  intro Hadj. unfold conflictQuery, timesOverlap, str_gt.
  fold (str_lt startTime (appt_endTime b)).
  destruct Hadj as [-> | ->]; rewrite str_lt_irrefl;
    rewrite ?andb_false_r; reflexivity.
Qed.

(** On [HH:MM] times the overlap test of the query is the half-open overlap
    of the two intervals of minutes. *)
Lemma timesOverlap_minutes b startTime endTime :
  isHHMM (appt_startTime b) = true -> isHHMM (appt_endTime b) = true ->
  isHHMM startTime = true -> isHHMM endTime = true ->
  (timesOverlap b startTime endTime = true <->
   overlaps (apptStartMinutes b) (apptEndMinutes b)
            (timeToMinutes startTime) (timeToMinutes endTime)).
Proof.
  intros Hbs Hbe Hs He. unfold timesOverlap, overlaps.
  rewrite (isHHMM_str_lt _ _ Hbs He), (isHHMM_str_gt _ _ Hbe Hs).
  rewrite andb_true_iff, Z.ltb_lt, Z.gtb_gt. reflexivity.
Qed.

(** X4.  What the conflict check decides.  It reports a conflict exactly when some
    stored booking has the same staff and date, a status other than Cancelled
    and No Show, an id other than the excluded one (when one is given), and
    satisfies [s1 < e2] and [e1 > s2] in the order of strings, which is how
    the query compares the times; bookings whose boundary string equals the
    request's never make the check report a conflict; and on [HH:MM] times
    the rule is the half-open overlap of the intervals of minutes. *)
Lemma checkConflict_reports_overlap
    (coll : list Appointment) (staffId : ObjectId) (date : Z)
    (startTime endTime : string) (excludeId : option ObjectId) :
  (conflictReported
     (checkConflict coll staffId date startTime endTime excludeId) = true <->
   exists b, In b coll /\
     appt_staff b = staffId /\ appointmentDate b = date /\
     appt_status b <> Cancelled /\ appt_status b <> NoShow /\
     (forall x, truthyId excludeId = Some x -> appt_id b <> x) /\
     str_lt (appt_startTime b) endTime = true /\
     str_gt (appt_endTime b) startTime = true) /\
  ((forall b, In b coll ->
      appt_endTime b = startTime \/ appt_startTime b = endTime) ->
   conflictReported
     (checkConflict coll staffId date startTime endTime excludeId) = false) /\
  (forall b,
     isHHMM (appt_startTime b) = true -> isHHMM (appt_endTime b) = true ->
     isHHMM startTime = true -> isHHMM endTime = true ->
     (str_lt (appt_startTime b) endTime = true /\
      str_gt (appt_endTime b) startTime = true <->
      overlaps (apptStartMinutes b) (apptEndMinutes b)
               (timeToMinutes startTime) (timeToMinutes endTime))).
Proof.
  split; [| split].
  - rewrite conflictReported_iff. split.
    + intros [b [Hin Hq]]. exists b. split; [exact Hin |].
      now apply conflictQuery_spec.
    + intros [b [Hin Hq]]. exists b. split; [exact Hin |].
      now apply conflictQuery_spec.
  - intro Hadj. apply not_true_is_false. rewrite conflictReported_iff.
    intros [b [Hin Hq]].
    rewrite (adjacent_no_match _ _ _ _ _ b (Hadj b Hin)) in Hq.
    discriminate Hq.
  - intros b Hbs Hbe Hs He.
    rewrite <- (timesOverlap_minutes b startTime endTime Hbs Hbe Hs He).
    unfold timesOverlap. now rewrite andb_true_iff.
Qed.

(** ** Slot generation *)

Section SlotLoop.

Variables (serviceDuration endMinutes : Z) (existing : list Appointment).

Local Abbreviation loop fuel c acc :=
  (slotLoop fuel c serviceDuration endMinutes existing acc).
Local Abbreviation count c := (iterations c serviceDuration endMinutes).
Local Abbreviation pushed n c := (pushed serviceDuration existing n c).

(** The loop only appends to the array it is given. *)
Lemma slotLoop_acc fuel : forall c acc, loop fuel c acc = acc ++ loop fuel c [].
Proof.
  induction fuel as [| fuel IH]; intros c acc; cbn [slotLoop].
  - now rewrite app_nil_r.
  - destruct (c + serviceDuration <=? endMinutes); [| now rewrite app_nil_r].
    destruct (negb (existsb (slotConflicts c serviceDuration) existing)).
    + rewrite (IH _ (acc ++ _)), (IH _ ([] ++ _)), app_assoc. reflexivity.
    + apply IH.
Qed.

(** The loop condition holds at [c] exactly when an iteration is left. *)
Lemma iterations_continue c :
  c + serviceDuration <= endMinutes -> count c = S (count (c + 30)).
Proof.
  intro H. unfold iterations.
  replace (endMinutes - serviceDuration - c)
    with ((endMinutes - serviceDuration - (c + 30)) + 1 * 30) by lia.
  rewrite Z.div_add by lia.
  assert (-1 <= (endMinutes - serviceDuration - (c + 30)) / 30).
  { apply Z.div_le_lower_bound; lia. }
  lia.
Qed.

Lemma iterations_stop c : endMinutes < c + serviceDuration -> count c = 0%nat.
Proof.
  intro H. unfold iterations.
  assert ((endMinutes - serviceDuration - c) / 30 < 0).
  { apply Z.div_lt_upper_bound; lia. }
  lia.
Qed.

(** The [k]-th candidate passes the loop condition exactly when [k] is less
    than the number of iterations. *)
Lemma iterations_spec c (k : nat) :
  (k < count c)%nat <-> candidate c k + serviceDuration <= endMinutes.
Proof.
  unfold iterations, candidate.
  set (x := endMinutes - serviceDuration - c).
  split; intro H.
  - assert (Hk : Z.of_nat k <= x / 30) by lia.
    pose proof (Z.mul_div_le x 30 ltac:(lia)). lia.
  - assert (Hk : Z.of_nat k <= x / 30).
    { apply Z.div_le_lower_bound; lia. }
    lia.
Qed.

Lemma candidate_shift c k : candidate (c + 30) k = candidate c (S k).
Proof. unfold candidate. lia. Qed.

Lemma pushed_step n c :
  pushed (S n) c =
  (if isFree serviceDuration existing c then [slotAt serviceDuration c] else [])
  ++ pushed n (c + 30).
Proof.
  unfold pushed. cbn [seq map filter].
  replace (candidate c 0) with c by (unfold candidate; lia).
  rewrite <- seq_shift, map_map.
  rewrite (map_ext (fun k => candidate c (S k)) (candidate (c + 30)))
    by (intro k; now rewrite candidate_shift).
  destruct (isFree serviceDuration existing c); reflexivity.
Qed.

(** With enough fuel the loop pushes the free candidates that pass the loop
    condition, and nothing else: more fuel changes nothing. *)
Lemma slotLoop_fuel fuel :
  forall c, (count c <= fuel)%nat -> loop fuel c [] = pushed (count c) c.
Proof.
  induction fuel as [| fuel IH]; intros c Hfuel.
  - replace (count c) with 0%nat by lia. reflexivity.
  - cbn [slotLoop].
    destruct (Z.leb_spec (c + serviceDuration) endMinutes) as [Hle | Hgt].
    + rewrite (iterations_continue c Hle) in *.
      rewrite pushed_step. unfold isFree.
      destruct (negb (existsb (slotConflicts c serviceDuration) existing)).
      * rewrite slotLoop_acc. rewrite IH by lia. reflexivity.
      * rewrite IH by lia. reflexivity.
    + now rewrite (iterations_stop c Hgt).
Qed.

End SlotLoop.

(** [calculateAvailableSlots] returns the slots of the free candidates
    [startMinutes + 30 * k] that end within the window, in increasing [k]. *)
Lemma calculateAvailableSlots_pushed startTime endTime serviceDuration existing :
  calculateAvailableSlots startTime endTime serviceDuration existing =
  pushed serviceDuration existing
    (iterations (timeToMinutes startTime) serviceDuration
                (timeToMinutes endTime))
    (timeToMinutes startTime).
Proof.
  unfold calculateAvailableSlots. apply slotLoop_fuel. lia.
Qed.

Lemma isFree_spec serviceDuration existing c :
  isFree serviceDuration existing c = true <->
  forall a, In a existing ->
    ~ overlaps c (c + serviceDuration) (apptStartMinutes a) (apptEndMinutes a).
Proof.
  unfold isFree, overlaps, apptStartMinutes, apptEndMinutes.
  rewrite negb_true_iff. split.
  - intros Hnone a Hin [H1 H2].
    assert (Hex : existsb (slotConflicts c serviceDuration) existing = true).
    { apply existsb_exists. exists a. split; [exact Hin |].
      unfold slotConflicts. apply andb_true_iff. split.
      - apply Z.ltb_lt. exact H1.
      - apply Z.gtb_gt. exact H2. }
    congruence.
  - intro Hall. apply not_true_is_false. intro Hex.
    apply existsb_exists in Hex. destruct Hex as [a [Hin Hc]].
    unfold slotConflicts in Hc. apply andb_true_iff in Hc.
    destruct Hc as [H1 H2]. apply Z.ltb_lt in H1. apply Z.gtb_gt in H2.
    exact (Hall a Hin (conj H1 H2)).
Qed.

(** Membership in the result, candidate by candidate. *)
Lemma In_pushed serviceDuration endMinutes existing c slot :
  In slot (pushed serviceDuration existing
             (iterations c serviceDuration endMinutes) c) <->
  exists k : nat,
    slot = slotAt serviceDuration (candidate c k) /\
    candidate c k + serviceDuration <= endMinutes /\
    isFree serviceDuration existing (candidate c k) = true.
Proof.
  unfold pushed. rewrite in_map_iff. split.
  - intros [x [Hslot Hx]]. apply filter_In in Hx. destruct Hx as [Hx Hfree].
    apply in_map_iff in Hx. destruct Hx as [k [<- Hk]].
    apply in_seq in Hk. exists k. split; [now symmetry | split; [| exact Hfree]].
    apply iterations_spec. lia.
  - intros [k [-> [Hle Hfree]]]. exists (candidate c k). split; [reflexivity |].
    apply filter_In. split; [| exact Hfree].
    apply in_map. apply in_seq. apply iterations_spec in Hle. lia.
Qed.

Lemma candidates_increasing c n :
  forall a, StronglySorted Z.lt (map (candidate c) (seq a n)).
Proof.
  induction n as [| n IH]; intro a; cbn [seq map]; constructor.
  - apply IH.
  - apply Forall_forall. intros y Hy. apply in_map_iff in Hy.
    destruct Hy as [k [<- Hk]]. apply in_seq in Hk. unfold candidate. lia.
Qed.

Lemma StronglySorted_filter {A : Type} (R : A -> A -> Prop) (p : A -> bool) l :
  StronglySorted R l -> StronglySorted R (filter p l).
Proof.
  induction 1 as [| x l Hl IH Hx]; cbn [filter]; [constructor |].
  destruct (p x); [| exact IH].
  constructor; [exact IH |].
  apply Forall_forall. intros y Hy. apply filter_In in Hy.
  rewrite Forall_forall in Hx. now apply Hx.
Qed.

Lemma StronglySorted_map_on {A B : Type} (R : A -> A -> Prop)
    (R' : B -> B -> Prop) (P : A -> Prop) (f : A -> B) l :
  (forall x y, P x -> P y -> R x y -> R' (f x) (f y)) ->
  Forall P l -> StronglySorted R l -> StronglySorted R' (map f l).
Proof.
  intros Hf HP Hs. induction Hs as [| x l Hl IH Hx]; cbn [map];
    [constructor |].
  inversion HP as [| ? ? Px Pl]; subst.
  constructor; [now apply IH |].
  apply Forall_forall. intros y Hy. apply in_map_iff in Hy.
  destruct Hy as [z [<- Hz]]. rewrite Forall_forall in Hx, Pl.
  apply Hf; auto.
Qed.

(** A slot whose interval lies in the day reads back as that interval. *)
Lemma slotAt_minutes serviceDuration c :
  0 <= c -> 0 <= serviceDuration -> c + serviceDuration < 1440 ->
  slotStartMinutes (slotAt serviceDuration c) = c /\
  slotEndMinutes (slotAt serviceDuration c) = c + serviceDuration.
Proof.
  intros Hc Hd He. unfold slotStartMinutes, slotEndMinutes, slotAt.
  cbn [slot_startTime slot_endTime].
  split; apply timeToMinutes_minutesToTime; lia.
Qed.

Section Slots.

Variables (startTime endTime : string) (serviceDuration : Z)
          (existing : list Appointment).
Hypothesis startValid : timeFormat startTime = true.
Hypothesis endValid : timeFormat endTime = true.
Hypothesis durationNonneg : 0 <= serviceDuration.

Local Abbreviation startMinutes := (timeToMinutes startTime).
Local Abbreviation endMinutes := (timeToMinutes endTime).
Local Abbreviation result :=
  (calculateAvailableSlots startTime endTime serviceDuration existing).

(** Every returned slot is the slot of a candidate that lies in the day, is
    free and ends within the window. *)
Lemma result_candidate slot :
  In slot result ->
  exists k : nat,
    slot = slotAt serviceDuration (candidate startMinutes k) /\
    0 <= candidate startMinutes k /\
    candidate startMinutes k + serviceDuration <= endMinutes /\
    endMinutes < 1440 /\
    isFree serviceDuration existing (candidate startMinutes k) = true.
Proof.
  rewrite calculateAvailableSlots_pushed, In_pushed.
  intros [k [Hslot [Hle Hfree]]]. exists k.
  pose proof (timeToMinutes_range startTime startValid).
  pose proof (timeToMinutes_range endTime endValid).
  repeat split; try assumption; unfold candidate; lia.
Qed.

Lemma result_minutes slot :
  In slot result ->
  exists c,
    slotStartMinutes slot = c /\ slotEndMinutes slot = c + serviceDuration /\
    startMinutes <= c /\ c + serviceDuration <= endMinutes /\
    isFree serviceDuration existing c = true.
Proof.
  intro Hin. destruct (result_candidate slot Hin)
    as [k [-> [H0 [Hle [Hend Hfree]]]]].
  exists (candidate startMinutes k).
  destruct (slotAt_minutes serviceDuration (candidate startMinutes k))
    as [Hs He]; try lia.
  repeat split; try assumption. unfold candidate. lia.
Qed.

Lemma result_chronological : chronological result.
Proof.
  unfold chronological. rewrite calculateAvailableSlots_pushed. unfold pushed.
  pose proof (timeToMinutes_range startTime startValid) as Rs.
  pose proof (timeToMinutes_range endTime endValid) as Re.
  apply (StronglySorted_map_on Z.lt _
           (fun c => 0 <= c /\ c + serviceDuration < 1440)).
  - intros x y [Hx Hx'] [Hy Hy'] Hlt.
    destruct (slotAt_minutes serviceDuration x) as [-> _]; try lia.
    destruct (slotAt_minutes serviceDuration y) as [-> _]; try lia.
  - apply Forall_forall. intros c Hc. apply filter_In in Hc.
    destruct Hc as [Hc _]. apply in_map_iff in Hc. destruct Hc as [k [<- Hk]].
    apply in_seq in Hk.
    assert (Hle : candidate startMinutes k + serviceDuration <= endMinutes).
    { apply iterations_spec. lia. }
    unfold candidate in *. lia.
  - apply StronglySorted_filter. apply candidates_increasing.
Qed.

End Slots.

(** The conversion of the code gives the minutes since midnight of every
    string of the time pattern. *)
Lemma timeToMinutes_minutesSinceMidnight v :
  timeFormat v = true -> timeToMinutes v = minutesSinceMidnight v.
Proof.
  intro Hv. apply Z.eqb_eq. revert v Hv.
  apply (timeFormat_forall (fun v => timeToMinutes v =? minutesSinceMidnight v)).
  vm_compute. reflexivity.
Qed.

Lemma minutesSinceMidnight_minutesToTime m :
  0 <= m < 1440 -> minutesSinceMidnight (minutesToTime m) = m.
Proof.
  intro H. rewrite <- timeToMinutes_minutesSinceMidnight.
  - now apply timeToMinutes_minutesToTime.
  - apply isHHMM_timeFormat. now apply minutesToTime_isHHMM.
Qed.

Lemma StronglySorted_on {A : Type} (R R' : A -> A -> Prop) l :
  (forall x y, In x l -> In y l -> R x y -> R' x y) ->
  StronglySorted R l -> StronglySorted R' l.
Proof.
  intros Himp Hs. induction Hs as [| x l Hs IH Hall].
  - constructor.
  - constructor.
    + apply IH. intros y z Hy Hz. apply Himp; now right.
    + rewrite Forall_forall in *. intros y Hy.
      apply Himp; [now left | now right | now apply Hall].
Qed.

(** C2. For a window whose two times match the time pattern, a duration
    [D >= 0] and any list of stored bookings (with times of the pattern),
    slot generation works on minutes since midnight: the minutes it computes
    for the window and for the bookings are the minutes since midnight of
    these clock times.  It considers the candidate starts
    [windowStart + 30 * k]: a slot is returned exactly when it is the slot
    [[c, c + D)] of such a candidate [c] with [c + D <= windowEnd] that
    overlaps no booking of the list under the half-open rule; every returned
    slot, read as clock times, starts at a candidate and ends [D] minutes
    later; and the list is in chronological order. *)
Theorem slots_are_free_candidates
    (startTime endTime : string) (serviceDuration : Z)
    (existing : list Appointment) :
  timeFormat startTime = true -> timeFormat endTime = true ->
  0 <= serviceDuration -> Forall validTimes existing ->
  let result :=
    calculateAvailableSlots startTime endTime serviceDuration existing in
  let windowStart := minutesSinceMidnight startTime in
  let windowEnd := minutesSinceMidnight endTime in
  (timeToMinutes startTime = windowStart /\
   timeToMinutes endTime = windowEnd /\
   forall a, In a existing ->
     timeToMinutes (appt_startTime a) = minutesSinceMidnight (appt_startTime a) /\
     timeToMinutes (appt_endTime a) = minutesSinceMidnight (appt_endTime a)) /\
  (forall slot, In slot result <->
     exists k : nat,
       let c := windowStart + 30 * Z.of_nat k in
       slot = mkSlot (minutesToTime c) (minutesToTime (c + serviceDuration)) /\
       c + serviceDuration <= windowEnd /\
       forall a, In a existing ->
         ~ overlaps c (c + serviceDuration)
             (minutesSinceMidnight (appt_startTime a))
             (minutesSinceMidnight (appt_endTime a))) /\
  (forall slot, In slot result ->
     (exists k : nat,
        minutesSinceMidnight (slot_startTime slot)
          = windowStart + 30 * Z.of_nat k) /\
     minutesSinceMidnight (slot_endTime slot)
       = minutesSinceMidnight (slot_startTime slot) + serviceDuration) /\
  StronglySorted
    (fun s1 s2 => minutesSinceMidnight (slot_startTime s1)
                  < minutesSinceMidnight (slot_startTime s2)) result.
Proof.
  intros Hs He Hd Hvalid result windowStart windowEnd.
  pose proof (timeToMinutes_minutesSinceMidnight startTime Hs) as Es.
  pose proof (timeToMinutes_minutesSinceMidnight endTime He) as Ee.
  fold windowStart in Es. fold windowEnd in Ee.
  assert (Eb : forall a, In a existing ->
            timeToMinutes (appt_startTime a)
              = minutesSinceMidnight (appt_startTime a) /\
            timeToMinutes (appt_endTime a)
              = minutesSinceMidnight (appt_endTime a)).
  { intros a Ha. rewrite Forall_forall in Hvalid.
    destruct (Hvalid a Ha) as [H1 H2].
    split; now apply timeToMinutes_minutesSinceMidnight. }
  assert (Hslot : forall slot, In slot result ->
            exists k : nat,
              let c := windowStart + 30 * Z.of_nat k in
              slot = slotAt serviceDuration c /\
              0 <= c /\ c + serviceDuration < 1440 /\
              minutesSinceMidnight (slot_startTime slot) = c /\
              minutesSinceMidnight (slot_endTime slot) = c + serviceDuration).
  { intros slot Hin.
    destruct (result_candidate startTime endTime serviceDuration existing
                Hs He slot Hin) as [k [Hk [H0 [Hle [Hend _]]]]].
    exists k. cbn zeta. unfold candidate in *. rewrite Es in *.
    split; [exact Hk |]. split; [exact H0 |]. split; [lia |].
    rewrite Hk. cbn [slotAt slot_startTime slot_endTime].
    split; apply minutesSinceMidnight_minutesToTime; lia. }
  split; [auto | split; [| split]].
  - intro slot. unfold result.
    rewrite calculateAvailableSlots_pushed, In_pushed. rewrite Es, Ee.
    split; intros [k [Hk [Hle Hfree]]]; exists k; cbn zeta;
      (split; [exact Hk | split; [exact Hle |]]).
    + rewrite isFree_spec in Hfree. intros a Ha.
      destruct (Eb a Ha) as [E1 E2]. rewrite <- E1, <- E2. now apply Hfree.
    + apply isFree_spec. intros a Ha.
      destruct (Eb a Ha) as [E1 E2]. unfold apptStartMinutes, apptEndMinutes.
      rewrite E1, E2. now apply Hfree.
  - intros slot Hin. destruct (Hslot slot Hin) as [k [_ [_ [_ [H1 H2]]]]].
    cbn zeta in H1, H2. split; [exists k; exact H1 | lia].
  - apply (StronglySorted_on
             (fun s1 s2 => slotStartMinutes s1 < slotStartMinutes s2)).
    + intros x y Hx Hy Hlt.
      destruct (Hslot x Hx) as [kx [Ex [X0 [X1 _]]]].
      destruct (Hslot y Hy) as [ky [Ey [Y0 [Y1 _]]]].
      cbn zeta in *. unfold slotStartMinutes in Hlt.
      rewrite !timeToMinutes_minutesSinceMidnight in Hlt; [exact Hlt | |].
      * rewrite Ey. cbn [slotAt slot_startTime].
        apply isHHMM_timeFormat, minutesToTime_isHHMM. lia.
      * rewrite Ex. cbn [slotAt slot_startTime].
        apply isHHMM_timeFormat, minutesToTime_isHHMM. lia.
    + apply (result_chronological startTime endTime serviceDuration existing
               Hs He Hd).
Qed.

Lemma slots_are_free_candidates_witness :
  let result := calculateAvailableSlots "09:00" "17:00" 30 [scenarioBooking] in
  let windowStart := minutesSinceMidnight "09:00" in
  let windowEnd := minutesSinceMidnight "17:00" in
  (timeToMinutes "09:00" = windowStart /\
   timeToMinutes "17:00" = windowEnd /\
   forall a, In a [scenarioBooking] ->
     timeToMinutes (appt_startTime a) = minutesSinceMidnight (appt_startTime a) /\
     timeToMinutes (appt_endTime a) = minutesSinceMidnight (appt_endTime a)) /\
  (forall slot, In slot result <->
     exists k : nat,
       let c := windowStart + 30 * Z.of_nat k in
       slot = mkSlot (minutesToTime c) (minutesToTime (c + 30)) /\
       c + 30 <= windowEnd /\
       forall a, In a [scenarioBooking] ->
         ~ overlaps c (c + 30)
             (minutesSinceMidnight (appt_startTime a))
             (minutesSinceMidnight (appt_endTime a))) /\
  (forall slot, In slot result ->
     (exists k : nat,
        minutesSinceMidnight (slot_startTime slot)
          = windowStart + 30 * Z.of_nat k) /\
     minutesSinceMidnight (slot_endTime slot)
       = minutesSinceMidnight (slot_startTime slot) + 30) /\
  StronglySorted
    (fun s1 s2 => minutesSinceMidnight (slot_startTime s1)
                  < minutesSinceMidnight (slot_startTime s2)) result.
Proof.
  apply (slots_are_free_candidates "09:00" "17:00" 30 [scenarioBooking]).
  - reflexivity.
  - reflexivity.
  - lia.
  - constructor; [split; reflexivity | constructor].
Defined.

(** C4. No slot returned by slot generation overlaps a booking of the list
    under the half-open overlap rule. *)
Theorem slots_avoid_bookings
    (startTime endTime : string) (serviceDuration : Z)
    (existing : list Appointment) :
  timeFormat startTime = true -> timeFormat endTime = true ->
  0 <= serviceDuration -> Forall validTimes existing ->
  forall slot a,
    In slot (calculateAvailableSlots startTime endTime serviceDuration existing) ->
    In a existing ->
    ~ overlaps (slotStartMinutes slot) (slotEndMinutes slot)
        (apptStartMinutes a) (apptEndMinutes a).
Proof.
  intros Hs He Hd _ slot a Hin Ha.
  destruct (result_minutes startTime endTime serviceDuration existing
              Hs He Hd slot Hin) as [c [-> [-> [_ [_ Hfree]]]]].
  rewrite isFree_spec in Hfree. now apply Hfree.
Qed.

Lemma slots_avoid_bookings_witness :
  ~ overlaps (slotStartMinutes (mkSlot "09:30" "10:00"))
      (slotEndMinutes (mkSlot "09:30" "10:00"))
      (apptStartMinutes scenarioBooking) (apptEndMinutes scenarioBooking).
Proof.
  apply (slots_avoid_bookings "09:00" "17:00" 30 [scenarioBooking]).
  - reflexivity.
  - reflexivity.
  - lia.
  - constructor; [split; reflexivity | constructor].
  - vm_compute. right. left. reflexivity.
  - left. reflexivity.
Defined.

(** C5. Every slot returned by slot generation ends at or before the end of
    the availability window; when the window end has the [HH:MM] shape, this
    also holds of the two strings as the code compares strings. *)
Theorem slots_end_within_window
    (startTime endTime : string) (serviceDuration : Z)
    (existing : list Appointment) :
  timeFormat startTime = true -> timeFormat endTime = true ->
  0 <= serviceDuration -> Forall validTimes existing ->
  forall slot,
    In slot (calculateAvailableSlots startTime endTime serviceDuration existing) ->
    slotEndMinutes slot <= timeToMinutes endTime /\
    (isHHMM endTime = true -> str_le (slot_endTime slot) endTime = true).
Proof.
  intros Hs He Hd _ slot Hin.
  pose proof (result_minutes startTime endTime serviceDuration existing
                Hs He Hd slot Hin) as [c [H1 [H2 [H3 [H4 _]]]]].
  split; [lia |].
  intro Hhh.
  destruct (result_candidate startTime endTime serviceDuration existing
              Hs He slot Hin) as [k [Hslot [H0 [Hle [Hend _]]]]].
  assert (Hshape : isHHMM (slot_endTime slot) = true).
  { rewrite Hslot. cbn [slotAt slot_endTime]. apply minutesToTime_isHHMM. lia. }
  rewrite (isHHMM_str_le _ _ Hshape Hhh). apply Z.leb_le.
  fold (slotEndMinutes slot). lia.
Qed.

Lemma slots_end_within_window_witness :
  slotEndMinutes (mkSlot "16:30" "17:00") <= timeToMinutes "17:00" /\
  (isHHMM "17:00" = true -> str_le (slot_endTime (mkSlot "16:30" "17:00")) "17:00" = true).
Proof.
  apply (slots_end_within_window "09:00" "17:00" 30 [scenarioBooking]).
  - reflexivity.
  - reflexivity.
  - lia.
  - constructor; [split; reflexivity | constructor].
  - vm_compute. do 13 right. left. reflexivity.
Defined.

(** ** The scenario of the spec *)

(** C3, as stated, fails: 10:45 is not a generated start (the candidates are
    09:00, 09:30, 10:00, 10:30, 11:00, ...; 10:45 is none of them). *)
Lemma scenario_as_stated_fails : ~ scenarioAsStated.
Proof.
  intros [_ [_ [_ [_ [_ Hstride]]]]].
  specialize (Hstride 0%nat ltac:(lia)).
  vm_compute in Hstride.
  repeat (destruct Hstride as [Hstride | Hstride]; [discriminate Hstride |]).
  exact Hstride.
Qed.

(** C3, amended.  With availability 09:00-17:00, one booking 10:00-10:45 and
    a duration of 30 minutes, the generated starts are 09:00 and 09:30, then
    11:00 and every 30 minutes from 11:00 up to 16:30: the starts 10:00,
    10:15, 10:30 and 10:45 are not generated. *)
Theorem scenario_generated_starts :
  scenarioStarts =
    ["09:00"; "09:30"; "11:00"; "11:30"; "12:00"; "12:30"; "13:00"; "13:30";
     "14:00"; "14:30"; "15:00"; "15:30"; "16:00"; "16:30"] /\
  ~ In "10:00" scenarioStarts /\ ~ In "10:15" scenarioStarts /\
  ~ In "10:30" scenarioStarts /\ ~ In "10:45" scenarioStarts.
Proof.
  assert (H : scenarioStarts =
    ["09:00"; "09:30"; "11:00"; "11:30"; "12:00"; "12:30"; "13:00"; "13:30";
     "14:00"; "14:30"; "15:00"; "15:30"; "16:00"; "16:30"])
    by (vm_compute; reflexivity).
  split; [exact H |]. rewrite H.
  repeat split; intro Hin;
    repeat (destruct Hin as [Hin | Hin]; [discriminate Hin |]); exact Hin.
Qed.

(** ** The unique index *)

Lemma sameIndexKey_sym a b : sameIndexKey a b = sameIndexKey b a.
Proof.
  unfold sameIndexKey.
  now rewrite (String.eqb_sym (appt_staff a)), (Z.eqb_sym (appointmentDate a)),
    (String.eqb_sym (appt_startTime a)), (String.eqb_sym (appt_endTime a)).
Qed.

(** A write is a duplicate exactly when the written document is covered by
    the index and another covered document has its key. *)
Lemma duplicateKey_spec coll d :
  duplicateKey coll d = true <->
  inPartialIndex d = true /\
  exists a, In a coll /\ inPartialIndex a = true /\
            sameIndexKey a d = true /\ appt_id a <> appt_id d.
Proof.
  unfold duplicateKey. rewrite andb_true_iff, existsb_exists.
  split; intros [Hd [a [Hin Ha]]]; (split; [exact Hd |]); exists a.
  - rewrite !andb_true_iff, negb_true_iff, String.eqb_neq in Ha. tauto.
  - rewrite !andb_true_iff, negb_true_iff, String.eqb_neq. tauto.
Qed.

Lemma duplicateKey_rejected coll d :
  duplicateKey coll d = true ->
  insertDoc coll d = None /\ replaceDoc coll d = None.
Proof.
  intro H. unfold insertDoc, replaceDoc. rewrite H.
  split; [| reflexivity].
  now destruct (existsb _ coll).
Qed.

Lemma NoDup_ids_position coll i j a b :
  NoDup (map appt_id coll) ->
  nth_error coll i = Some a -> nth_error coll j = Some b ->
  appt_id a = appt_id b -> i = j.
Proof.
  intros Hnd Hi Hj Hid.
  apply (proj1 (NoDup_nth_error (map appt_id coll)) Hnd).
  - rewrite length_map. apply nth_error_Some. congruence.
  - rewrite !nth_error_map, Hi, Hj. cbn. now rewrite Hid.
Qed.

Lemma insertDoc_invariant coll d coll' :
  storeInvariant coll -> insertDoc coll d = Some coll' -> storeInvariant coll'.
Proof.
  intros [Hids Huniq]. unfold insertDoc.
  destruct (existsb _ coll) eqn:Hfresh; [discriminate |].
  destruct (duplicateKey coll d) eqn:Hdup; [discriminate |].
  intros [= <-].
  assert (Hnew : forall a, In a coll -> appt_id a <> appt_id d).
  { intros a Hin Heq.
    assert (existsb (fun a => String.eqb (appt_id a) (appt_id d)) coll = true).
    { apply existsb_exists. exists a. split; [exact Hin |].
      now apply String.eqb_eq. }
    congruence. }
  assert (Hclash : forall a, In a coll -> inPartialIndex a = true ->
                     inPartialIndex d = true -> sameIndexKey a d = true -> False).
  { intros a Hin Ha Hd Hk.
    assert (duplicateKey coll d = true).
    { apply duplicateKey_spec. split; [exact Hd |]. exists a. auto. }
    congruence. }
  split.
  - rewrite map_app. cbn [map]. apply NoDup_app; [exact Hids | | ].
    + repeat constructor. intros [].
    + intros x Hx [<- | []]. apply in_map_iff in Hx.
      destruct Hx as [a [Ha Hin]]. exact (Hnew a Hin Ha).
  - intros i j a b Hi Hj Ha Hb Hk.
    destruct (Nat.lt_ge_cases i (List.length coll)) as [Hil | Hil];
      destruct (Nat.lt_ge_cases j (List.length coll)) as [Hjl | Hjl].
    + rewrite nth_error_app1 in Hi, Hj by assumption.
      exact (Huniq i j a b Hi Hj Ha Hb Hk).
    + exfalso. rewrite nth_error_app1 in Hi by assumption.
      rewrite nth_error_app2 in Hj by assumption.
      destruct (j - List.length coll)%nat as [| n]; cbn in Hj;
        [| destruct n; discriminate Hj].
      injection Hj as <-.
      exact (Hclash a (nth_error_In _ _ Hi) Ha Hb Hk).
    + exfalso. rewrite nth_error_app2 in Hi by assumption.
      rewrite nth_error_app1 in Hj by assumption.
      destruct (i - List.length coll)%nat as [| n]; cbn in Hi;
        [| destruct n; discriminate Hi].
      injection Hi as <-. rewrite sameIndexKey_sym in Hk.
      exact (Hclash b (nth_error_In _ _ Hj) Hb Ha Hk).
    + rewrite nth_error_app2 in Hi, Hj by assumption.
      destruct (i - List.length coll)%nat as [| n] eqn:Ei; cbn in Hi;
        [| destruct n; discriminate Hi].
      destruct (j - List.length coll)%nat as [| m] eqn:Ej; cbn in Hj;
        [| destruct m; discriminate Hj].
      lia.
Qed.

Lemma replaceDoc_invariant coll d coll' :
  storeInvariant coll -> replaceDoc coll d = Some coll' -> storeInvariant coll'.
Proof.
  intros [Hids Huniq]. unfold replaceDoc.
  destruct (duplicateKey coll d) eqn:Hdup; [discriminate |].
  intros [= <-].
  set (f := fun a => if String.eqb (appt_id a) (appt_id d) then d else a).
  assert (Hid : forall a, appt_id (f a) = appt_id a).
  { intro a. unfold f. destruct (String.eqb_spec (appt_id a) (appt_id d));
      congruence. }
  assert (Hclash : forall a, In a coll -> inPartialIndex a = true ->
                     inPartialIndex d = true -> sameIndexKey a d = true ->
                     appt_id a <> appt_id d -> False).
  { intros a Hin Ha Hd Hk Hne.
    assert (duplicateKey coll d = true).
    { apply duplicateKey_spec. split; [exact Hd |]. exists a. auto. }
    congruence. }
  split.
  - rewrite map_map. rewrite (map_ext _ appt_id Hid). exact Hids.
  - intros i j a' b' Hi Hj Ha Hb Hk.
    rewrite nth_error_map in Hi, Hj.
    destruct (nth_error coll i) as [a |] eqn:Ei; [| discriminate Hi].
    destruct (nth_error coll j) as [b |] eqn:Ej; [| discriminate Hj].
    cbn in Hi, Hj. injection Hi as <-. injection Hj as <-.
    unfold f in Ha, Hb, Hk.
    destruct (String.eqb_spec (appt_id a) (appt_id d)) as [Ea | Na];
      destruct (String.eqb_spec (appt_id b) (appt_id d)) as [Eb | Nb].
    + apply (NoDup_ids_position coll i j a b Hids Ei Ej). congruence.
    + exfalso. rewrite sameIndexKey_sym in Hk.
      exact (Hclash b (nth_error_In _ _ Ej) Hb Ha Hk Nb).
    + exfalso. exact (Hclash a (nth_error_In _ _ Ei) Ha Hb Hk Na).
    + exact (Huniq i j a b Ei Ej Ha Hb Hk).
Qed.

Lemma applyWrite_invariant coll w coll' :
  storeInvariant coll -> applyWrite coll w = Some coll' -> storeInvariant coll'.
Proof.
  intro Hinv. destruct w; cbn [applyWrite]; unfold saveChanged;
    try (destruct (findById appt_id coll id); [| discriminate | discriminate];
         apply replaceDoc_invariant; exact Hinv).
  - apply insertDoc_invariant; exact Hinv.
  - intros [= <-]. split; [constructor |].
    intros i j a b Hi. destruct i; discriminate Hi.
Qed.

Lemma reachable_invariant coll : reachable coll -> storeInvariant coll.
Proof.
  induction 1 as [| coll w Hreach IH].
  - split; [constructor |]. intros i j a b Hi. destruct i; discriminate Hi.
  - unfold step. destruct (applyWrite coll w) as [coll' |] eqn:Hw; cbn [orElse].
    + exact (applyWrite_invariant coll w coll' IH Hw).
    + exact IH.
Qed.

(** C6.  In every collection the writes of the code can produce, no two
    documents whose status is neither Cancelled nor No Show have the same
    (staff, appointmentDate, startTime, endTime); every write keeps it so;
    and a write of a document that would duplicate the tuple of another such
    document is rejected, as an insertion and as an update, leaving the
    collection as it was. *)
Theorem unique_slot_invariant (coll : list Appointment) :
  reachable coll ->
  uniqueSlots coll /\
  (forall a b, In a coll -> In b coll ->
     statusNotIn a = true -> statusNotIn b = true ->
     sameIndexKey a b = true -> a = b) /\
  (forall w, uniqueSlots (step coll w)) /\
  (forall a d, In a coll -> statusNotIn a = true -> statusNotIn d = true ->
     sameIndexKey a d = true -> appt_id a <> appt_id d ->
     insertDoc coll d = None /\ replaceDoc coll d = None /\
     step coll (WCreate d) = coll).
Proof.
  intro Hreach. pose proof (reachable_invariant coll Hreach) as [Hids Huniq].
  split; [exact Huniq | split; [| split]].
  - intros a b Ha Hb Sa Sb Hk.
    apply In_nth_error in Ha, Hb. destruct Ha as [i Hi]. destruct Hb as [j Hj].
    pose proof (Huniq i j a b Hi Hj Sa Sb Hk) as ->. congruence.
  - intro w. apply (reachable_invariant (step coll w)).
    now constructor.
  - intros a d Hin Sa Sd Hk Hne.
    assert (Hdup : duplicateKey coll d = true).
    { apply duplicateKey_spec. split; [exact Sd |]. exists a. auto. }
    destruct (duplicateKey_rejected coll d Hdup) as [Hi Hr].
    repeat split; try assumption.
    unfold step. cbn [applyWrite]. now rewrite Hi.
Qed.

Lemma unique_slot_invariant_witness :
  let coll := step [] (WCreate scenarioBooking) in
  uniqueSlots coll /\
  (forall a b, In a coll -> In b coll ->
     statusNotIn a = true -> statusNotIn b = true ->
     sameIndexKey a b = true -> a = b) /\
  (forall w, uniqueSlots (step coll w)) /\
  (forall a d, In a coll -> statusNotIn a = true -> statusNotIn d = true ->
     sameIndexKey a d = true -> appt_id a <> appt_id d ->
     insertDoc coll d = None /\ replaceDoc coll d = None /\
     step coll (WCreate d) = coll).
Proof.
  apply (unique_slot_invariant (step [] (WCreate scenarioBooking))).
  apply reach_step. apply reach_empty.
Defined.

(** ** Lookups *)

(** A lookup finds a document of the collection under the id it was given,
    and only under an id that is an ObjectId. *)
Lemma findById_Found {A : Type} (idOf : A -> ObjectId) coll id x :
  findById idOf coll id = Found x ->
  In x coll /\ idOf x = id /\ isMongoId id = true.
Proof.
  unfold findById. destruct (isMongoId id); [| discriminate].
  destruct (find _ coll) as [y |] eqn:Hf; [| discriminate].
  intros [= <-]. apply find_some in Hf. destruct Hf as [Hin Hid].
  split; [exact Hin | split; [now apply String.eqb_eq | reflexivity]].
Qed.

Lemma findById_CastError {A : Type} (idOf : A -> ObjectId) coll id :
  findById idOf coll id = CastError <-> isMongoId id = false.
Proof.
  unfold findById. destruct (isMongoId id).
  - split; [| discriminate]. destruct (find _ coll); discriminate.
  - split; reflexivity.
Qed.

(** ** Booking creation *)

Ltac split_handler :=
  repeat match goal with
         | |- context [if ?b then _ else _] => destruct b eqn:?
         | |- context [match ?o with Some _ => _ | None => _ end] =>
             destruct o eqn:?
         end.

Lemma rejectIf_Go cond code m : rejectIf cond code m = Go tt <-> cond = false.
Proof.
  unfold rejectIf. destruct cond; split; intro H;
    try reflexivity; discriminate H.
Qed.

Lemma rejectIf_Answer cond code m r :
  rejectIf cond code m = Answer r -> cond = true /\ r = Json code (Failure m).
Proof.
  unfold rejectIf. destruct cond; [intros [= <-]; auto | discriminate].
Qed.

(** What the handler has established when it has found the window. *)
Lemma lookupChecks_Go now db user req chk :
  lookupChecks now db user req = Go chk ->
  appointmentValidation now req = true /\
  activeStaff (findById staff_id (staffMembers db) (req_staff req))
    = Some (chk_staff chk) /\
  activeService (findById service_id (services db) (req_service req))
    = Some (chk_service chk) /\
  availabilityFor (chk_staff chk) (weekdayOf (req_appointmentDate req))
    = Some (chk_window chk).
Proof.
  unfold lookupChecks, bind, rejectIf, orReject.
  destruct (appointmentValidation now req); cbn [negb]; [| discriminate].
  destruct (Role_eqb (role user) RolePatient &&
            negb (String.eqb (req_patient req) (user_id user)))%bool;
    [discriminate |].
  cbn zeta.
  destruct (threw _ || threw _ || threw _)%bool; [discriminate |].
  destruct (docOf (findById patient_id (patients db) (req_patient req)));
    [| discriminate].
  destruct (activeStaff _) as [staffDoc |]; [| discriminate].
  destruct (activeService _) as [serviceDoc |]; [| discriminate].
  destruct (specialtyMismatch serviceDoc staffDoc); [discriminate |].
  destruct (availabilityFor staffDoc _) as [window |] eqn:Hw; [| discriminate].
  intros [= <-]. cbn [chk_staff chk_service chk_window]. auto.
Qed.

(** Every early answer of the handler is a rejection. *)
Lemma lookupChecks_Answer now db user req r :
  lookupChecks now db user req = Answer r -> rejection r.
Proof.
  unfold lookupChecks, bind, rejectIf, orReject, rejection, success.
  split_handler; intros [= <-]; cbn; auto.
Qed.

Lemma checksBeforeDuration_Go now db user req chk :
  checksBeforeDuration now db user req = Go chk ->
  lookupChecks now db user req = Go chk /\
  outsideWorkingHours req (chk_window chk) = false /\
  conflictReported
    (checkConflict (appointments db) (req_staff req) (req_appointmentDate req)
       (req_startTime req) (req_endTime req) None) = false.
Proof.
  unfold checksBeforeDuration, workingHoursCheck, conflictCheck, bind, rejectIf.
  destruct (lookupChecks now db user req) as [r | chk']; [discriminate |].
  destruct (outsideWorkingHours req (chk_window chk')) eqn:Hout;
    [discriminate |].
  destruct (conflictReported _) eqn:Hconf; [discriminate |].
  intros [= <-]. auto.
Qed.

Lemma checksBeforeDuration_Answer now db user req r :
  checksBeforeDuration now db user req = Answer r -> rejection r.
Proof.
  unfold checksBeforeDuration, workingHoursCheck, conflictCheck, bind, rejectIf.
  destruct (lookupChecks now db user req) as [r' | chk] eqn:Hl.
  - intros [= <-]. exact (lookupChecks_Answer _ _ _ _ _ Hl).
  - unfold rejection, success. split_handler; intros [= <-]; cbn; auto.
Qed.

(** On [HH:MM] times the duration the handler computes is the difference of
    the two times in minutes; with a one-digit hour it is [NaN]. *)
Lemma calculateDurationMinutes_minutes startTime endTime :
  isHHMM startTime = true -> isHHMM endTime = true ->
  calculateDurationMinutes startTime endTime =
  Some (timeToMinutes endTime - timeToMinutes startTime).
Proof.
  intros Hs He. unfold calculateDurationMinutes, localMillis. rewrite Hs, He.
  f_equal.
  replace (timeToMinutes endTime * 60 * 1000 - timeToMinutes startTime * 60 * 1000)
    with ((timeToMinutes endTime - timeToMinutes startTime) * (1000 * 60)) by lia.
  apply Z.div_mul. lia.
Qed.

Lemma calculateDurationMinutes_NaN startTime endTime :
  isHHMM startTime = false \/ isHHMM endTime = false ->
  calculateDurationMinutes startTime endTime = None.
Proof.
  unfold calculateDurationMinutes, localMillis.
  intros [H | H]; rewrite H; [reflexivity |].
  destruct (isHHMM startTime); reflexivity.
Qed.

(** A rejected request leaves the database as it was, and a request answered
    with 201 has passed every check. *)
Lemma postAppointment_cases now newId db user req :
  (rejection (fst (postAppointment now newId db user req)) /\
   snd (postAppointment now newId db user req) = db) \/
  (exists chk coll',
     checksBeforeDuration now db user req = Go chk /\
     durationCheck req (chk_service chk) = Go tt /\
     AppointmentCreate now (appointments db) (newAppointment newId req)
       = Some coll' /\
     postAppointment now newId db user req =
       (Json 201 (AppointmentData (newAppointment newId req)),
        setAppointments db coll')).
Proof.
  unfold postAppointment, bind.
  destruct (checksBeforeDuration now db user req) as [r | chk] eqn:Hc.
  - left. split; [| reflexivity]. exact (checksBeforeDuration_Answer _ _ _ _ _ Hc).
  - destruct (durationCheck req (chk_service chk)) as [r | []] eqn:Hd.
    + left. split; [| reflexivity]. unfold durationCheck in Hd.
      destruct (calculateDurationMinutes _ _) as [duration |];
        [| discriminate Hd].
      apply rejectIf_Answer in Hd. destruct Hd as [_ ->].
      unfold rejection, success. cbn. auto.
    + destruct (AppointmentCreate now (appointments db) (newAppointment newId req))
        as [coll' |] eqn:Hcreate.
      * right. exists chk, coll'. auto.
      * left. split; [| reflexivity]. unfold rejection, success. cbn. auto.
Qed.

Lemma rejection_not_created r : rejection r -> statusCode r <> 201.
Proof.
  intros [_ [H | [H | H]]]; rewrite H; discriminate.
Qed.

(** X23.  The duration check on [HH:MM] times.  For a request whose times
    have the [HH:MM] shape and that has
    passed the checks before the duration check: the duration check lets the
    request through exactly when the requested duration (end minus start, in
    minutes since midnight) differs from the service's nominal duration by at
    most 15; with
    a difference above 15 the handler answers 400 with the duration message
    and the database is unchanged; with a difference of at most 15 the
    handler goes on to create the appointment.  And whatever the other checks
    say, a request whose duration differs by more than 15 from the nominal
    duration of its (active) service is rejected and nothing is created. *)
Theorem duration_tolerance
    (now : Z) (newId : ObjectId) (db : Db) (user : User) (req : BookingRequest)
    (serviceDoc : Service) :
  isHHMM (req_startTime req) = true -> isHHMM (req_endTime req) = true ->
  activeService (findById service_id (services db) (req_service req))
    = Some serviceDoc ->
  let requested :=
    minutesSinceMidnight (req_endTime req)
    - minutesSinceMidnight (req_startTime req) in
  let nominal := durationMinutes serviceDoc in
  (durationCheck req serviceDoc = Go tt <-> Z.abs (requested - nominal) <= 15) /\
  (forall chk, checksBeforeDuration now db user req = Go chk ->
     (Z.abs (requested - nominal) > 15 ->
      postAppointment now newId db user req =
        (Json 400 (Failure (DurationMismatch requested nominal)), db)) /\
     (Z.abs (requested - nominal) <= 15 ->
      postAppointment now newId db user req =
        match AppointmentCreate now (appointments db)
                (newAppointment newId req) with
        | Some coll' =>
            (Json 201 (AppointmentData (newAppointment newId req)),
             setAppointments db coll')
        | None => (Json 400 (Failure ThrownError), db)
        end)) /\
  (Z.abs (requested - nominal) > 15 ->
   rejection (fst (postAppointment now newId db user req)) /\
   snd (postAppointment now newId db user req) = db).
Proof.
  intros Hhs Hhe Hsvc requested nominal.
  assert (Er : timeToMinutes (req_endTime req) - timeToMinutes (req_startTime req)
               = requested).
  { unfold requested.
    rewrite !timeToMinutes_minutesSinceMidnight
      by now apply isHHMM_timeFormat.
    reflexivity. }
  assert (Hcheck : durationCheck req serviceDoc = Go tt <->
                   Z.abs (requested - nominal) <= 15).
  { unfold durationCheck.
    rewrite (calculateDurationMinutes_minutes _ _ Hhs Hhe), rejectIf_Go.
    rewrite Er. fold nominal.
    rewrite Z.gtb_ltb, Z.ltb_ge. reflexivity. }
  assert (Hsame : forall chk, checksBeforeDuration now db user req = Go chk ->
                    chk_service chk = serviceDoc).
  { intros chk Hchk. apply checksBeforeDuration_Go in Hchk.
    destruct Hchk as [Hl _]. apply lookupChecks_Go in Hl.
    destruct Hl as [_ [_ [Hs _]]]. congruence. }
  split; [exact Hcheck | split].
  - intros chk Hchk. pose proof (Hsame chk Hchk) as Hs.
    unfold postAppointment, bind. rewrite Hchk, Hs. split; intro Hdiff.
    + unfold durationCheck, rejectIf.
      rewrite (calculateDurationMinutes_minutes _ _ Hhs Hhe).
      rewrite Er. fold nominal.
      replace (Z.abs (requested - nominal) >? 15) with true
        by (symmetry; apply Z.gtb_gt; lia).
      reflexivity.
    + apply Hcheck in Hdiff. rewrite Hdiff. reflexivity.
  - intro Hdiff.
    destruct (postAppointment_cases now newId db user req)
      as [Hrej | [chk [coll' [Hchk [Hd _]]]]]; [exact Hrej |].
    exfalso. rewrite (Hsame chk Hchk) in Hd. apply Hcheck in Hd. lia.
Qed.

Lemma duration_tolerance_witness :
  let req := mkBookingRequest "a00000000000000000000001"
               "b00000000000000000000001" "c00000000000000000000001"
               scenarioMonday "09:00" "10:00" None true in
  let requested :=
    minutesSinceMidnight "10:00" - minutesSinceMidnight "09:00" in
  let nominal := 30 in
  (durationCheck req scenarioService = Go tt <->
   Z.abs (requested - nominal) <= 15) /\
  (forall chk,
     checksBeforeDuration 0 scenarioDb scenarioUser req = Go chk ->
     (Z.abs (requested - nominal) > 15 ->
      postAppointment 0 "e00000000000000000000001" scenarioDb scenarioUser req =
        (Json 400 (Failure (DurationMismatch requested nominal)), scenarioDb)) /\
     (Z.abs (requested - nominal) <= 15 ->
      postAppointment 0 "e00000000000000000000001" scenarioDb scenarioUser req =
        match AppointmentCreate 0 (appointments scenarioDb)
                (newAppointment "e00000000000000000000001" req) with
        | Some coll' =>
            (Json 201 (AppointmentData
                         (newAppointment "e00000000000000000000001" req)),
             setAppointments scenarioDb coll')
        | None => (Json 400 (Failure ThrownError), scenarioDb)
        end)) /\
  (Z.abs (requested - nominal) > 15 ->
   rejection (fst (postAppointment 0 "e00000000000000000000001" scenarioDb
                     scenarioUser req)) /\
   snd (postAppointment 0 "e00000000000000000000001" scenarioDb scenarioUser req)
     = scenarioDb).
Proof.
  apply (duration_tolerance 0 "e00000000000000000000001" scenarioDb scenarioUser
           (mkBookingRequest "a00000000000000000000001"
              "b00000000000000000000001" "c00000000000000000000001"
              scenarioMonday "09:00" "10:00" None true)
           scenarioService).
  - reflexivity.
  - reflexivity.
  - reflexivity.
Defined.

(** C7, at the failing input.  The staff member is available on Mondays from
    ["8:00"] to ["9:00"] (the availability route accepts and stores this
    window), the service lasts 30 minutes, and the request is for that Monday
    from ["8:00"] to ["8:59"].  Both times match the time pattern, the
    request lies within the window, and its duration of 59 minutes differs
    from the nominal 30 by 29 minutes, more than 15.  The handler parses the
    times as the dates [1970-01-01T8:00:00] and [1970-01-01T8:59:00], which
    are invalid: the duration is [NaN], the test
    [Math.abs(NaN - 30) > 15] is false, and the handler answers 201 and
    creates the appointment. *)
Theorem long_booking_is_created :
  let outcome :=
    postAppointment 0 "e00000000000000000000001" unpaddedDb scenarioUser
      longRequest in
  putAvailability scenarioDb (mkUser "f00000000000000000000000" RoleAdmin)
    "b00000000000000000000001" (Some [mkWindowInput "Monday" "8:00" "9:00"])
    = (Json 200 (StaffData unpaddedStaff),
       setStaffMembers scenarioDb [unpaddedStaff]) /\
  appointmentValidation 0 longRequest = true /\
  timeFormat "8:00" = true /\ timeFormat "8:59" = true /\
  outsideWorkingHours longRequest (mkWindow Monday "8:00" "9:00") = false /\
  timeToMinutes "8:59" - timeToMinutes "8:00" = 59 /\
  durationMinutes scenarioService = 30 /\
  Z.abs (59 - 30) > 15 /\
  calculateDurationMinutes "8:00" "8:59" = None /\
  durationCheck longRequest scenarioService = Go tt /\
  statusCode (fst outcome) = 201 /\
  appointments (snd outcome)
    = [newAppointment "e00000000000000000000001" longRequest].
Proof.
  vm_compute. repeat split.
Qed.

(** X6.  What the working-hours check decides.  When the handler answers 201, the
    staff member is active and has a window for the weekday of the
    appointment, and [availability.startTime <= startTime] and
    [endTime <= availability.endTime] hold in the order of strings, which is
    how the handler compares the times; on [HH:MM] times this is the
    inclusion of the intervals of minutes.  A request that reaches the check
    with [startTime < availability.startTime] or
    [endTime > availability.endTime] (as strings) is answered 400 with the
    working-hours message, and is rejected whatever the other checks say, the
    database being left as it was. *)
Lemma booking_within_working_hours
    (now : Z) (newId : ObjectId) (db : Db) (user : User)
    (req : BookingRequest) :
  let outcome := postAppointment now newId db user req in
  (statusCode (fst outcome) = 201 ->
   exists staffDoc window,
     activeStaff (findById staff_id (staffMembers db) (req_staff req))
       = Some staffDoc /\
     availabilityFor staffDoc (weekdayOf (req_appointmentDate req))
       = Some window /\
     str_le (avail_startTime window) (req_startTime req) = true /\
     str_le (req_endTime req) (avail_endTime window) = true /\
     (isHHMM (avail_startTime window) = true ->
      isHHMM (avail_endTime window) = true ->
      isHHMM (req_startTime req) = true -> isHHMM (req_endTime req) = true ->
      timeToMinutes (avail_startTime window) <= timeToMinutes (req_startTime req) /\
      timeToMinutes (req_endTime req) <= timeToMinutes (avail_endTime window))) /\
  (forall chk, lookupChecks now db user req = Go chk ->
     str_lt (req_startTime req) (avail_startTime (chk_window chk)) = true \/
     str_gt (req_endTime req) (avail_endTime (chk_window chk)) = true ->
     outcome =
       (Json 400 (Failure (OutsideWorkingHours
                             (avail_startTime (chk_window chk))
                             (avail_endTime (chk_window chk)))), db)) /\
  (forall staffDoc window,
     activeStaff (findById staff_id (staffMembers db) (req_staff req))
       = Some staffDoc ->
     availabilityFor staffDoc (weekdayOf (req_appointmentDate req))
       = Some window ->
     str_lt (req_startTime req) (avail_startTime window) = true \/
     str_gt (req_endTime req) (avail_endTime window) = true ->
     rejection (fst outcome) /\ snd outcome = db).
Proof.
  intro outcome. unfold outcome.
  assert (Hpass : forall chk, checksBeforeDuration now db user req = Go chk ->
            activeStaff (findById staff_id (staffMembers db) (req_staff req))
              = Some (chk_staff chk) /\
            availabilityFor (chk_staff chk) (weekdayOf (req_appointmentDate req))
              = Some (chk_window chk) /\
            str_lt (req_startTime req) (avail_startTime (chk_window chk)) = false /\
            str_gt (req_endTime req) (avail_endTime (chk_window chk)) = false).
  { intros chk Hchk. apply checksBeforeDuration_Go in Hchk.
    destruct Hchk as [Hl [Hout _]]. apply lookupChecks_Go in Hl.
    destruct Hl as [_ [Hs [_ Hw]]].
    unfold outsideWorkingHours in Hout. apply orb_false_iff in Hout.
    tauto. }
  split; [| split].
  - intro H201.
    destruct (postAppointment_cases now newId db user req)
      as [[Hrej _] | [chk [coll' [Hchk _]]]].
    + exfalso. exact (rejection_not_created _ Hrej H201).
    + destruct (Hpass chk Hchk) as [Hs [Hw [Hlo Hhi]]].
      exists (chk_staff chk), (chk_window chk).
      assert (Hle1 : str_le (avail_startTime (chk_window chk))
                            (req_startTime req) = true).
      { rewrite str_le_not_gt. unfold str_gt.
        fold (str_lt (req_startTime req) (avail_startTime (chk_window chk))).
        now rewrite Hlo. }
      assert (Hle2 : str_le (req_endTime req)
                            (avail_endTime (chk_window chk)) = true).
      { rewrite str_le_not_gt. now rewrite Hhi. }
      split; [exact Hs | split; [exact Hw |]].
      split; [exact Hle1 | split; [exact Hle2 |]].
      intros Hws Hwe Hrs Hre.
      rewrite (isHHMM_str_le _ _ Hws Hrs) in Hle1.
      rewrite (isHHMM_str_le _ _ Hre Hwe) in Hle2.
      split; now apply Z.leb_le.
  - intros chk Hl Hout. unfold postAppointment, checksBeforeDuration, bind.
    rewrite Hl. unfold workingHoursCheck, rejectIf, outsideWorkingHours.
    replace (str_lt (req_startTime req) (avail_startTime (chk_window chk))
             || str_gt (req_endTime req) (avail_endTime (chk_window chk)))%bool
      with true by (symmetry; apply orb_true_iff; exact Hout).
    reflexivity.
  - intros staffDoc window Hs Hw Hout.
    destruct (postAppointment_cases now newId db user req)
      as [Hrej | [chk [coll' [Hchk _]]]]; [exact Hrej |].
    exfalso. destruct (Hpass chk Hchk) as [Hs' [Hw' [Hlo Hhi]]].
    assert (chk_staff chk = staffDoc) by congruence. subst staffDoc.
    assert (chk_window chk = window) by congruence. subst window.
    destruct Hout; congruence.
Qed.

(** ** The slot query *)

(** The handler function of the slot query, when it is called with a query
    that names staff, service and date and whose service and staff member
    both exist: when the staff member has no availability window for the
    requested day of the week, it answers 200 with [success: true] and the
    empty slot list. *)
Lemma no_window_gives_empty_slots
    (db : Db) (q : SlotQuery) (staffId serviceId : ObjectId)
    (date : DateParam) (serviceDoc : Service) (staffDoc : Staff) :
  truthyId (q_staff q) = Some staffId ->
  truthyId (q_service q) = Some serviceId ->
  q_date q = Some date ->
  findById service_id (services db) serviceId = Found serviceDoc ->
  findById staff_id (staffMembers db) staffId = Found staffDoc ->
  requestedWindow staffDoc date = None ->
  getAvailableSlots db q = Json 200 NoSlots /\
  success (getAvailableSlots db q) = true /\
  availableSlotsOf (getAvailableSlots db q) = Some [].
Proof.
  intros Hstaff Hservice Hdate Hsvc Hst Hwin.
  assert (Hq : getAvailableSlots db q = Json 200 NoSlots).
  { unfold getAvailableSlots. rewrite Hstaff, Hservice, Hdate.
    assert (Es : orElse (q_staff q) EmptyString = staffId).
    { unfold truthyId in Hstaff. destruct (q_staff q) as [x |]; [| discriminate].
      destruct (String.eqb x EmptyString); [discriminate |]. now injection Hstaff. }
    assert (Ev : orElse (q_service q) EmptyString = serviceId).
    { unfold truthyId in Hservice.
      destruct (q_service q) as [x |]; [| discriminate].
      destruct (String.eqb x EmptyString); [discriminate |]. now injection Hservice. }
    rewrite Es, Ev. cbn [rejectIf bind]. rewrite Hsvc.
    cbn [threw docOf rejectIf orReject bind].
    rewrite Hst. cbn [threw docOf rejectIf orReject bind orElse].
    rewrite Hwin. reflexivity. }
  rewrite Hq. repeat split.
Qed.

(** C9, at the failing input.  The staff member of the scenario exists and has
    no availability window on Tuesdays, the service exists, and the slot query
    asks for a Tuesday.  The router registers [router.get('/:id')] before
    [router.get('/available-slots')], and ['/:id'] matches the path
    [available-slots]: the request is handled by the route that reads one
    appointment.  Without an authenticated user it is answered 401 by
    [protect]; with one, the lookup of the appointment ["available-slots"]
    throws and the answer is 500.  The handler of the slot query, which would
    answer 200 with the empty list, is never called. *)
Theorem slot_query_is_answered_by_the_id_route :
  findById staff_id (staffMembers scenarioDb) "b00000000000000000000001"
    = Found scenarioStaff /\
  findById service_id (services scenarioDb) "c00000000000000000000001"
    = Found scenarioService /\
  requestedWindow scenarioStaff (DateAt scenarioTuesday) = None /\
  pathMatches PathParam "available-slots" = true /\
  routeFor "available-slots" = Some HandleById /\
  appointmentsGet scenarioDb None "available-slots" tuesdayQuery
    = Some NotAuthenticated /\
  (forall user,
     appointmentsGet scenarioDb (Some user) "available-slots" tuesdayQuery
       = Some (AppointmentReply (Refused 500 ErrorThrown))) /\
  (forall auth answer,
     appointmentsGet scenarioDb auth "available-slots" tuesdayQuery
       = Some answer ->
     answerCode answer = 401 \/ answerCode answer = 500) /\
  getAvailableSlots scenarioDb tuesdayQuery = Json 200 NoSlots.
Proof.
  split; [reflexivity |]. split; [reflexivity |]. split; [reflexivity |].
  split; [reflexivity |]. split; [reflexivity |]. split; [reflexivity |].
  split; [intro user; reflexivity |].
  split; [| reflexivity].
  intros [user |] answer [= <-]; cbn; auto.
Qed.

(** ** The availability route *)

Lemma checkWindow_Go slot w :
  checkWindow slot = Go w ->
  windowChecked w /\
  avail_startTime w = in_startTime slot /\ avail_endTime w = in_endTime slot.
Proof.
  unfold checkWindow, bind, rejectIf, orReject, windowChecked.
  destruct (parseWeekday (in_dayOfWeek slot)) as [day |]; [| discriminate].
  destruct (timeFormat (in_startTime slot)) eqn:Hs; cbn [negb orb];
    [| discriminate].
  destruct (timeFormat (in_endTime slot)) eqn:He; cbn [negb]; [| discriminate].
  destruct (str_ge (in_startTime slot) (in_endTime slot)) eqn:Hge;
    [discriminate |].
  intros [= <-]. cbn [avail_startTime avail_endTime].
  rewrite str_ge_not_lt, negb_false_iff in Hge. auto.
Qed.

(** What the validation loop does guarantee of the windows it lets through:
    both times match the time pattern and the start is below the end in the
    order of strings. *)
Lemma checkWindows_Go slots :
  forall ws, checkWindows slots = Go ws -> Forall windowChecked ws.
Proof.
  induction slots as [| slot rest IH]; intros ws; cbn [checkWindows].
  - intros [= <-]. constructor.
  - unfold bind at 1. destruct (checkWindow slot) as [r | w] eqn:Hw;
      [discriminate |].
    unfold bind. destruct (checkWindows rest) as [r | ws'] eqn:Hrest;
      [discriminate |].
    intros [= <-]. constructor.
    + exact (proj1 (checkWindow_Go slot w Hw)).
    + now apply IH.
Qed.

(** On [HH:MM] windows the guarantee is the invariant of the data model. *)
Lemma windowChecked_minutes w :
  windowChecked w ->
  isHHMM (avail_startTime w) = true -> isHHMM (avail_endTime w) = true ->
  timeToMinutes (avail_startTime w) < timeToMinutes (avail_endTime w).
Proof.
  intros [_ [_ Hlt]] Hs He. rewrite (isHHMM_str_lt _ _ Hs He) in Hlt.
  now apply Z.ltb_lt.
Qed.

(** C8, at the failing input.  An administrator sets the availability of
    the staff member of the scenario to one Monday window with start 10:00
    and end 9:00.  Both strings match the time pattern and the start is not
    before the end, yet the route answers 200 and stores the window; the
    handler of the slot query, called for a Monday, and the slot query of the
    staff routes then run slot generation on it (and find no slot). *)
Theorem inverted_window_is_stored :
  let input := mkWindowInput "Monday" "10:00" "9:00" in
  let window := mkWindow Monday "10:00" "9:00" in
  let outcome :=
    putAvailability scenarioDb (mkUser "f00000000000000000000000" RoleAdmin) "b00000000000000000000001" (Some [input]) in
  timeFormat "10:00" = true /\ timeFormat "9:00" = true /\
  timeToMinutes "10:00" = 600 /\ timeToMinutes "9:00" = 540 /\
  str_ge "10:00" "9:00" = false /\
  statusCode (fst outcome) = 200 /\
  map availability (staffMembers (snd outcome)) = [[window]] /\
  getAvailableSlots (snd outcome)
    (mkSlotQuery (Some "b00000000000000000000001") (Some "c00000000000000000000001") (Some (DateAt scenarioMonday)))
  = Json 200
      (Slots window 0 (calculateAvailableSlots "10:00" "9:00" 30 [])) /\
  calculateAvailableSlots "10:00" "9:00" 30 [] = [] /\
  staffAvailableSlots 0 (snd outcome) "b00000000000000000000001"
    (Some (DateAt scenarioMonday)) (Some 30)
  = Json 200 (Slots window 0 []).
Proof.
  vm_compute. repeat split.
Qed.

(** ** Unpadded hours *)

(** C1, at the failing input.  The stored booking of the staff member of the
    scenario on the Monday runs from ["9:00"] to ["9:30"]; the request is for the same staff
    member and date from ["09:00"] to ["09:30"].  Both are the interval from
    minute 540 to minute 570, so they overlap under the half-open rule, yet
    the conflict check reports nothing, because ["9:00" < "09:30"] is false
    for strings.  The booking route then creates the second appointment: the
    slot is booked twice. *)
Theorem unpadded_booking_conflict_missed :
  let outcome := postAppointment 0 "e00000000000000000000002" bookedDb scenarioUser scenarioRequest in
  applyWrite [scenarioBooking] (WReschedule "d00000000000000000000001" scenarioMonday "9:00" "9:30")
    = Some [rescheduledBooking] /\
  schemaValid 0 rescheduledBooking = true /\
  statusNotIn rescheduledBooking = true /\
  appt_staff rescheduledBooking = req_staff scenarioRequest /\
  appointmentDate rescheduledBooking = req_appointmentDate scenarioRequest /\
  apptStartMinutes rescheduledBooking = 540 /\
  apptEndMinutes rescheduledBooking = 570 /\
  timeToMinutes (req_startTime scenarioRequest) = 540 /\
  timeToMinutes (req_endTime scenarioRequest) = 570 /\
  overlaps 540 570 540 570 /\
  checkConflict (appointments bookedDb) "b00000000000000000000001" scenarioMonday "09:00" "09:30" None
    = None /\
  statusCode (fst outcome) = 201 /\
  appointments (snd outcome) =
    [rescheduledBooking; newAppointment "e00000000000000000000002" scenarioRequest].
Proof.
  vm_compute. repeat split.
Qed.

(** C10, at the failing input.  The staff member of the scenario is available
    on Mondays from
    ["08:00"] to ["9:00"] (the availability route accepts and stores this
    window); the request is for the Monday from ["08:30"] to ["09:30"], a
    service of 60 minutes.  The request ends at minute 570, after the end of
    the window at minute 540, yet the handler answers 201 and creates the
    appointment, because ["09:30" > "9:00"] is false for strings. *)
Theorem booking_outside_window_created :
  let outcome := postAppointment 0 "e00000000000000000000001" earlyDb scenarioUser lateRequest in
  putAvailability scenarioDb (mkUser "f00000000000000000000000" RoleAdmin) "b00000000000000000000001"
    (Some [mkWindowInput "Monday" "08:00" "9:00"])
    = (Json 200 (StaffData earlyStaff),
       setStaffMembers scenarioDb [earlyStaff]) /\
  availabilityFor earlyStaff (weekdayOf (req_appointmentDate lateRequest))
    = Some (mkWindow Monday "08:00" "9:00") /\
  timeToMinutes "9:00" = 540 /\
  timeToMinutes (req_endTime lateRequest) = 570 /\
  str_gt (req_endTime lateRequest) "9:00" = false /\
  statusCode (fst outcome) = 201 /\
  appointments (snd outcome) = [newAppointment "e00000000000000000000001" lateRequest].
Proof.
  vm_compute. repeat split.
Qed.

(* ================================================================== *)
(** * Part III: further properties of the code *)
(* ================================================================== *)

(** ** Times *)

(** X1.  Formatting a minute of the day with [minutesToTime] gives a
    five-character [HH:MM] string that [timeToMinutes] reads back as the
    same minute. *)
Theorem minutes_round_trip (m : Z) :
  0 <= m < 1440 ->
  timeToMinutes (minutesToTime m) = m /\
  isHHMM (minutesToTime m) = true /\
  String.length (minutesToTime m) = 5%nat.
Proof.
  intro H. split; [now apply timeToMinutes_minutesToTime |].
  pose proof (minutesToTime_isHHMM m H) as Hh. split; [exact Hh |].
  unfold isHHMM in Hh. apply andb_true_iff in Hh. destruct Hh as [_ Hl].
  now apply Nat.eqb_eq.
Qed.

Lemma minutes_round_trip_witness :
  timeToMinutes (minutesToTime 570) = 570 /\
  isHHMM (minutesToTime 570) = true /\
  String.length (minutesToTime 570) = 5%nat.
Proof.
  apply (minutes_round_trip 570). lia.
Defined.

(** X2.  A string of the time pattern denotes a minute of the day, and
    formatting that minute gives its zero-padded form: an [HH:MM] string with
    the same minute, equal to the string itself when the string already has
    the [HH:MM] shape. *)
Theorem time_normal_form (v : string) :
  timeFormat v = true ->
  0 <= timeToMinutes v < 1440 /\
  isHHMM (minutesToTime (timeToMinutes v)) = true /\
  timeToMinutes (minutesToTime (timeToMinutes v)) = timeToMinutes v /\
  (isHHMM v = true -> minutesToTime (timeToMinutes v) = v).
Proof.
  intro Hv. pose proof (timeToMinutes_range v Hv) as R.
  split; [exact R | split; [| split]].
  - now apply minutesToTime_isHHMM.
  - now apply timeToMinutes_minutesToTime.
  - apply minutesToTime_timeToMinutes.
Qed.

Lemma time_normal_form_witness :
  0 <= timeToMinutes "9:05" < 1440 /\
  isHHMM (minutesToTime (timeToMinutes "9:05")) = true /\
  timeToMinutes (minutesToTime (timeToMinutes "9:05")) = timeToMinutes "9:05" /\
  (isHHMM "9:05" = true -> minutesToTime (timeToMinutes "9:05") = "9:05").
Proof.
  apply (time_normal_form "9:05"). reflexivity.
Defined.

(** X3.  On two [HH:MM] strings the four string comparisons the handlers
    use ([<], [<=], [>], [>=]) agree with the comparison of the times in
    minutes. *)
Theorem hhmm_comparisons_are_chronological (a b : string) :
  isHHMM a = true -> isHHMM b = true ->
  str_lt a b = (timeToMinutes a <? timeToMinutes b) /\
  str_le a b = (timeToMinutes a <=? timeToMinutes b) /\
  str_gt a b = (timeToMinutes a >? timeToMinutes b) /\
  str_ge a b = (timeToMinutes a >=? timeToMinutes b).
Proof.
  intros Ha Hb. split; [now apply isHHMM_str_lt |].
  split; [now apply isHHMM_str_le |].
  split; [now apply isHHMM_str_gt |].
  rewrite str_ge_not_lt, (isHHMM_str_lt a b Ha Hb).
  rewrite Z.geb_leb, Z.leb_antisym. reflexivity.
Qed.

Lemma hhmm_comparisons_are_chronological_witness :
  str_lt "09:30" "10:00" = (timeToMinutes "09:30" <? timeToMinutes "10:00") /\
  str_le "09:30" "10:00" = (timeToMinutes "09:30" <=? timeToMinutes "10:00") /\
  str_gt "09:30" "10:00" = (timeToMinutes "09:30" >? timeToMinutes "10:00") /\
  str_ge "09:30" "10:00" = (timeToMinutes "09:30" >=? timeToMinutes "10:00").
Proof.
  apply (hhmm_comparisons_are_chronological "09:30" "10:00"); reflexivity.
Defined.

(** ** The conflict check and the index *)

(** X5.  A document whose start is below its end (as strings) and for which
    the conflict check reports nothing, with no exclusion or with its own id
    excluded, does not duplicate the key of the unique index: after the
    conflict check an insertion can only be refused for its [_id], and an
    update is not refused. *)
Theorem no_conflict_no_duplicate
    (coll : list Appointment) (d : Appointment) (excludeId : option ObjectId) :
  str_lt (appt_startTime d) (appt_endTime d) = true ->
  excludeId = None \/ excludeId = Some (appt_id d) ->
  conflictReported
    (checkConflict coll (appt_staff d) (appointmentDate d)
       (appt_startTime d) (appt_endTime d) excludeId) = false ->
  duplicateKey coll d = false /\
  replaceDoc coll d <> None /\
  (insertDoc coll d = None -> exists a, In a coll /\ appt_id a = appt_id d).
Proof.
  intros Hlt Hex Hno.
  assert (Hdup : duplicateKey coll d = false).
  { apply not_true_is_false. intro Hdup. apply duplicateKey_spec in Hdup.
    destruct Hdup as [_ [a [Hin [Ha [Hk Hne]]]]].
    unfold sameIndexKey in Hk. rewrite !andb_true_iff in Hk.
    destruct Hk as [[[Ks Kd] Kst] Ken].
    apply String.eqb_eq in Ks, Kst, Ken. apply Z.eqb_eq in Kd.
    assert (Hrep : conflictReported
                     (checkConflict coll (appt_staff d) (appointmentDate d)
                        (appt_startTime d) (appt_endTime d) excludeId) = true).
    { apply conflictReported_iff. exists a. split; [exact Hin |].
      apply conflictQuery_spec. unfold inPartialIndex in Ha.
      apply statusNotIn_spec in Ha. destruct Ha as [Hc Hn].
      repeat split; try assumption.
      - intros x Hx. destruct Hex as [-> | ->]; [discriminate Hx |].
        unfold truthyId in Hx. destruct (String.eqb (appt_id d) EmptyString);
          [discriminate Hx |]. injection Hx as <-. exact Hne.
      - now rewrite Kst.
      - unfold str_gt. rewrite Ken. exact Hlt. }
    congruence. }
  split; [exact Hdup | split].
  - unfold replaceDoc. rewrite Hdup. discriminate.
  - unfold insertDoc. rewrite Hdup.
    destruct (existsb _ coll) eqn:Hid; [| discriminate].
    intros _. apply existsb_exists in Hid. destruct Hid as [a [Hin Ha]].
    exists a. split; [exact Hin |]. now apply String.eqb_eq.
Qed.

Lemma no_conflict_no_duplicate_witness :
  let d := mkAppointment "e00000000000000000000001" "a00000000000000000000001"
             "b00000000000000000000001" "c00000000000000000000001" 0
             "10:45" "11:15" Scheduled in
  duplicateKey [scenarioBooking] d = false /\
  replaceDoc [scenarioBooking] d <> None /\
  (insertDoc [scenarioBooking] d = None ->
   exists a, In a [scenarioBooking] /\ appt_id a = appt_id d).
Proof.
  apply (no_conflict_no_duplicate [scenarioBooking]
           (mkAppointment "e00000000000000000000001" "a00000000000000000000001"
              "b00000000000000000000001" "c00000000000000000000001" 0
              "10:45" "11:15" Scheduled) None).
  - reflexivity.
  - left. reflexivity.
  - reflexivity.
Defined.

(** ** Booking creation, further *)

Lemma AppointmentCreate_Some now coll d coll' :
  AppointmentCreate now coll d = Some coll' ->
  schemaValid now d = true /\ coll' = coll ++ [d] /\
  forall a, In a coll -> appt_id a <> appt_id d.
Proof.
  unfold AppointmentCreate, insertDoc.
  destruct (schemaValid now d); [| discriminate].
  destruct (existsb _ coll) eqn:Hid; [discriminate |].
  destruct (duplicateKey coll d); [discriminate |].
  intros [= <-]. repeat split.
  intros a Hin Heq.
  assert (existsb (fun a => String.eqb (appt_id a) (appt_id d)) coll = true).
  { apply existsb_exists. exists a. split; [exact Hin |]. now apply String.eqb_eq. }
  congruence.
Qed.

Lemma activeStaff_Some l s :
  activeStaff l = Some s -> l = Found s /\ staff_isActive s = true.
Proof.
  unfold activeStaff. destruct l as [s' | |]; try discriminate.
  destruct (staff_isActive s') eqn:Ha; [| discriminate].
  intros [= <-]. auto.
Qed.

Lemma activeService_Some l v :
  activeService l = Some v -> l = Found v /\ service_isActive v = true.
Proof.
  unfold activeService. destruct l as [v' | |]; try discriminate.
  destruct (service_isActive v') eqn:Ha; [| discriminate].
  intros [= <-]. auto.
Qed.

Lemma lookupChecks_specialty now db user req chk :
  lookupChecks now db user req = Go chk ->
  specialtyMismatch (chk_service chk) (chk_staff chk) = false.
Proof.
  unfold lookupChecks, bind, rejectIf, orReject.
  destruct (appointmentValidation now req); cbn [negb]; [| discriminate].
  destruct (Role_eqb (role user) RolePatient &&
            negb (String.eqb (req_patient req) (user_id user)))%bool;
    [discriminate |].
  cbn zeta.
  destruct (threw _ || threw _ || threw _)%bool; [discriminate |].
  destruct (docOf (findById patient_id (patients db) (req_patient req)));
    [| discriminate].
  destruct (activeStaff _) as [staffDoc |]; [| discriminate].
  destruct (activeService _) as [serviceDoc |]; [| discriminate].
  destruct (specialtyMismatch serviceDoc staffDoc) eqn:Hm; [discriminate |].
  destruct (availabilityFor staffDoc _) as [window |]; [| discriminate].
  intros [= <-]. exact Hm.
Qed.

(** X7.  The booking route changes the database only when it answers 201,
    and then only by appending the requested appointment, under an id no
    stored appointment has, to the appointments; patients, staff and services
    are never touched, and every other answer is a rejection that leaves the
    database as it was. *)
Theorem booking_changes_only_on_201
    (now : Z) (newId : ObjectId) (db : Db) (user : User)
    (req : BookingRequest) :
  let outcome := postAppointment now newId db user req in
  patients (snd outcome) = patients db /\
  staffMembers (snd outcome) = staffMembers db /\
  services (snd outcome) = services db /\
  (statusCode (fst outcome) <> 201 ->
   rejection (fst outcome) /\ snd outcome = db) /\
  (statusCode (fst outcome) = 201 ->
   body (fst outcome) = AppointmentData (newAppointment newId req) /\
   appointments (snd outcome)
     = appointments db ++ [newAppointment newId req] /\
   forall a, In a (appointments db) -> appt_id a <> newId).
Proof.
  intro outcome. unfold outcome.
  destruct (postAppointment_cases now newId db user req)
    as [[Hrej Hdb] | [chk [coll' [_ [_ [Hcreate Hpost]]]]]].
  - rewrite Hdb.
    split; [reflexivity | split; [reflexivity | split; [reflexivity |]]].
    split.
    + intros _. split; [exact Hrej | reflexivity].
    + intro H201. exfalso. exact (rejection_not_created _ Hrej H201).
  - rewrite Hpost. cbn [fst snd setAppointments patients staffMembers services
                          appointments statusCode body].
    apply AppointmentCreate_Some in Hcreate.
    destruct Hcreate as [_ [-> Hfresh]].
    split; [reflexivity | split; [reflexivity | split; [reflexivity |]]].
    split.
    + intro H. exfalso. now apply H.
    + intros _. split; [reflexivity | split; [reflexivity |]].
      intros a Hin. exact (Hfresh a Hin).
Qed.

(** X8.  A user with the patient role cannot book for another patient: the
    request is never answered 201 and the database is unchanged; when the
    request passes the validators the answer is 403. *)
Theorem patient_books_only_for_self
    (now : Z) (newId : ObjectId) (db : Db) (user : User)
    (req : BookingRequest) :
  role user = RolePatient -> req_patient req <> user_id user ->
  let outcome := postAppointment now newId db user req in
  rejection (fst outcome) /\ snd outcome = db /\
  (appointmentValidation now req = true ->
   fst outcome = Json 403 (Failure OnlyForYourself)).
Proof.
  intros Hrole Hother outcome. unfold outcome.
  assert (Hl : lookupChecks now db user req =
               if appointmentValidation now req
               then Answer (Json 403 (Failure OnlyForYourself))
               else Answer (Json 400 (Failure ValidationFailed))).
  { unfold lookupChecks, bind, rejectIf. rewrite Hrole.
    apply String.eqb_neq in Hother. rewrite Hother.
    destruct (appointmentValidation now req); reflexivity. }
  assert (Hp : postAppointment now newId db user req =
               (if appointmentValidation now req
                then Json 403 (Failure OnlyForYourself)
                else Json 400 (Failure ValidationFailed), db)).
  { unfold postAppointment, checksBeforeDuration, bind. rewrite Hl.
    destruct (appointmentValidation now req); reflexivity. }
  rewrite Hp. cbn [fst snd].
  split; [| split; [reflexivity |]].
  - unfold rejection, success.
    destruct (appointmentValidation now req); cbn; auto.
  - intros ->. reflexivity.
Qed.

Lemma patient_books_only_for_self_witness :
  let outcome :=
    postAppointment 0 "e00000000000000000000001" scenarioDb (mkUser "a00000000000000000000002" RolePatient) scenarioRequest in
  rejection (fst outcome) /\ snd outcome = scenarioDb /\
  (appointmentValidation 0 scenarioRequest = true ->
   fst outcome = Json 403 (Failure OnlyForYourself)).
Proof.
  apply (patient_books_only_for_self 0 "e00000000000000000000001" scenarioDb (mkUser "a00000000000000000000002" RolePatient)
           scenarioRequest).
  - reflexivity.
  - discriminate.
Defined.

(** X9.  What a 201 of the booking route guarantees: the request passed the
    validators, its date is after now, its staff member and service are
    active and the staff member has the specialty the service requires, and
    no stored appointment of that staff member and date whose status is
    neither Cancelled nor No Show has [startTime < request.endTime] and
    [endTime > request.startTime] (as strings); with [HH:MM] times the
    request has a positive duration within 15 minutes of the service's and
    overlaps no such appointment with [HH:MM] times. *)
Theorem created_booking_passed_the_checks
    (now : Z) (newId : ObjectId) (db : Db) (user : User)
    (req : BookingRequest) :
  statusCode (fst (postAppointment now newId db user req)) = 201 ->
  appointmentValidation now req = true /\
  req_appointmentDate req > now /\
  (exists staffDoc serviceDoc,
     findById staff_id (staffMembers db) (req_staff req) = Found staffDoc /\
     staff_isActive staffDoc = true /\
     findById service_id (services db) (req_service req) = Found serviceDoc /\
     service_isActive serviceDoc = true /\
     specialtyMismatch serviceDoc staffDoc = false /\
     (isHHMM (req_startTime req) = true -> isHHMM (req_endTime req) = true ->
      let duration :=
        timeToMinutes (req_endTime req) - timeToMinutes (req_startTime req) in
      0 < duration /\ Z.abs (duration - durationMinutes serviceDoc) <= 15)) /\
  (forall b, In b (appointments db) ->
     appt_staff b = req_staff req ->
     appointmentDate b = req_appointmentDate req ->
     statusNotIn b = true ->
     ~ (str_lt (appt_startTime b) (req_endTime req) = true /\
        str_gt (appt_endTime b) (req_startTime req) = true)) /\
  (forall b, In b (appointments db) ->
     appt_staff b = req_staff req ->
     appointmentDate b = req_appointmentDate req ->
     statusNotIn b = true ->
     isHHMM (appt_startTime b) = true -> isHHMM (appt_endTime b) = true ->
     isHHMM (req_startTime req) = true -> isHHMM (req_endTime req) = true ->
     ~ overlaps (apptStartMinutes b) (apptEndMinutes b)
         (timeToMinutes (req_startTime req)) (timeToMinutes (req_endTime req))).
Proof.
  intro H201.
  destruct (postAppointment_cases now newId db user req)
    as [[Hrej _] | [chk [coll' [Hchk [Hdur [Hcreate _]]]]]].
  { exfalso. exact (rejection_not_created _ Hrej H201). }
  apply checksBeforeDuration_Go in Hchk. destruct Hchk as [Hl [_ Hconf]].
  assert (Hl' := Hl). apply lookupChecks_Go in Hl'.
  destruct Hl' as [Hval [Hstaff [Hservice _]]].
  apply AppointmentCreate_Some in Hcreate. destruct Hcreate as [Hschema _].
  assert (Hno : forall b, In b (appointments db) ->
            appt_staff b = req_staff req ->
            appointmentDate b = req_appointmentDate req ->
            statusNotIn b = true ->
            ~ (str_lt (appt_startTime b) (req_endTime req) = true /\
               str_gt (appt_endTime b) (req_startTime req) = true)).
  { intros b Hin Hs Hd Hst [H1 H2].
    assert (conflictReported
              (checkConflict (appointments db) (req_staff req)
                 (req_appointmentDate req) (req_startTime req)
                 (req_endTime req) None) = true).
    { apply conflictReported_iff. exists b. split; [exact Hin |].
      apply conflictQuery_spec. apply statusNotIn_spec in Hst.
      destruct Hst as [Hc Hn]. repeat split; try assumption.
      intros x Hx. discriminate Hx. }
    congruence. }
  split; [exact Hval | split; [| split; [| split; [exact Hno |]]]].
  - unfold schemaValid in Hschema. cbn in Hschema.
    rewrite !andb_true_iff in Hschema. destruct Hschema as [[Hd _] _].
    now apply Z.gtb_gt.
  - exists (chk_staff chk), (chk_service chk).
    apply activeStaff_Some in Hstaff. destruct Hstaff as [Hsf Hsa].
    apply activeService_Some in Hservice. destruct Hservice as [Hvf Hva].
    split; [exact Hsf | split; [exact Hsa |]].
    split; [exact Hvf | split; [exact Hva |]].
    split; [exact (lookupChecks_specialty _ _ _ _ _ Hl) |].
    intros Hrs Hre. cbn zeta. split.
    + unfold appointmentValidation in Hval. rewrite !andb_true_iff in Hval.
      destruct Hval as [_ Hord]. rewrite negb_true_iff in Hord.
      rewrite (isHHMM_str_le _ _ Hre Hrs) in Hord. apply Z.leb_gt in Hord. lia.
    + unfold durationCheck in Hdur.
      rewrite (calculateDurationMinutes_minutes _ _ Hrs Hre) in Hdur.
      apply rejectIf_Go in Hdur.
      rewrite Z.gtb_ltb, Z.ltb_ge in Hdur. exact Hdur.
  - intros b Hin Hs Hd Hst Hbs Hbe Hrs Hre Hov.
    apply (Hno b Hin Hs Hd Hst).
    apply (timesOverlap_minutes b _ _ Hbs Hbe Hrs Hre) in Hov.
    unfold timesOverlap in Hov. now apply andb_true_iff in Hov.
Qed.

Lemma created_booking_passed_the_checks_witness :
  appointmentValidation 0 scenarioRequest = true /\
  req_appointmentDate scenarioRequest > 0.
Proof.
  pose proof (created_booking_passed_the_checks 0 "e00000000000000000000001" scenarioDb scenarioUser
                scenarioRequest eq_refl) as H.
  split; [exact (proj1 H) | exact (proj1 (proj2 H))].
Defined.

(** ** Slot generation, further *)

Lemma isFree_nil serviceDuration c : isFree serviceDuration [] c = true.
Proof. reflexivity. Qed.

Lemma filter_true {A : Type} (p : A -> bool) l :
  (forall x, p x = true) -> filter p l = l.
Proof.
  intro H. induction l as [| x l IH]; cbn [filter]; [reflexivity |].
  now rewrite H, IH.
Qed.

Lemma filter_length_le {A : Type} (p : A -> bool) l :
  (List.length (filter p l) <= List.length l)%nat.
Proof.
  induction l as [| x l IH]; cbn [filter]; [lia |].
  destruct (p x); cbn [List.length]; lia.
Qed.

(** X10.  How many slots are generated.  With [n] the number of candidate
    starts [start + 30 * k] whose slot ends within the window,
    [n = (end - D - start) / 30 + 1] (0 when that is negative), at most [n]
    slots are returned; exactly [n] when there is no booking; and none when
    the service is longer than the window. *)
Theorem slot_count
    (startTime endTime : string) (serviceDuration : Z)
    (existing : list Appointment) :
  timeFormat startTime = true -> timeFormat endTime = true ->
  let n := Z.to_nat ((timeToMinutes endTime - serviceDuration
                      - timeToMinutes startTime) / 30 + 1) in
  (List.length (calculateAvailableSlots startTime endTime serviceDuration existing)
   <= n)%nat /\
  List.length (calculateAvailableSlots startTime endTime serviceDuration []) = n /\
  (timeToMinutes endTime < timeToMinutes startTime + serviceDuration ->
   calculateAvailableSlots startTime endTime serviceDuration existing = []).
Proof.
  intros _ _ n. rewrite !calculateAvailableSlots_pushed. unfold pushed.
  fold (iterations (timeToMinutes startTime) serviceDuration
          (timeToMinutes endTime)) in n.
  split; [| split].
  - rewrite length_map.
    eapply Nat.le_trans; [apply filter_length_le |].
    rewrite length_map, length_seq. apply Nat.le_refl.
  - rewrite length_map, (filter_true _ _ (isFree_nil serviceDuration)).
    now rewrite length_map, length_seq.
  - intro Hshort. rewrite (iterations_stop _ _ _ Hshort). reflexivity.
Qed.

Lemma slot_count_witness :
  let n := Z.to_nat ((timeToMinutes "17:00" - 30 - timeToMinutes "09:00") / 30 + 1) in
  (List.length (calculateAvailableSlots "09:00" "17:00" 30 [scenarioBooking])
   <= n)%nat /\
  List.length (calculateAvailableSlots "09:00" "17:00" 30 []) = n /\
  (timeToMinutes "17:00" < timeToMinutes "09:00" + 30 ->
   calculateAvailableSlots "09:00" "17:00" 30 [scenarioBooking] = []).
Proof.
  apply (slot_count "09:00" "17:00" 30 [scenarioBooking]); reflexivity.
Defined.

Lemma isFree_incl serviceDuration l1 l2 c :
  incl l1 l2 -> isFree serviceDuration l2 c = true ->
  isFree serviceDuration l1 c = true.
Proof.
  intros Hincl. rewrite !isFree_spec. intros H a Hin. apply H. now apply Hincl.
Qed.

(** X11.  The generated slots depend only on which bookings are in the
    list, not on their order or multiplicity, and more bookings never add a
    slot: if every booking of [l1] is in [l2], every slot generated against
    [l2] is generated against [l1], and when the two lists hold the same
    bookings the two results are equal. *)
Theorem slots_depend_on_the_set_of_bookings
    (startTime endTime : string) (serviceDuration : Z)
    (l1 l2 : list Appointment) :
  incl l1 l2 ->
  (forall slot,
     In slot (calculateAvailableSlots startTime endTime serviceDuration l2) ->
     In slot (calculateAvailableSlots startTime endTime serviceDuration l1)) /\
  (incl l2 l1 ->
   calculateAvailableSlots startTime endTime serviceDuration l1 =
   calculateAvailableSlots startTime endTime serviceDuration l2).
Proof.
  intro H12. rewrite !calculateAvailableSlots_pushed. split.
  - intro slot. rewrite !In_pushed.
    intros [k [Hs [Hle Hfree]]]. exists k.
    split; [exact Hs | split; [exact Hle |]].
    exact (isFree_incl _ _ _ _ H12 Hfree).
  - intro H21. unfold pushed. f_equal. apply filter_ext. intro c.
    destruct (isFree serviceDuration l1 c) eqn:F1;
      destruct (isFree serviceDuration l2 c) eqn:F2; try reflexivity.
    + rewrite (isFree_incl _ _ _ _ H21 F1) in F2. discriminate F2.
    + rewrite (isFree_incl _ _ _ _ H12 F2) in F1. discriminate F1.
Qed.

Lemma slots_depend_on_the_set_of_bookings_witness :
  (forall slot,
     In slot (calculateAvailableSlots "09:00" "17:00" 30
                [scenarioBooking; scenarioBooking]) ->
     In slot (calculateAvailableSlots "09:00" "17:00" 30 [scenarioBooking])) /\
  (incl [scenarioBooking; scenarioBooking] [scenarioBooking] ->
   calculateAvailableSlots "09:00" "17:00" 30 [scenarioBooking] =
   calculateAvailableSlots "09:00" "17:00" 30 [scenarioBooking; scenarioBooking]).
Proof.
  apply (slots_depend_on_the_set_of_bookings "09:00" "17:00" 30
           [scenarioBooking] [scenarioBooking; scenarioBooking]).
  intros a [<- | []]. left. reflexivity.
Defined.

(** ** Sorting by start time *)

Lemma In_insertByStartTime x l a :
  In a (insertByStartTime x l) <-> a = x \/ In a l.
Proof.
  induction l as [| b l IH]; cbn [insertByStartTime].
  - cbn. intuition congruence.
  - destruct (str_le (appt_startTime x) (appt_startTime b)); cbn [In].
    + intuition congruence.
    + rewrite IH. intuition congruence.
Qed.

Lemma In_sortByStartTime l a : In a (sortByStartTime l) <-> In a l.
Proof.
  induction l as [| b l IH]; cbn [sortByStartTime fold_right]; [reflexivity |].
  fold (sortByStartTime l). rewrite In_insertByStartTime, IH. cbn.
  intuition congruence.
Qed.

Lemma length_insertByStartTime x l :
  List.length (insertByStartTime x l) = S (List.length l).
Proof.
  induction l as [| b l IH]; cbn [insertByStartTime]; [reflexivity |].
  destruct (str_le (appt_startTime x) (appt_startTime b)); cbn [List.length];
    [reflexivity | now rewrite IH].
Qed.

Lemma length_sortByStartTime l :
  List.length (sortByStartTime l) = List.length l.
Proof.
  induction l as [| b l IH]; cbn [sortByStartTime fold_right]; [reflexivity |].
  fold (sortByStartTime l). now rewrite length_insertByStartTime, IH.
Qed.

Lemma str_le_total_false a b : str_le a b = false -> str_le b a = true.
Proof.
  intro H. destruct (String.leb_total a b) as [H' | H'];
    unfold str_le in *; [congruence | exact H'].
Qed.

Lemma Sorted_insertByStartTime x l :
  Sorted (fun a b => str_le (appt_startTime a) (appt_startTime b) = true) l ->
  Sorted (fun a b => str_le (appt_startTime a) (appt_startTime b) = true)
         (insertByStartTime x l).
Proof.
  induction 1 as [| b l Hl IH Hb]; cbn [insertByStartTime].
  - repeat constructor.
  - destruct (str_le (appt_startTime x) (appt_startTime b)) eqn:Hxb.
    + constructor; [now constructor |]. now constructor.
    + constructor; [exact IH |].
      destruct l as [| c l]; cbn [insertByStartTime].
      * constructor. now apply str_le_total_false.
      * destruct (str_le (appt_startTime x) (appt_startTime c)).
        -- constructor. now apply str_le_total_false.
        -- inversion Hb; subst. now constructor.
Qed.

Lemma Sorted_sortByStartTime l :
  Sorted (fun a b => str_le (appt_startTime a) (appt_startTime b) = true)
         (sortByStartTime l).
Proof.
  induction l as [| b l IH]; cbn [sortByStartTime fold_right]; [constructor |].
  fold (sortByStartTime l). now apply Sorted_insertByStartTime.
Qed.

(** ** The slot query, further *)

(** The appointments the slot query reads: those of the staff member whose
    date lies in the requested day and whose status is neither Cancelled nor
    No Show. *)
Lemma In_appointmentsOfDay coll staff date a :
  In a (appointmentsOfDay coll staff date) <->
  In a coll /\ appt_staff a = staff /\
  startOfDay date <= appointmentDate a <= endOfDay date /\
  statusNotIn a = true.
Proof.
  unfold appointmentsOfDay. rewrite In_sortByStartTime, filter_In.
  rewrite !andb_true_iff, String.eqb_eq, !Z.leb_le. tauto.
Qed.

Lemma truthyId_orElse o x : truthyId o = Some x -> orElse o EmptyString = x.
Proof.
  unfold truthyId. destruct o as [y |]; [| discriminate].
  destruct (String.eqb y EmptyString); [discriminate |].
  intros [= <-]. reflexivity.
Qed.

(** ** The GET routes of the appointments router *)



(** ** Today's appointments *)

Lemma In_todaysAppointments now coll staffId a :
  In a (todaysAppointments now coll staffId) <->
  In a coll /\
  startOfDay now <= appointmentDate a <= endOfDay now /\
  (forall s, truthyId staffId = Some s -> appt_staff a = s).
Proof.
  unfold todaysAppointments. rewrite In_sortByStartTime, filter_In.
  rewrite !andb_true_iff, !Z.leb_le.
  destruct (truthyId staffId) as [s |].
  - rewrite String.eqb_eq. split.
    + intros [Hin [Hday Hs]]. split; [exact Hin | split; [exact Hday |]].
      intros s' [= <-]. exact Hs.
    + intros [Hin [Hday Hs]]. split; [exact Hin | split; [exact Hday |]].
      now apply Hs.
  - split.
    + intros [Hin [Hday _]]. split; [exact Hin | split; [exact Hday |]].
      intros s Hs. discriminate Hs.
    + intros [Hin [Hday _]]. auto.
Qed.

(** X13.  [findTodaysAppointments(staffId)] throws only when a (non-empty)
    [staffId] is given that is not an ObjectId.  When it returns, it returns
    exactly the stored appointments whose date lies in today's day,
    restricted to the staff member when one is given, whatever their status,
    sorted by start-time string. *)
Theorem todays_appointments
    (now : Z) (coll : list Appointment) (staffId : option string) :
  match findTodaysAppointments now coll staffId with
  | None => exists s, truthyId staffId = Some s /\ isMongoId s = false
  | Some today =>
      (forall s, truthyId staffId = Some s -> isMongoId s = true) /\
      (forall a, In a today <->
         In a coll /\
         startOfDay now <= appointmentDate a <= endOfDay now /\
         (forall s, truthyId staffId = Some s -> appt_staff a = s)) /\
      Sorted (fun a b => str_le (appt_startTime a) (appt_startTime b) = true)
             today /\
      (List.length today <= List.length coll)%nat
  end.
Proof.
  unfold findTodaysAppointments.
  destruct (truthyId staffId) as [s |] eqn:Hs.
  - destruct (isMongoId s) eqn:Hid.
    + split; [| split; [| split]].
      * intros s' [= <-]. exact Hid.
      * intro a. rewrite <- Hs. apply In_todaysAppointments.
      * apply Sorted_sortByStartTime.
      * unfold todaysAppointments. rewrite length_sortByStartTime.
        apply filter_length_le.
    + exists s. auto.
  - split; [| split; [| split]].
    + intros s' H. discriminate H.
    + intro a. rewrite <- Hs. apply In_todaysAppointments.
    + apply Sorted_sortByStartTime.
    + unfold todaysAppointments. rewrite length_sortByStartTime.
      apply filter_length_le.
Qed.

Lemma todays_appointments_witness :
  exists today,
    findTodaysAppointments scenarioMonday (appointments bookedDb)
      (Some "b00000000000000000000001") = Some today /\
    forall a, In a today <->
      In a (appointments bookedDb) /\
      startOfDay scenarioMonday <= appointmentDate a <= endOfDay scenarioMonday /\
      (forall s, truthyId (Some "b00000000000000000000001") = Some s ->
         appt_staff a = s).
Proof.
  pose proof (todays_appointments scenarioMonday (appointments bookedDb)
                (Some "b00000000000000000000001")) as H.
  cbv beta iota delta [findTodaysAppointments truthyId] in H.
  cbn [String.eqb Ascii.eqb Bool.eqb] in H.
  change (isMongoId "b00000000000000000000001") with true in H.
  cbv iota in H.
  eexists. split; [reflexivity |]. exact (proj1 (proj2 H)).
Defined.

(** ** Staff availability, further *)

Lemma checkWindows_length slots :
  forall ws, checkWindows slots = Go ws -> List.length ws = List.length slots.
Proof.
  induction slots as [| slot rest IH]; intros ws; cbn [checkWindows].
  - intros [= <-]. reflexivity.
  - unfold bind at 1. destruct (checkWindow slot) as [r | w]; [discriminate |].
    unfold bind. destruct (checkWindows rest) as [r | ws'] eqn:Hrest;
      [discriminate |].
    intros [= <-]. cbn [List.length]. now rewrite (IH ws').
Qed.

Lemma checkWindow_Answer slot r :
  checkWindow slot = Answer r -> statusCode r = 400.
Proof.
  unfold checkWindow, bind, rejectIf, orReject.
  destruct (parseWeekday (in_dayOfWeek slot)); [| intros [= <-]; reflexivity].
  destruct (negb (timeFormat (in_startTime slot)) ||
            negb (timeFormat (in_endTime slot)))%bool;
    [intros [= <-]; reflexivity |].
  destruct (str_ge (in_startTime slot) (in_endTime slot));
    [intros [= <-]; reflexivity | discriminate].
Qed.

Lemma checkWindows_Answer slots :
  forall r, checkWindows slots = Answer r -> statusCode r = 400.
Proof.
  induction slots as [| slot rest IH]; intros r; cbn [checkWindows];
    [discriminate |].
  unfold bind at 1. destruct (checkWindow slot) as [r' | w] eqn:Hw.
  - intros [= <-]. exact (checkWindow_Answer slot r' Hw).
  - unfold bind. destruct (checkWindows rest) as [r' | ws] eqn:Hrest;
      [| discriminate].
    intros [= <-]. now apply IH.
Qed.

(** X14.  The availability route writes only what it has checked.  It never
    touches patients, services or appointments; unless it answers 200 it
    leaves the database as it was; and when it answers 200 the user is an
    admin or the staff member, the body was an array, every one of its
    elements passed the loop (a weekday name, two strings of the time pattern,
    start below end as strings), the documents with that id carry exactly the
    checked windows, and every other staff document is an old one. *)
Theorem availability_update_is_checked
    (db : Db) (user : User) (id : ObjectId)
    (input : option (list WindowInput)) :
  let outcome := putAvailability db user id input in
  patients (snd outcome) = patients db /\
  services (snd outcome) = services db /\
  appointments (snd outcome) = appointments db /\
  (statusCode (fst outcome) <> 200 -> snd outcome = db) /\
  (statusCode (fst outcome) = 200 ->
   (role user = RoleAdmin \/ user_id user = id) /\
   exists slots ws,
     input = Some slots /\ checkWindows slots = Go ws /\
     Forall windowChecked ws /\ List.length ws = List.length slots /\
     (forall s, In s (staffMembers (snd outcome)) -> staff_id s = id ->
        availability s = ws) /\
     (forall s, In s (staffMembers (snd outcome)) -> staff_id s <> id ->
        In s (staffMembers db))).
Proof.
  intro outcome. unfold outcome, putAvailability, bind, orReject, rejectIf.
  cbn zeta.
  destruct (findById staff_id (staffMembers db) id) as [staff | |] eqn:Hfind;
    cbn [threw docOf].
  2,3:(cbn [fst snd statusCode];
       split; [reflexivity | split; [reflexivity | split; [reflexivity |]]];
       split; [reflexivity | intro H; discriminate H]).
  destruct (negb (Role_eqb (role user) RoleAdmin) &&
            negb (String.eqb (user_id user) id))%bool eqn:Hauth.
  { cbn [fst snd statusCode].
    split; [reflexivity | split; [reflexivity | split; [reflexivity |]]].
    split; [reflexivity | intro H; discriminate H]. }
  destruct input as [slots |].
  2:{ cbn [fst snd statusCode].
      split; [reflexivity | split; [reflexivity | split; [reflexivity |]]].
      split; [reflexivity | intro H; discriminate H]. }
  destruct (checkWindows slots) as [r | ws] eqn:Hws.
  { cbn [fst snd]. pose proof (checkWindows_Answer slots r Hws) as Hr.
    split; [reflexivity | split; [reflexivity | split; [reflexivity |]]].
    split; [reflexivity |]. intro H. rewrite Hr in H. discriminate H. }
  cbn [fst snd statusCode setStaffMembers patients services appointments
       staffMembers].
  split; [reflexivity | split; [reflexivity | split; [reflexivity |]]].
  split; [intro H; exfalso; now apply H |]. intros _. split.
  - apply andb_false_iff in Hauth. destruct Hauth as [Ha | Ha];
      apply negb_false_iff in Ha.
    + left. destruct (role user); try discriminate Ha. reflexivity.
    + right. now apply String.eqb_eq.
  - exists slots, ws. split; [reflexivity | split; [exact Hws |]].
    split; [exact (checkWindows_Go slots ws Hws) |].
    split; [exact (checkWindows_length slots ws Hws) |].
    split.
    + intros s Hin Hid. apply in_map_iff in Hin. destruct Hin as [s0 [Hs0 _]].
      destruct (String.eqb_spec (staff_id s0) id) as [E | N].
      * subst s. reflexivity.
      * subst s. contradiction.
    + intros s Hin Hid. apply in_map_iff in Hin. destruct Hin as [s0 [Hs0 Hin0]].
      destruct (String.eqb_spec (staff_id s0) id) as [E | N].
      * subst s. cbn in Hid. apply findById_Found in Hfind.
        destruct Hfind as [_ [Hf _]]. contradiction.
      * now subst s.
Qed.

Lemma Weekday_eqb_eq a b : Weekday_eqb a b = true <-> a = b.
Proof.
  destruct a, b; cbn; split; intro H; try reflexivity; discriminate H.
Qed.

(** X15.  [isAvailable(day, time)] looks only at the first window the staff
    member has for the day: it is true exactly when that window exists and
    [startTime <= time <= endTime] as strings, both ends included; on [HH:MM]
    strings this is the inclusion of the minute in the window; and it is
    false when the staff member has no window for the day. *)
Theorem isAvailable_spec (s : Staff) (day : Weekday) (time : string) :
  (isAvailable s day time = true <->
   exists w, availabilityFor s day = Some w /\
             str_le (avail_startTime w) time = true /\
             str_le time (avail_endTime w) = true) /\
  (forall w, availabilityFor s day = Some w ->
     In w (availability s) /\ dayOfWeek w = day) /\
  (forall w, availabilityFor s day = Some w ->
     isHHMM (avail_startTime w) = true -> isHHMM (avail_endTime w) = true ->
     isHHMM time = true ->
     isAvailable s day time =
     ((timeToMinutes (avail_startTime w) <=? timeToMinutes time) &&
      (timeToMinutes time <=? timeToMinutes (avail_endTime w)))%bool) /\
  ((forall w, In w (availability s) -> dayOfWeek w <> day) ->
   isAvailable s day time = false).
Proof.
  unfold isAvailable. split; [| split; [| split]].
  - destruct (availabilityFor s day) as [w |].
    + rewrite andb_true_iff. split.
      * intros [H1 H2]. exists w. auto.
      * intros [w' [[= <-] [H1 H2]]]. auto.
    + split; [discriminate | intros [w [Hw _]]; discriminate Hw].
  - intros w Hw. unfold availabilityFor in Hw. apply find_some in Hw.
    destruct Hw as [Hin Hd]. split; [exact Hin | now apply Weekday_eqb_eq].
  - intros w Hw Hs He Ht. rewrite Hw.
    change (str_ge time (avail_startTime w))
      with (str_le (avail_startTime w) time).
    now rewrite (isHHMM_str_le _ _ Hs Ht), (isHHMM_str_le _ _ Ht He).
  - intro Hnone. destruct (availabilityFor s day) as [w |] eqn:Hw;
      [| reflexivity].
    exfalso. unfold availabilityFor in Hw. apply find_some in Hw.
    destruct Hw as [Hin Hd]. apply Weekday_eqb_eq in Hd.
    exact (Hnone w Hin Hd).
Qed.

(** ** The routes on one appointment *)

Lemma replaceDoc_Some coll d coll' :
  replaceDoc coll d = Some coll' ->
  coll' = map (fun a => if String.eqb (appt_id a) (appt_id d) then d else a) coll.
Proof.
  unfold replaceDoc. destruct (duplicateKey coll d); [discriminate |].
  now intros [= <-].
Qed.

Lemma findById_appt coll id a :
  findById appt_id coll id = Found a -> In a coll /\ appt_id a = id.
Proof.
  intro H. apply findById_Found in H. tauto.
Qed.

Lemma save_Some now coll d coll' :
  save now coll d = Some coll' ->
  schemaValid now d = true /\ replaceDoc coll d = Some coll'.
Proof.
  unfold save. destruct (schemaValid now d); [auto | discriminate].
Qed.

(** The outcomes of a route that changes one appointment. *)
Lemma changeRoute_cases failCode change now db user id :
  changeRoute failCode change now db user id
    = (Refused failCode ErrorThrown, db) \/
  changeRoute failCode change now db user id
    = (Refused 404 AppointmentNotFound, db) \/
  (exists a, findById appt_id (appointments db) id = Found a /\
     ((notOwnAppointment user a = true /\
       changeRoute failCode change now db user id
         = (Refused 403 NotAuthorizedForAppointment, db)) \/
      (notOwnAppointment user a = false /\
       exists coll', save now (appointments db) (change a) = Some coll' /\
         changeRoute failCode change now db user id
           = (Done 200 (change a), setAppointments db coll')))).
Proof.
  unfold changeRoute.
  destruct (findById appt_id (appointments db) id) as [a | |].
  2:{ right. left. reflexivity. }
  2:{ left. reflexivity. }
  destruct (notOwnAppointment user a) eqn:Hown.
  { right. right. exists a. split; [reflexivity |]. left.
    split; [exact Hown | reflexivity]. }
  destruct (save now (appointments db) (change a)) as [coll' |] eqn:Hsave.
  - right. right. exists a. split; [reflexivity |]. right.
    split; [exact Hown |]. exists coll'. split; [exact Hsave | reflexivity].
  - left. reflexivity.
Qed.

Lemma notOwnAppointment_patient user a :
  role user = RolePatient -> appt_patient a <> user_id user ->
  notOwnAppointment user a = true.
Proof.
  intros Hrole Hne. unfold notOwnAppointment. rewrite Hrole.
  apply String.eqb_neq in Hne. now rewrite Hne.
Qed.

(** The validators of the update route require the [patient] field, which a
    patient may not send. *)
Lemma validatedBody_unauthorized now b req :
  validatedBody now b = Some req -> hasUnauthorizedFields b = true.
Proof.
  unfold validatedBody, hasUnauthorizedFields, bodyKeys.
  destruct (ub_patient b) as [p |]; [| discriminate]. intros _.
  reflexivity.
Qed.

(** X16.  A user with the patient role cannot act on another patient's
    appointment: cancelling, confirming and rescheduling it are answered 403,
    completing it is answered 403 for the role, updating it is answered 400
    or 403, each time with the database unchanged, and reading it never
    returns the appointment. *)
Theorem patient_cannot_touch_others_appointment
    (now : Z) (db : Db) (user : User) (id : string) (a : Appointment) :
  role user = RolePatient ->
  findById appt_id (appointments db) id = Found a ->
  appt_patient a <> user_id user ->
  deleteAppointment now db user id
    = (Refused 403 NotAuthorizedForAppointment, db) /\
  confirmAppointment now db user id
    = (Refused 403 NotAuthorizedForAppointment, db) /\
  completeAppointment now db user id = (Refused 403 RoleNotAuthorized, db) /\
  (forall b, rescheduleAppointment now db user id b
             = (Refused 403 NotAuthorizedForAppointment, db)) /\
  (forall b,
     (replyCode (fst (updateAppointment now db user id b)) = 400 \/
      replyCode (fst (updateAppointment now db user id b)) = 403) /\
     snd (updateAppointment now db user id b) = db) /\
  (forall code data, getAppointment db user id <> Done code data).
Proof.
  intros Hrole Hfind Hother.
  pose proof (notOwnAppointment_patient user a Hrole Hother) as Hnot.
  split; [| split; [| split; [| split; [| split]]]].
  - unfold deleteAppointment, changeRoute. now rewrite Hfind, Hnot.
  - unfold confirmAppointment, changeRoute. now rewrite Hfind, Hnot.
  - unfold completeAppointment, authorize. now rewrite Hrole.
  - intro b. unfold rescheduleAppointment. now rewrite Hfind, Hnot.
  - intro b. unfold updateAppointment.
    destruct (validatedBody now b); [| cbn; auto].
    rewrite Hfind, Hnot. cbn. auto.
  - intros code data. unfold getAppointment. rewrite Hfind, Hrole.
    cbn [Role_eqb].
    destruct (findById patient_id (patients db) (appt_patient a));
      try discriminate.
    apply String.eqb_neq in Hother. rewrite Hother. discriminate.
Qed.

Lemma patient_cannot_touch_others_appointment_witness :
  deleteAppointment 0 bookedDb (mkUser "a00000000000000000000002" RolePatient)
    "d00000000000000000000001"
    = (Refused 403 NotAuthorizedForAppointment, bookedDb) /\
  confirmAppointment 0 bookedDb (mkUser "a00000000000000000000002" RolePatient)
    "d00000000000000000000001"
    = (Refused 403 NotAuthorizedForAppointment, bookedDb) /\
  completeAppointment 0 bookedDb (mkUser "a00000000000000000000002" RolePatient)
    "d00000000000000000000001"
    = (Refused 403 RoleNotAuthorized, bookedDb) /\
  (forall b, rescheduleAppointment 0 bookedDb (mkUser "a00000000000000000000002" RolePatient) "d00000000000000000000001" b
             = (Refused 403 NotAuthorizedForAppointment, bookedDb)) /\
  (forall b,
     (replyCode (fst (updateAppointment 0 bookedDb (mkUser "a00000000000000000000002" RolePatient)
                        "d00000000000000000000001" b)) = 400 \/
      replyCode (fst (updateAppointment 0 bookedDb (mkUser "a00000000000000000000002" RolePatient)
                        "d00000000000000000000001" b)) = 403) /\
     snd (updateAppointment 0 bookedDb (mkUser "a00000000000000000000002" RolePatient) "d00000000000000000000001" b)
       = bookedDb) /\
  (forall code data,
     getAppointment bookedDb (mkUser "a00000000000000000000002" RolePatient) "d00000000000000000000001" <> Done code data).
Proof.
  apply (patient_cannot_touch_others_appointment 0 bookedDb
           (mkUser "a00000000000000000000002" RolePatient) "d00000000000000000000001" rescheduledBooking).
  - reflexivity.
  - reflexivity.
  - discriminate.
Defined.

Lemma updateAppointment_patient now db user id b :
  role user = RolePatient ->
  (replyCode (fst (updateAppointment now db user id b)) = 400 \/
   replyCode (fst (updateAppointment now db user id b)) = 403 \/
   replyCode (fst (updateAppointment now db user id b)) = 404) /\
  snd (updateAppointment now db user id b) = db.
Proof.
  intro Hrole. unfold updateAppointment.
  destruct (validatedBody now b) as [req |] eqn:Hv; [| cbn; auto].
  destruct (findById appt_id (appointments db) id) as [a | |];
    [| cbn; auto | cbn; auto].
  destruct (notOwnAppointment user a); [cbn; auto |].
  rewrite Hrole, (validatedBody_unauthorized now b req Hv). cbn. auto.
Qed.

(** X17.  The update route never succeeds for a user with the patient role,
    not even on the patient's own appointment: its validators require the
    fields [patient], [staff], [service], [appointmentDate], [startTime] and
    [endTime], and a patient may only send [patientNotes], [symptoms] and
    [reasonForVisit]; the answer is 400, 403 or 404 and the database is
    unchanged. *)
Theorem patient_update_never_succeeds
    (now : Z) (db : Db) (user : User) (id : string) (b : UpdateBody) :
  role user = RolePatient ->
  (replyCode (fst (updateAppointment now db user id b)) = 400 \/
   replyCode (fst (updateAppointment now db user id b)) = 403 \/
   replyCode (fst (updateAppointment now db user id b)) = 404) /\
  snd (updateAppointment now db user id b) = db.
Proof.
  intro Hrole. unfold updateAppointment.
  destruct (validatedBody now b) as [req |] eqn:Hv.
  2:{ cbn [fst snd replyCode]. auto. }
  destruct (findById appt_id (appointments db) id) as [a | |].
  2,3:(cbn [fst snd replyCode]; auto).
  destruct (notOwnAppointment user a).
  { cbn [fst snd replyCode]. auto. }
  rewrite Hrole, (validatedBody_unauthorized now b req Hv).
  cbn [Role_eqb andb fst snd replyCode]. auto.
Qed.

Lemma patient_update_never_succeeds_witness :
  let b := mkUpdateBody (Some "a00000000000000000000001") (Some "b00000000000000000000001") (Some "c00000000000000000000001") (Some scenarioMonday)
             (Some "10:00") (Some "10:30") None [] true in
  (replyCode (fst (updateAppointment 0 bookedDb scenarioUser "d00000000000000000000001" b)) = 400 \/
   replyCode (fst (updateAppointment 0 bookedDb scenarioUser "d00000000000000000000001" b)) = 403 \/
   replyCode (fst (updateAppointment 0 bookedDb scenarioUser "d00000000000000000000001" b)) = 404) /\
  snd (updateAppointment 0 bookedDb scenarioUser "d00000000000000000000001" b) = bookedDb.
Proof.
  apply (patient_update_never_succeeds 0 bookedDb scenarioUser "d00000000000000000000001"
           (mkUpdateBody (Some "a00000000000000000000001") (Some "b00000000000000000000001") (Some "c00000000000000000000001") (Some scenarioMonday)
              (Some "10:00") (Some "10:30") None [] true)).
  reflexivity.
Defined.

Lemma cancel_not_indexed a : inPartialIndex (cancel a) = false.
Proof. reflexivity. Qed.

Lemma replaceDoc_cancel coll a :
  replaceDoc coll (cancel a) =
  Some (map (fun x => if String.eqb (appt_id x) (appt_id a) then cancel a else x)
            coll).
Proof.
  unfold replaceDoc, duplicateKey. rewrite cancel_not_indexed. reflexivity.
Qed.

(** X18.  Cancelling frees the slot.  The cancel route answers 500, 404, 403
    or 200, and 500 when the route id cannot be cast to an ObjectId; the
    unique index never refuses the save of a cancelled document, which is
    outside it.  The route changes nothing unless it answers 200.  After a
    200 the documents with the id are Cancelled, every other document is as
    before, the collection has the same length, and no later conflict check,
    for any request, returns the cancelled appointment. *)
Theorem cancel_frees_the_slot
    (now : Z) (db : Db) (user : User) (id : string) :
  let outcome := deleteAppointment now db user id in
  (replyCode (fst outcome) = 500 \/ replyCode (fst outcome) = 404 \/
   replyCode (fst outcome) = 403 \/ replyCode (fst outcome) = 200) /\
  (isMongoId id = false -> String.length id <> 12%nat ->
   outcome = (Refused 500 ErrorThrown, db)) /\
  (forall a, replaceDoc (appointments db) (cancel a) <> None) /\
  (replyCode (fst outcome) <> 200 -> snd outcome = db) /\
  (replyCode (fst outcome) = 200 ->
   (exists a, findById appt_id (appointments db) id = Found a /\
              fst outcome = Done 200 (cancel a)) /\
   List.length (appointments (snd outcome)) = List.length (appointments db) /\
   (forall b, In b (appointments (snd outcome)) -> appt_id b = id ->
      appt_status b = Cancelled) /\
   (forall b, In b (appointments (snd outcome)) -> appt_id b <> id ->
      In b (appointments db)) /\
   (forall staffId date startTime endTime excludeId b,
      checkConflict (appointments (snd outcome)) staffId date startTime endTime
                    excludeId = Some b ->
      appt_id b <> id /\ In b (appointments db))).
Proof.
  intro outcome.
  assert (Hindex : forall a, replaceDoc (appointments db) (cancel a) <> None).
  { intro a. rewrite replaceDoc_cancel. discriminate. }
  unfold outcome, deleteAppointment, changeRoute, save.
  destruct (findById appt_id (appointments db) id) as [a | |] eqn:Hfind.
  2:{ cbn [fst snd replyCode].
      split; [auto |]. split.
      { intros Hid _.
        apply (findById_CastError appt_id (appointments db)) in Hid.
        congruence. }
      split; [exact Hindex |].
      split; [reflexivity | intro H; discriminate H]. }
  2:{ cbn [fst snd replyCode].
      split; [auto |]. split; [reflexivity |].
      split; [exact Hindex |].
      split; [reflexivity | intro H; discriminate H]. }
  assert (Hcast : isMongoId id = false -> String.length id <> 12%nat ->
                  forall x : Reply * Db, x = (Refused 500 ErrorThrown, db)).
  { intros Hid _. apply (findById_CastError appt_id (appointments db)) in Hid.
    congruence. }
  destruct (notOwnAppointment user a).
  { cbn [fst snd replyCode].
    split; [auto |]. split; [intros Hid Hlen; now apply Hcast |].
    split; [exact Hindex |].
    split; [reflexivity | intro H; discriminate H]. }
  destruct (schemaValid now (cancel a)).
  2:{ cbn [fst snd replyCode].
      split; [auto |]. split; [intros Hid Hlen; now apply Hcast |].
      split; [exact Hindex |].
      split; [reflexivity | intro H; discriminate H]. }
  rewrite replaceDoc_cancel. cbn [fst snd replyCode setAppointments appointments].
  pose proof (findById_appt _ _ _ Hfind) as [Hin Hid].
  assert (Hmem : forall b,
            In b (map (fun x => if String.eqb (appt_id x) (appt_id a)
                                then cancel a else x) (appointments db)) ->
            (appt_id b = id /\ appt_status b = Cancelled) \/
            (appt_id b <> id /\ In b (appointments db))).
  { intros b Hb. apply in_map_iff in Hb. destruct Hb as [x [Hx Hxin]].
    destruct (String.eqb_spec (appt_id x) (appt_id a)) as [E | N].
    - left. subst b. cbn. auto.
    - right. subst b. split; [congruence | exact Hxin]. }
  split; [auto |]. split; [intros Hm Hlen; now apply Hcast |].
  split; [exact Hindex |].
  split; [intro H; exfalso; now apply H |].
  intros _. split; [exists a; auto |].
  split; [apply length_map |].
  split; [| split].
  - intros b Hb Hbid. destruct (Hmem b Hb) as [[_ Hs] | [Hne _]];
      [exact Hs | contradiction].
  - intros b Hb Hbid. destruct (Hmem b Hb) as [[He _] | [_ Hold]];
      [contradiction | exact Hold].
  - intros staffId date startTime endTime excludeId b Hc.
    unfold checkConflict in Hc. apply find_some in Hc.
    destruct Hc as [Hb Hq]. apply conflictQuery_spec in Hq.
    destruct Hq as [_ [_ [Hnc _]]].
    destruct (Hmem b Hb) as [[_ Hs] | Hold]; [contradiction | exact Hold].
Qed.

(** X19.  The reschedule route.  It changes nothing unless it answers 200,
    and never touches patients, staff or services.  When it answers 200 for
    the new date [d] and times [s], [e]: the appointment existed, [d] is
    after now, [s] and [e] match the time pattern with [s < e] as strings,
    the returned and stored document is the old one with the new date and
    times and the status Rescheduled, every other document is unchanged, and
    no other appointment of the same staff member on date [d] whose status is
    neither Cancelled nor No Show has [startTime < e] and [endTime > s]: the
    appointment's own current slot never blocks it. *)
Theorem reschedule_postconditions
    (now : Z) (db : Db) (user : User) (id : string) (b : RescheduleBody) :
  let outcome := rescheduleAppointment now db user id b in
  patients (snd outcome) = patients db /\
  staffMembers (snd outcome) = staffMembers db /\
  services (snd outcome) = services db /\
  (replyCode (fst outcome) <> 200 -> snd outcome = db) /\
  (replyCode (fst outcome) = 200 ->
   exists a d s e,
     findById appt_id (appointments db) id = Found a /\
     newDate b = Some (DateAt d) /\
     truthyId (newStartTime b) = Some s /\ truthyId (newEndTime b) = Some e /\
     fst outcome = Done 200 (reschedule a d s e) /\
     now < d /\ timeFormat s = true /\ timeFormat e = true /\
     str_lt s e = true /\
     appointments (snd outcome) =
       map (fun x => if String.eqb (appt_id x) id then reschedule a d s e else x)
           (appointments db) /\
     (forall c, In c (appointments db) -> appt_id c <> id ->
        appt_staff c = appt_staff a -> appointmentDate c = d ->
        statusNotIn c = true ->
        ~ (str_lt (appt_startTime c) e = true /\
           str_gt (appt_endTime c) s = true))).
Proof.
  intro outcome. unfold outcome, rescheduleAppointment.
  assert (Hrefused : forall code reason,
    patients (snd (Refused code reason, db)) = patients db /\
    staffMembers (snd (Refused code reason, db)) = staffMembers db /\
    services (snd (Refused code reason, db)) = services db /\
    (replyCode (fst (Refused code reason, db)) <> 200 ->
     snd (Refused code reason, db) = db)).
  { intros. cbn. auto. }
  destruct (findById appt_id (appointments db) id) as [a | |] eqn:Hfind.
  2:{ destruct (Hrefused 404 AppointmentNotFound) as [H1 [H2 [H3 H4]]].
      repeat (split; [assumption |]). intro H. discriminate H. }
  2:{ destruct (Hrefused 500 ErrorThrown) as [H1 [H2 [H3 H4]]].
      repeat (split; [assumption |]). intro H. discriminate H. }
  destruct (notOwnAppointment user a).
  { destruct (Hrefused 403 NotAuthorizedForAppointment) as [H1 [H2 [H3 H4]]].
    repeat (split; [assumption |]). intro H. discriminate H. }
  destruct (newDate b) as [date |].
  2:{ destruct (Hrefused 400 RescheduleFieldsRequired) as [H1 [H2 [H3 H4]]].
      repeat (split; [assumption |]). intro H. discriminate H. }
  destruct (truthyId (newStartTime b)) as [s |].
  2:{ destruct (Hrefused 400 RescheduleFieldsRequired) as [H1 [H2 [H3 H4]]].
      repeat (split; [assumption |]). intro H. discriminate H. }
  destruct (truthyId (newEndTime b)) as [e |].
  2:{ destruct (Hrefused 400 RescheduleFieldsRequired) as [H1 [H2 [H3 H4]]].
      repeat (split; [assumption |]). intro H. discriminate H. }
  destruct (match date with DateAt d => d <? now | InvalidDate => false end)
    eqn:Hpast.
  { destruct (Hrefused 400 NewDateInThePast) as [H1 [H2 [H3 H4]]].
    repeat (split; [assumption |]). intro H. discriminate H. }
  destruct (str_ge s e) eqn:Hge.
  { destruct (Hrefused 400 StartMustBeBeforeEnd) as [H1 [H2 [H3 H4]]].
    repeat (split; [assumption |]). intro H. discriminate H. }
  destruct date as [| d].
  { destruct (Hrefused 500 ErrorThrown) as [H1 [H2 [H3 H4]]].
    repeat (split; [assumption |]). intro H. discriminate H. }
  destruct (conflictReported _) eqn:Hconf.
  { destruct (Hrefused 400 NewSlotAlreadyBooked) as [H1 [H2 [H3 H4]]].
    repeat (split; [assumption |]). intro H. discriminate H. }
  cbn zeta.
  destruct (schemaValid now (reschedule a d s e)) eqn:Hschema.
  2:{ destruct (Hrefused 500 ErrorThrown) as [H1 [H2 [H3 H4]]].
      repeat (split; [assumption |]). intro H. discriminate H. }
  destruct (replaceDoc (appointments db) (reschedule a d s e)) as [coll' |]
    eqn:Hsave.
  2:{ destruct (Hrefused 500 ErrorThrown) as [H1 [H2 [H3 H4]]].
      repeat (split; [assumption |]). intro H. discriminate H. }
  cbn [fst snd replyCode setAppointments patients staffMembers services
       appointments].
  split; [reflexivity | split; [reflexivity | split; [reflexivity |]]].
  split; [intro H; exfalso; now apply H |]. intros _.
  exists a, d, s, e.
  apply findById_appt in Hfind. destruct Hfind as [Hin Hid].
  unfold schemaValid in Hschema. cbn in Hschema.
  rewrite !andb_true_iff in Hschema. destruct Hschema as [[Hd Hs] He].
  apply Z.gtb_gt in Hd.
  rewrite str_ge_not_lt, negb_false_iff in Hge.
  apply replaceDoc_Some in Hsave. cbn [reschedule appt_id] in Hsave.
  rewrite Hid in Hsave.
  repeat (split; [first [reflexivity | assumption | lia] |]).
  intros c Hc Hcid Hstaff Hdate Hstatus [H1 H2].
  assert (conflictReported
            (checkConflict (appointments db) (appt_staff a) d s e (Some id))
          = true).
  { apply conflictReported_iff. exists c. split; [exact Hc |].
    apply conflictQuery_spec. apply statusNotIn_spec in Hstatus.
    destruct Hstatus as [Hsc Hsn]. repeat split; try assumption.
    intros x Hx. unfold truthyId in Hx.
    destruct (String.eqb id EmptyString); [discriminate Hx |].
    injection Hx as <-. exact Hcid. }
  congruence.
Qed.

(** X20.  The update route on its success path.  It changes nothing unless
    it answers 200.  When it answers 200 the body passed the validators (all
    six scheduling fields present, the times of the time pattern with end
    above start as strings), the user is not a patient, the new date is after
    now, the stored document carries the body's patient, staff, service,
    date and times (and its status when it sends one), every other document
    is unchanged, and no other appointment of the new staff member and date
    whose status is neither Cancelled nor No Show has [startTime < endTime']
    and [endTime > startTime'] for the new times. *)
Theorem update_postconditions
    (now : Z) (db : Db) (user : User) (id : string) (b : UpdateBody) :
  let outcome := updateAppointment now db user id b in
  (replyCode (fst outcome) <> 200 -> snd outcome = db) /\
  (replyCode (fst outcome) = 200 ->
   role user <> RolePatient /\
   exists a req,
     findById appt_id (appointments db) id = Found a /\
     validatedBody now b = Some req /\
     appointmentValidation now req = true /\
     req_appointmentDate req > now /\
     fst outcome = Done 200 (updatedAppointment a req) /\
     appointments (snd outcome) =
       map (fun x => if String.eqb (appt_id x) id
                     then updatedAppointment a req else x)
           (appointments db) /\
     (forall c, In c (appointments db) -> appt_id c <> id ->
        appt_staff c = req_staff req ->
        appointmentDate c = req_appointmentDate req ->
        statusNotIn c = true ->
        ~ (str_lt (appt_startTime c) (req_endTime req) = true /\
           str_gt (appt_endTime c) (req_startTime req) = true))).
Proof.
  intro outcome. unfold outcome.
  destruct (Role_eqb (role user) RolePatient) eqn:Hrole.
  { assert (Hp : role user = RolePatient)
      by (destruct (role user); try discriminate Hrole; reflexivity).
    destruct (updateAppointment_patient now db user id b Hp)
      as [Hcode Hdb].
    split; [intros _; exact Hdb |].
    intro H. exfalso. destruct Hcode as [H' | [H' | H']];
      rewrite H' in H; discriminate H. }
  unfold updateAppointment.
  destruct (validatedBody now b) as [req |] eqn:Hv.
  2:{ cbn. split; [reflexivity | intro H; discriminate H]. }
  destruct (findById appt_id (appointments db) id) as [a | |] eqn:Hfind.
  2,3:(cbn; split; [reflexivity | intro H; discriminate H]).
  destruct (notOwnAppointment user a).
  { cbn. split; [reflexivity | intro H; discriminate H]. }
  rewrite Hrole. cbn [andb].
  destruct (conflictReported _) eqn:Hconf.
  { cbn. split; [reflexivity | intro H; discriminate H]. }
  cbn zeta.
  destruct (schemaValid now (updatedAppointment a req)) eqn:Hschema.
  2:{ cbn. split; [reflexivity | intro H; discriminate H]. }
  destruct (replaceDoc (appointments db) (updatedAppointment a req))
    as [coll' |] eqn:Hsave.
  2:{ cbn. split; [reflexivity | intro H; discriminate H]. }
  cbn [fst snd replyCode setAppointments appointments].
  split; [intro H; exfalso; now apply H |]. intros _.
  split; [intro Hp; rewrite Hp in Hrole; discriminate Hrole |].
  exists a, req.
  apply findById_appt in Hfind. destruct Hfind as [Hin Hid].
  assert (Hval : appointmentValidation now req = true).
  { unfold validatedBody in Hv.
    destruct (ub_patient b); [| discriminate].
    destruct (ub_staff b); [| discriminate].
    destruct (ub_service b); [| discriminate].
    destruct (ub_appointmentDate b); [| discriminate].
    destruct (ub_startTime b); [| discriminate].
    destruct (ub_endTime b); [| discriminate].
    cbn zeta in Hv.
    destruct (appointmentValidation now _) eqn:Hval; [| discriminate].
    injection Hv as <-. exact Hval. }
  unfold schemaValid in Hschema. cbn [updatedAppointment appointmentDate
    appt_startTime appt_endTime] in Hschema.
  rewrite !andb_true_iff in Hschema. destruct Hschema as [[Hd _] _].
  apply Z.gtb_gt in Hd.
  apply replaceDoc_Some in Hsave. cbn [updatedAppointment appt_id] in Hsave.
  rewrite Hid in Hsave.
  repeat (split; [first [reflexivity | assumption] |]).
  intros c Hc Hcid Hstaff Hdate Hstatus [H1 H2].
  assert (conflictReported
            (checkConflict (appointments db) (req_staff req)
               (req_appointmentDate req) (req_startTime req)
               (req_endTime req) (Some id)) = true).
  { apply conflictReported_iff. exists c. split; [exact Hc |].
    apply conflictQuery_spec. apply statusNotIn_spec in Hstatus.
    destruct Hstatus as [Hsc Hsn]. repeat split; try assumption.
    intros x Hx. unfold truthyId in Hx.
    destruct (String.eqb id EmptyString); [discriminate Hx |].
    injection Hx as <-. exact Hcid. }
  congruence.
Qed.

(** ** The routes and the store invariant *)

Ltac split_route :=
  repeat match goal with
         | |- context [match ?x with _ => _ end] => destruct x eqn:?
         end.

(** X21.  Every route that writes appointments keeps the invariant of the
    collection, as far as the storage layer enforces the declared unique
    index: if identifiers are unique and no two documents that are neither
    Cancelled nor No Show share (staff, appointmentDate, startTime, endTime)
    before a request to the booking, cancel, confirm, complete, reschedule or
    update route, the same holds after it. *)
Theorem routes_keep_the_store_invariant
    (now : Z) (newId : ObjectId) (db : Db) (user : User) (id : string)
    (req : BookingRequest) (rb : RescheduleBody) (ub : UpdateBody) :
  storeInvariant (appointments db) ->
  storeInvariant (appointments (snd (postAppointment now newId db user req))) /\
  storeInvariant (appointments (snd (deleteAppointment now db user id))) /\
  storeInvariant (appointments (snd (confirmAppointment now db user id))) /\
  storeInvariant (appointments (snd (completeAppointment now db user id))) /\
  storeInvariant (appointments (snd (rescheduleAppointment now db user id rb))) /\
  storeInvariant (appointments (snd (updateAppointment now db user id ub))).
Proof.
  intro Hinv.
  assert (Hchange : forall failCode change,
            storeInvariant
              (appointments (snd (changeRoute failCode change now db user id)))).
  { intros failCode change.
    destruct (changeRoute_cases failCode change now db user id)
      as [-> | [-> | [a [_ [[_ ->] | [_ [coll' [Hsave ->]]]]]]]];
      try exact Hinv.
    apply save_Some in Hsave. destruct Hsave as [_ Hsave].
    exact (replaceDoc_invariant _ _ _ Hinv Hsave). }
  split; [| split; [| split; [| split; [| split]]]].
  - destruct (postAppointment_cases now newId db user req)
      as [[_ ->] | [chk [coll' [_ [_ [Hcreate ->]]]]]]; [exact Hinv |].
    cbn [snd setAppointments appointments].
    unfold AppointmentCreate in Hcreate.
    destruct (schemaValid now (newAppointment newId req)); [| discriminate].
    exact (insertDoc_invariant _ _ _ Hinv Hcreate).
  - apply Hchange.
  - apply Hchange.
  - unfold completeAppointment.
    destruct (negb (authorize [RoleStaff; RoleAdmin] user)); [exact Hinv |].
    destruct (findById appt_id (appointments db) id) as [a | |];
      try exact Hinv.
    destruct (save now (appointments db) (complete a)) as [coll' |] eqn:Hsave;
      [| exact Hinv].
    apply save_Some in Hsave. destruct Hsave as [_ Hsave].
    exact (replaceDoc_invariant _ _ _ Hinv Hsave).
  - unfold rescheduleAppointment.
    split_route; cbn [snd setAppointments appointments]; try exact Hinv.
    eapply replaceDoc_invariant; eassumption.
  - unfold updateAppointment.
    split_route; cbn [snd setAppointments appointments]; try exact Hinv.
    eapply replaceDoc_invariant; eassumption.
Qed.

Lemma routes_keep_the_store_invariant_witness :
  storeInvariant
    (appointments (snd (postAppointment 0 "e00000000000000000000002" bookedDb scenarioUser
                          scenarioRequest))) /\
  storeInvariant
    (appointments (snd (deleteAppointment 0 bookedDb scenarioUser
                          "d00000000000000000000001"))) /\
  storeInvariant
    (appointments (snd (confirmAppointment 0 bookedDb scenarioUser
                          "d00000000000000000000001"))) /\
  storeInvariant
    (appointments (snd (completeAppointment 0 bookedDb scenarioUser
                          "d00000000000000000000001"))) /\
  storeInvariant
    (appointments (snd (rescheduleAppointment 0 bookedDb scenarioUser "d00000000000000000000001"
                          (mkRescheduleBody (Some (DateAt scenarioTuesday))
                                            (Some "10:00") (Some "10:30"))))) /\
  storeInvariant
    (appointments (snd (updateAppointment 0 bookedDb scenarioUser "d00000000000000000000001"
                          (mkUpdateBody None None None None None None None
                                        [] true)))).
Proof.
  apply (routes_keep_the_store_invariant 0 "e00000000000000000000002" bookedDb scenarioUser "d00000000000000000000001"
           scenarioRequest
           (mkRescheduleBody (Some (DateAt scenarioTuesday))
                             (Some "10:00") (Some "10:30"))
           (mkUpdateBody None None None None None None None [] true)).
  apply (reachable_invariant (step [] (WCreate rescheduledBooking))).
  apply reach_step. apply reach_empty.
Defined.

(** ** The success paths are taken *)

Lemma checkConflict_reports_overlap_witness :
  conflictReported
    (checkConflict [scenarioBooking] "b00000000000000000000001" 0 "10:30" "11:00" None) = true.
Proof.
  apply (proj1 (checkConflict_reports_overlap [scenarioBooking] "b00000000000000000000001" 0
                  "10:30" "11:00" None)).
  exists scenarioBooking.
  split; [left; reflexivity |].
  split; [reflexivity | split; [reflexivity |]].
  split; [discriminate | split; [discriminate |]].
  split; [intros x Hx; discriminate Hx |].
  split; reflexivity.
Defined.

Lemma booking_within_working_hours_witness :
  exists staffDoc window,
    activeStaff (findById staff_id (staffMembers scenarioDb) "b00000000000000000000001")
      = Some staffDoc /\
    availabilityFor staffDoc (weekdayOf scenarioMonday) = Some window /\
    str_le (avail_startTime window) "09:00" = true /\
    str_le "09:30" (avail_endTime window) = true.
Proof.
  destruct (proj1 (booking_within_working_hours 0 "e00000000000000000000001" scenarioDb scenarioUser
                     scenarioRequest) eq_refl)
    as [staffDoc [window [H1 [H2 [H3 [H4 _]]]]]].
  exists staffDoc, window. auto.
Defined.

Lemma booking_changes_only_on_201_witness :
  appointments (snd (postAppointment 0 "e00000000000000000000001" scenarioDb scenarioUser
                       scenarioRequest))
  = appointments scenarioDb ++ [newAppointment "e00000000000000000000001" scenarioRequest].
Proof.
  destruct (booking_changes_only_on_201 0 "e00000000000000000000001" scenarioDb scenarioUser
              scenarioRequest) as [_ [_ [_ [_ H]]]].
  exact (proj1 (proj2 (H eq_refl))).
Defined.

Lemma availability_update_is_checked_witness :
  exists slots ws,
    Some [mkWindowInput "Monday" "08:00" "12:00"] = Some slots /\
    checkWindows slots = Go ws /\ Forall windowChecked ws.
Proof.
  destruct (availability_update_is_checked scenarioDb (mkUser "b00000000000000000000001" RoleStaff)
              "b00000000000000000000001" (Some [mkWindowInput "Monday" "08:00" "12:00"]))
    as [_ [_ [_ [_ H]]]].
  destruct (H eq_refl) as [_ [slots [ws [H1 [H2 [H3 _]]]]]].
  exists slots, ws. auto.
Defined.

Lemma isAvailable_spec_witness :
  isAvailable scenarioStaff Monday "12:00" =
  ((timeToMinutes "09:00" <=? timeToMinutes "12:00") &&
   (timeToMinutes "12:00" <=? timeToMinutes "17:00"))%bool.
Proof.
  apply (proj1 (proj2 (proj2 (isAvailable_spec scenarioStaff Monday "12:00")))
           (mkWindow Monday "09:00" "17:00")); reflexivity.
Defined.

Lemma cancel_frees_the_slot_witness :
  exists a,
    findById appt_id (appointments bookedDb) "d00000000000000000000001"
      = Found a /\
    fst (deleteAppointment 0 bookedDb scenarioUser "d00000000000000000000001")
      = Done 200 (cancel a).
Proof.
  destruct (cancel_frees_the_slot 0 bookedDb scenarioUser
              "d00000000000000000000001") as [_ [_ [_ [_ H]]]].
  exact (proj1 (H eq_refl)).
Defined.

Lemma reschedule_postconditions_witness :
  exists a d s e,
    fst (rescheduleAppointment 0 bookedDb scenarioUser "d00000000000000000000001"
           (mkRescheduleBody (Some (DateAt scenarioTuesday))
                             (Some "10:00") (Some "10:30")))
    = Done 200 (reschedule a d s e) /\ str_lt s e = true.
Proof.
  destruct (reschedule_postconditions 0 bookedDb scenarioUser "d00000000000000000000001"
              (mkRescheduleBody (Some (DateAt scenarioTuesday))
                                (Some "10:00") (Some "10:30")))
    as [_ [_ [_ [_ H]]]].
  destruct (H eq_refl) as [a [d [s [e [_ [_ [_ [_ [H1 [_ [_ [_ [H2 _]]]]]]]]]]]]].
  exists a, d, s, e. auto.
Defined.

Lemma update_postconditions_witness :
  exists a req,
    fst (updateAppointment 0 bookedDb (mkUser "f00000000000000000000000" RoleAdmin) "d00000000000000000000001"
           (mkUpdateBody (Some "a00000000000000000000001") (Some "b00000000000000000000001") (Some "c00000000000000000000001")
              (Some scenarioTuesday) (Some "10:00") (Some "10:30") None [] true))
    = Done 200 (updatedAppointment a req).
Proof.
  destruct (update_postconditions 0 bookedDb (mkUser "f00000000000000000000000" RoleAdmin) "d00000000000000000000001"
              (mkUpdateBody (Some "a00000000000000000000001") (Some "b00000000000000000000001") (Some "c00000000000000000000001")
                 (Some scenarioTuesday) (Some "10:00") (Some "10:30") None []
                 true)) as [_ H].
  destruct (H eq_refl) as [_ [a [req [_ [_ [_ [_ [H1 _]]]]]]]].
  exists a, req. exact H1.
Defined.

(** ** The staff member's slot query *)

(** X22.  The slot query of a staff member, for an active staff member and a
    date (today when none is given) on whose weekday the staff member has a
    window with times of the time pattern, and a duration [>= 0] (60 when the
    parameter is absent, not a number or 0): the answer is 200 with the
    window, the number of the staff member's appointments of that day that
    are neither Cancelled nor No Show, and slots that each lie within the
    window, last the duration and overlap none of those appointments. *)
Theorem staff_slot_query
    (now : Z) (db : Db) (id : string) (dateParam : option DateParam)
    (parsedDuration : option Z) (staffDoc : Staff) (ms : Z)
    (w : AvailabilityWindow) :
  activeStaff (findById staff_id (staffMembers db) id) = Some staffDoc ->
  match dateParam with Some d => d | None => DateAt now end = DateAt ms ->
  availabilityFor staffDoc (weekdayOf ms) = Some w ->
  timeFormat (avail_startTime w) = true ->
  timeFormat (avail_endTime w) = true ->
  0 <= durationOrDefault parsedDuration ->
  exists slots,
    staffAvailableSlots now db id dateParam parsedDuration
      = Json 200
          (Slots w (List.length (appointmentsOfDay (appointments db) id ms))
                 slots) /\
    forall slot, In slot slots ->
      timeToMinutes (avail_startTime w) <= slotStartMinutes slot /\
      slotEndMinutes slot
        = slotStartMinutes slot + durationOrDefault parsedDuration /\
      slotEndMinutes slot <= timeToMinutes (avail_endTime w) /\
      forall a, In a (appointments db) -> appt_staff a = id ->
        startOfDay ms <= appointmentDate a <= endOfDay ms ->
        statusNotIn a = true ->
        ~ overlaps (slotStartMinutes slot) (slotEndMinutes slot)
            (apptStartMinutes a) (apptEndMinutes a).
Proof.
  intros Hst Hdate Hwin Hws Hwe Hd.
  exists (calculateAvailableSlots (avail_startTime w) (avail_endTime w)
            (durationOrDefault parsedDuration)
            (appointmentsOfDay (appointments db) id ms)).
  split.
  - pose proof (activeStaff_Some _ _ Hst) as [Hfound Hactive].
    unfold staffAvailableSlots. rewrite Hfound.
    cbn [threw activeStaff]. rewrite Hactive, Hdate.
    cbn [requestedWindow]. rewrite Hwin. reflexivity.
  - intros slot Hin.
    destruct (result_minutes _ _ _ _ Hws Hwe Hd slot Hin)
      as [c [Hs [He [Hlo [Hhi Hfree]]]]].
    rewrite Hs, He. split; [exact Hlo | split; [reflexivity | split; [exact Hhi |]]].
    intros a Ha Hsa Hday Hstatus. rewrite isFree_spec in Hfree.
    apply Hfree. apply In_appointmentsOfDay. auto.
Qed.

Lemma staff_slot_query_witness :
  exists slots,
    staffAvailableSlots 0 bookedDb "b00000000000000000000001" (Some (DateAt scenarioMonday)) None
      = Json 200
          (Slots (mkWindow Monday "09:00" "17:00")
             (List.length
                (appointmentsOfDay (appointments bookedDb) "b00000000000000000000001" scenarioMonday))
             slots) /\
    forall slot, In slot slots ->
      timeToMinutes "09:00" <= slotStartMinutes slot /\
      slotEndMinutes slot = slotStartMinutes slot + durationOrDefault None /\
      slotEndMinutes slot <= timeToMinutes "17:00" /\
      forall a, In a (appointments bookedDb) -> appt_staff a = "b00000000000000000000001" ->
        startOfDay scenarioMonday <= appointmentDate a <= endOfDay scenarioMonday ->
        statusNotIn a = true ->
        ~ overlaps (slotStartMinutes slot) (slotEndMinutes slot)
            (apptStartMinutes a) (apptEndMinutes a).
Proof.
  apply (staff_slot_query 0 bookedDb "b00000000000000000000001" (Some (DateAt scenarioMonday)) None
           scenarioStaff scenarioMonday (mkWindow Monday "09:00" "17:00"));
    try reflexivity.
  cbn. lia.
Defined.
